(** * RA2033 declaration site: signature submission and verification

    A shallow embedding of the worker code of the petition site: the
    [RateLimiter] durable object, the hashing helpers, the handlers
    [POST /api/signatures], [POST /api/signatures/:id/verify] and
    [GET /api/signatures/count], over an explicit model of the D1 tables
    of the schema.

    Conventions.
    - A JavaScript string is modelled by a [string] holding its UTF-8
      bytes, so that [TextEncoder.encode] is the list of its bytes.
      [toLowerCase] works on its code points, with the case mappings of
      Unicode, and regular expressions on its UTF-16 code units.
    - Timestamps ([Date.now()], [new Date()], [expires_at]) are
      milliseconds since the epoch, in [Z].
    - Handlers are functions from the state they read (tables, limiter
      storage) and the inputs the platform feeds them (clock, random
      draws, outcome of the two deliveries) to a response and a new
      state. *)

From Stdlib Require Import ZArith Lia Ascii String DecimalString.
From Stdlib Require DecimalFacts DecimalN DecimalPos Sorted.
From stdpp Require Import gmap strings list.

Local Open Scope string_scope.
Local Open Scope list_scope.
Local Open Scope Z_scope.

(** ** Unicode data

    [toLowerCase] follows the default case conversion of Unicode: the
    lower-case mapping of each code point, with the two cases in which
    the result depends on more than the code point. The tables are those
    of Unicode 14.0. *)

Module Unicode.

(** The code points with a lower-case mapping of their own, each with
    the code point it maps to. *)
Definition lower_pairs : list (Z * Z) := [
  (0x41, 0x61); (0x42, 0x62); (0x43, 0x63); (0x44, 0x64); (0x45, 0x65);
  (0x46, 0x66); (0x47, 0x67); (0x48, 0x68); (0x49, 0x69); (0x4A, 0x6A);
  (0x4B, 0x6B); (0x4C, 0x6C); (0x4D, 0x6D); (0x4E, 0x6E); (0x4F, 0x6F);
  (0x50, 0x70); (0x51, 0x71); (0x52, 0x72); (0x53, 0x73); (0x54, 0x74);
  (0x55, 0x75); (0x56, 0x76); (0x57, 0x77); (0x58, 0x78); (0x59, 0x79);
  (0x5A, 0x7A); (0xC0, 0xE0); (0xC1, 0xE1); (0xC2, 0xE2); (0xC3, 0xE3);
  (0xC4, 0xE4); (0xC5, 0xE5); (0xC6, 0xE6); (0xC7, 0xE7); (0xC8, 0xE8);
  (0xC9, 0xE9); (0xCA, 0xEA); (0xCB, 0xEB); (0xCC, 0xEC); (0xCD, 0xED);
  (0xCE, 0xEE); (0xCF, 0xEF); (0xD0, 0xF0); (0xD1, 0xF1); (0xD2, 0xF2);
  (0xD3, 0xF3); (0xD4, 0xF4); (0xD5, 0xF5); (0xD6, 0xF6); (0xD8, 0xF8);
  (0xD9, 0xF9); (0xDA, 0xFA); (0xDB, 0xFB); (0xDC, 0xFC); (0xDD, 0xFD);
  (0xDE, 0xFE); (0x100, 0x101); (0x102, 0x103); (0x104, 0x105); (0x106, 0x107);
  (0x108, 0x109); (0x10A, 0x10B); (0x10C, 0x10D); (0x10E, 0x10F); (0x110, 0x111);
  (0x112, 0x113); (0x114, 0x115); (0x116, 0x117); (0x118, 0x119); (0x11A, 0x11B);
  (0x11C, 0x11D); (0x11E, 0x11F); (0x120, 0x121); (0x122, 0x123); (0x124, 0x125);
  (0x126, 0x127); (0x128, 0x129); (0x12A, 0x12B); (0x12C, 0x12D); (0x12E, 0x12F);
  (0x132, 0x133); (0x134, 0x135); (0x136, 0x137); (0x139, 0x13A); (0x13B, 0x13C);
  (0x13D, 0x13E); (0x13F, 0x140); (0x141, 0x142); (0x143, 0x144); (0x145, 0x146);
  (0x147, 0x148); (0x14A, 0x14B); (0x14C, 0x14D); (0x14E, 0x14F); (0x150, 0x151);
  (0x152, 0x153); (0x154, 0x155); (0x156, 0x157); (0x158, 0x159); (0x15A, 0x15B);
  (0x15C, 0x15D); (0x15E, 0x15F); (0x160, 0x161); (0x162, 0x163); (0x164, 0x165);
  (0x166, 0x167); (0x168, 0x169); (0x16A, 0x16B); (0x16C, 0x16D); (0x16E, 0x16F);
  (0x170, 0x171); (0x172, 0x173); (0x174, 0x175); (0x176, 0x177); (0x178, 0xFF);
  (0x179, 0x17A); (0x17B, 0x17C); (0x17D, 0x17E); (0x181, 0x253); (0x182, 0x183);
  (0x184, 0x185); (0x186, 0x254); (0x187, 0x188); (0x189, 0x256); (0x18A, 0x257);
  (0x18B, 0x18C); (0x18E, 0x1DD); (0x18F, 0x259); (0x190, 0x25B); (0x191, 0x192);
  (0x193, 0x260); (0x194, 0x263); (0x196, 0x269); (0x197, 0x268); (0x198, 0x199);
  (0x19C, 0x26F); (0x19D, 0x272); (0x19F, 0x275); (0x1A0, 0x1A1); (0x1A2, 0x1A3);
  (0x1A4, 0x1A5); (0x1A6, 0x280); (0x1A7, 0x1A8); (0x1A9, 0x283); (0x1AC, 0x1AD);
  (0x1AE, 0x288); (0x1AF, 0x1B0); (0x1B1, 0x28A); (0x1B2, 0x28B); (0x1B3, 0x1B4);
  (0x1B5, 0x1B6); (0x1B7, 0x292); (0x1B8, 0x1B9); (0x1BC, 0x1BD); (0x1C4, 0x1C6);
  (0x1C5, 0x1C6); (0x1C7, 0x1C9); (0x1C8, 0x1C9); (0x1CA, 0x1CC); (0x1CB, 0x1CC);
  (0x1CD, 0x1CE); (0x1CF, 0x1D0); (0x1D1, 0x1D2); (0x1D3, 0x1D4); (0x1D5, 0x1D6);
  (0x1D7, 0x1D8); (0x1D9, 0x1DA); (0x1DB, 0x1DC); (0x1DE, 0x1DF); (0x1E0, 0x1E1);
  (0x1E2, 0x1E3); (0x1E4, 0x1E5); (0x1E6, 0x1E7); (0x1E8, 0x1E9); (0x1EA, 0x1EB);
  (0x1EC, 0x1ED); (0x1EE, 0x1EF); (0x1F1, 0x1F3); (0x1F2, 0x1F3); (0x1F4, 0x1F5);
  (0x1F6, 0x195); (0x1F7, 0x1BF); (0x1F8, 0x1F9); (0x1FA, 0x1FB); (0x1FC, 0x1FD);
  (0x1FE, 0x1FF); (0x200, 0x201); (0x202, 0x203); (0x204, 0x205); (0x206, 0x207);
  (0x208, 0x209); (0x20A, 0x20B); (0x20C, 0x20D); (0x20E, 0x20F); (0x210, 0x211);
  (0x212, 0x213); (0x214, 0x215); (0x216, 0x217); (0x218, 0x219); (0x21A, 0x21B);
  (0x21C, 0x21D); (0x21E, 0x21F); (0x220, 0x19E); (0x222, 0x223); (0x224, 0x225);
  (0x226, 0x227); (0x228, 0x229); (0x22A, 0x22B); (0x22C, 0x22D); (0x22E, 0x22F);
  (0x230, 0x231); (0x232, 0x233); (0x23A, 0x2C65); (0x23B, 0x23C); (0x23D, 0x19A);
  (0x23E, 0x2C66); (0x241, 0x242); (0x243, 0x180); (0x244, 0x289); (0x245, 0x28C);
  (0x246, 0x247); (0x248, 0x249); (0x24A, 0x24B); (0x24C, 0x24D); (0x24E, 0x24F);
  (0x370, 0x371); (0x372, 0x373); (0x376, 0x377); (0x37F, 0x3F3); (0x386, 0x3AC);
  (0x388, 0x3AD); (0x389, 0x3AE); (0x38A, 0x3AF); (0x38C, 0x3CC); (0x38E, 0x3CD);
  (0x38F, 0x3CE); (0x391, 0x3B1); (0x392, 0x3B2); (0x393, 0x3B3); (0x394, 0x3B4);
  (0x395, 0x3B5); (0x396, 0x3B6); (0x397, 0x3B7); (0x398, 0x3B8); (0x399, 0x3B9);
  (0x39A, 0x3BA); (0x39B, 0x3BB); (0x39C, 0x3BC); (0x39D, 0x3BD); (0x39E, 0x3BE);
  (0x39F, 0x3BF); (0x3A0, 0x3C0); (0x3A1, 0x3C1); (0x3A3, 0x3C3); (0x3A4, 0x3C4);
  (0x3A5, 0x3C5); (0x3A6, 0x3C6); (0x3A7, 0x3C7); (0x3A8, 0x3C8); (0x3A9, 0x3C9);
  (0x3AA, 0x3CA); (0x3AB, 0x3CB); (0x3CF, 0x3D7); (0x3D8, 0x3D9); (0x3DA, 0x3DB);
  (0x3DC, 0x3DD); (0x3DE, 0x3DF); (0x3E0, 0x3E1); (0x3E2, 0x3E3); (0x3E4, 0x3E5);
  (0x3E6, 0x3E7); (0x3E8, 0x3E9); (0x3EA, 0x3EB); (0x3EC, 0x3ED); (0x3EE, 0x3EF);
  (0x3F4, 0x3B8); (0x3F7, 0x3F8); (0x3F9, 0x3F2); (0x3FA, 0x3FB); (0x3FD, 0x37B);
  (0x3FE, 0x37C); (0x3FF, 0x37D); (0x400, 0x450); (0x401, 0x451); (0x402, 0x452);
  (0x403, 0x453); (0x404, 0x454); (0x405, 0x455); (0x406, 0x456); (0x407, 0x457);
  (0x408, 0x458); (0x409, 0x459); (0x40A, 0x45A); (0x40B, 0x45B); (0x40C, 0x45C);
  (0x40D, 0x45D); (0x40E, 0x45E); (0x40F, 0x45F); (0x410, 0x430); (0x411, 0x431);
  (0x412, 0x432); (0x413, 0x433); (0x414, 0x434); (0x415, 0x435); (0x416, 0x436);
  (0x417, 0x437); (0x418, 0x438); (0x419, 0x439); (0x41A, 0x43A); (0x41B, 0x43B);
  (0x41C, 0x43C); (0x41D, 0x43D); (0x41E, 0x43E); (0x41F, 0x43F); (0x420, 0x440);
  (0x421, 0x441); (0x422, 0x442); (0x423, 0x443); (0x424, 0x444); (0x425, 0x445);
  (0x426, 0x446); (0x427, 0x447); (0x428, 0x448); (0x429, 0x449); (0x42A, 0x44A);
  (0x42B, 0x44B); (0x42C, 0x44C); (0x42D, 0x44D); (0x42E, 0x44E); (0x42F, 0x44F);
  (0x460, 0x461); (0x462, 0x463); (0x464, 0x465); (0x466, 0x467); (0x468, 0x469);
  (0x46A, 0x46B); (0x46C, 0x46D); (0x46E, 0x46F); (0x470, 0x471); (0x472, 0x473);
  (0x474, 0x475); (0x476, 0x477); (0x478, 0x479); (0x47A, 0x47B); (0x47C, 0x47D);
  (0x47E, 0x47F); (0x480, 0x481); (0x48A, 0x48B); (0x48C, 0x48D); (0x48E, 0x48F);
  (0x490, 0x491); (0x492, 0x493); (0x494, 0x495); (0x496, 0x497); (0x498, 0x499);
  (0x49A, 0x49B); (0x49C, 0x49D); (0x49E, 0x49F); (0x4A0, 0x4A1); (0x4A2, 0x4A3);
  (0x4A4, 0x4A5); (0x4A6, 0x4A7); (0x4A8, 0x4A9); (0x4AA, 0x4AB); (0x4AC, 0x4AD);
  (0x4AE, 0x4AF); (0x4B0, 0x4B1); (0x4B2, 0x4B3); (0x4B4, 0x4B5); (0x4B6, 0x4B7);
  (0x4B8, 0x4B9); (0x4BA, 0x4BB); (0x4BC, 0x4BD); (0x4BE, 0x4BF); (0x4C0, 0x4CF);
  (0x4C1, 0x4C2); (0x4C3, 0x4C4); (0x4C5, 0x4C6); (0x4C7, 0x4C8); (0x4C9, 0x4CA);
  (0x4CB, 0x4CC); (0x4CD, 0x4CE); (0x4D0, 0x4D1); (0x4D2, 0x4D3); (0x4D4, 0x4D5);
  (0x4D6, 0x4D7); (0x4D8, 0x4D9); (0x4DA, 0x4DB); (0x4DC, 0x4DD); (0x4DE, 0x4DF);
  (0x4E0, 0x4E1); (0x4E2, 0x4E3); (0x4E4, 0x4E5); (0x4E6, 0x4E7); (0x4E8, 0x4E9);
  (0x4EA, 0x4EB); (0x4EC, 0x4ED); (0x4EE, 0x4EF); (0x4F0, 0x4F1); (0x4F2, 0x4F3);
  (0x4F4, 0x4F5); (0x4F6, 0x4F7); (0x4F8, 0x4F9); (0x4FA, 0x4FB); (0x4FC, 0x4FD);
  (0x4FE, 0x4FF); (0x500, 0x501); (0x502, 0x503); (0x504, 0x505); (0x506, 0x507);
  (0x508, 0x509); (0x50A, 0x50B); (0x50C, 0x50D); (0x50E, 0x50F); (0x510, 0x511);
  (0x512, 0x513); (0x514, 0x515); (0x516, 0x517); (0x518, 0x519); (0x51A, 0x51B);
  (0x51C, 0x51D); (0x51E, 0x51F); (0x520, 0x521); (0x522, 0x523); (0x524, 0x525);
  (0x526, 0x527); (0x528, 0x529); (0x52A, 0x52B); (0x52C, 0x52D); (0x52E, 0x52F);
  (0x531, 0x561); (0x532, 0x562); (0x533, 0x563); (0x534, 0x564); (0x535, 0x565);
  (0x536, 0x566); (0x537, 0x567); (0x538, 0x568); (0x539, 0x569); (0x53A, 0x56A);
  (0x53B, 0x56B); (0x53C, 0x56C); (0x53D, 0x56D); (0x53E, 0x56E); (0x53F, 0x56F);
  (0x540, 0x570); (0x541, 0x571); (0x542, 0x572); (0x543, 0x573); (0x544, 0x574);
  (0x545, 0x575); (0x546, 0x576); (0x547, 0x577); (0x548, 0x578); (0x549, 0x579);
  (0x54A, 0x57A); (0x54B, 0x57B); (0x54C, 0x57C); (0x54D, 0x57D); (0x54E, 0x57E);
  (0x54F, 0x57F); (0x550, 0x580); (0x551, 0x581); (0x552, 0x582); (0x553, 0x583);
  (0x554, 0x584); (0x555, 0x585); (0x556, 0x586); (0x10A0, 0x2D00); (0x10A1, 0x2D01);
  (0x10A2, 0x2D02); (0x10A3, 0x2D03); (0x10A4, 0x2D04); (0x10A5, 0x2D05); (0x10A6, 0x2D06);
  (0x10A7, 0x2D07); (0x10A8, 0x2D08); (0x10A9, 0x2D09); (0x10AA, 0x2D0A); (0x10AB, 0x2D0B);
  (0x10AC, 0x2D0C); (0x10AD, 0x2D0D); (0x10AE, 0x2D0E); (0x10AF, 0x2D0F); (0x10B0, 0x2D10);
  (0x10B1, 0x2D11); (0x10B2, 0x2D12); (0x10B3, 0x2D13); (0x10B4, 0x2D14); (0x10B5, 0x2D15);
  (0x10B6, 0x2D16); (0x10B7, 0x2D17); (0x10B8, 0x2D18); (0x10B9, 0x2D19); (0x10BA, 0x2D1A);
  (0x10BB, 0x2D1B); (0x10BC, 0x2D1C); (0x10BD, 0x2D1D); (0x10BE, 0x2D1E); (0x10BF, 0x2D1F);
  (0x10C0, 0x2D20); (0x10C1, 0x2D21); (0x10C2, 0x2D22); (0x10C3, 0x2D23); (0x10C4, 0x2D24);
  (0x10C5, 0x2D25); (0x10C7, 0x2D27); (0x10CD, 0x2D2D); (0x13A0, 0xAB70); (0x13A1, 0xAB71);
  (0x13A2, 0xAB72); (0x13A3, 0xAB73); (0x13A4, 0xAB74); (0x13A5, 0xAB75); (0x13A6, 0xAB76);
  (0x13A7, 0xAB77); (0x13A8, 0xAB78); (0x13A9, 0xAB79); (0x13AA, 0xAB7A); (0x13AB, 0xAB7B);
  (0x13AC, 0xAB7C); (0x13AD, 0xAB7D); (0x13AE, 0xAB7E); (0x13AF, 0xAB7F); (0x13B0, 0xAB80);
  (0x13B1, 0xAB81); (0x13B2, 0xAB82); (0x13B3, 0xAB83); (0x13B4, 0xAB84); (0x13B5, 0xAB85);
  (0x13B6, 0xAB86); (0x13B7, 0xAB87); (0x13B8, 0xAB88); (0x13B9, 0xAB89); (0x13BA, 0xAB8A);
  (0x13BB, 0xAB8B); (0x13BC, 0xAB8C); (0x13BD, 0xAB8D); (0x13BE, 0xAB8E); (0x13BF, 0xAB8F);
  (0x13C0, 0xAB90); (0x13C1, 0xAB91); (0x13C2, 0xAB92); (0x13C3, 0xAB93); (0x13C4, 0xAB94);
  (0x13C5, 0xAB95); (0x13C6, 0xAB96); (0x13C7, 0xAB97); (0x13C8, 0xAB98); (0x13C9, 0xAB99);
  (0x13CA, 0xAB9A); (0x13CB, 0xAB9B); (0x13CC, 0xAB9C); (0x13CD, 0xAB9D); (0x13CE, 0xAB9E);
  (0x13CF, 0xAB9F); (0x13D0, 0xABA0); (0x13D1, 0xABA1); (0x13D2, 0xABA2); (0x13D3, 0xABA3);
  (0x13D4, 0xABA4); (0x13D5, 0xABA5); (0x13D6, 0xABA6); (0x13D7, 0xABA7); (0x13D8, 0xABA8);
  (0x13D9, 0xABA9); (0x13DA, 0xABAA); (0x13DB, 0xABAB); (0x13DC, 0xABAC); (0x13DD, 0xABAD);
  (0x13DE, 0xABAE); (0x13DF, 0xABAF); (0x13E0, 0xABB0); (0x13E1, 0xABB1); (0x13E2, 0xABB2);
  (0x13E3, 0xABB3); (0x13E4, 0xABB4); (0x13E5, 0xABB5); (0x13E6, 0xABB6); (0x13E7, 0xABB7);
  (0x13E8, 0xABB8); (0x13E9, 0xABB9); (0x13EA, 0xABBA); (0x13EB, 0xABBB); (0x13EC, 0xABBC);
  (0x13ED, 0xABBD); (0x13EE, 0xABBE); (0x13EF, 0xABBF); (0x13F0, 0x13F8); (0x13F1, 0x13F9);
  (0x13F2, 0x13FA); (0x13F3, 0x13FB); (0x13F4, 0x13FC); (0x13F5, 0x13FD); (0x1C90, 0x10D0);
  (0x1C91, 0x10D1); (0x1C92, 0x10D2); (0x1C93, 0x10D3); (0x1C94, 0x10D4); (0x1C95, 0x10D5);
  (0x1C96, 0x10D6); (0x1C97, 0x10D7); (0x1C98, 0x10D8); (0x1C99, 0x10D9); (0x1C9A, 0x10DA);
  (0x1C9B, 0x10DB); (0x1C9C, 0x10DC); (0x1C9D, 0x10DD); (0x1C9E, 0x10DE); (0x1C9F, 0x10DF);
  (0x1CA0, 0x10E0); (0x1CA1, 0x10E1); (0x1CA2, 0x10E2); (0x1CA3, 0x10E3); (0x1CA4, 0x10E4);
  (0x1CA5, 0x10E5); (0x1CA6, 0x10E6); (0x1CA7, 0x10E7); (0x1CA8, 0x10E8); (0x1CA9, 0x10E9);
  (0x1CAA, 0x10EA); (0x1CAB, 0x10EB); (0x1CAC, 0x10EC); (0x1CAD, 0x10ED); (0x1CAE, 0x10EE);
  (0x1CAF, 0x10EF); (0x1CB0, 0x10F0); (0x1CB1, 0x10F1); (0x1CB2, 0x10F2); (0x1CB3, 0x10F3);
  (0x1CB4, 0x10F4); (0x1CB5, 0x10F5); (0x1CB6, 0x10F6); (0x1CB7, 0x10F7); (0x1CB8, 0x10F8);
  (0x1CB9, 0x10F9); (0x1CBA, 0x10FA); (0x1CBD, 0x10FD); (0x1CBE, 0x10FE); (0x1CBF, 0x10FF);
  (0x1E00, 0x1E01); (0x1E02, 0x1E03); (0x1E04, 0x1E05); (0x1E06, 0x1E07); (0x1E08, 0x1E09);
  (0x1E0A, 0x1E0B); (0x1E0C, 0x1E0D); (0x1E0E, 0x1E0F); (0x1E10, 0x1E11); (0x1E12, 0x1E13);
  (0x1E14, 0x1E15); (0x1E16, 0x1E17); (0x1E18, 0x1E19); (0x1E1A, 0x1E1B); (0x1E1C, 0x1E1D);
  (0x1E1E, 0x1E1F); (0x1E20, 0x1E21); (0x1E22, 0x1E23); (0x1E24, 0x1E25); (0x1E26, 0x1E27);
  (0x1E28, 0x1E29); (0x1E2A, 0x1E2B); (0x1E2C, 0x1E2D); (0x1E2E, 0x1E2F); (0x1E30, 0x1E31);
  (0x1E32, 0x1E33); (0x1E34, 0x1E35); (0x1E36, 0x1E37); (0x1E38, 0x1E39); (0x1E3A, 0x1E3B);
  (0x1E3C, 0x1E3D); (0x1E3E, 0x1E3F); (0x1E40, 0x1E41); (0x1E42, 0x1E43); (0x1E44, 0x1E45);
  (0x1E46, 0x1E47); (0x1E48, 0x1E49); (0x1E4A, 0x1E4B); (0x1E4C, 0x1E4D); (0x1E4E, 0x1E4F);
  (0x1E50, 0x1E51); (0x1E52, 0x1E53); (0x1E54, 0x1E55); (0x1E56, 0x1E57); (0x1E58, 0x1E59);
  (0x1E5A, 0x1E5B); (0x1E5C, 0x1E5D); (0x1E5E, 0x1E5F); (0x1E60, 0x1E61); (0x1E62, 0x1E63);
  (0x1E64, 0x1E65); (0x1E66, 0x1E67); (0x1E68, 0x1E69); (0x1E6A, 0x1E6B); (0x1E6C, 0x1E6D);
  (0x1E6E, 0x1E6F); (0x1E70, 0x1E71); (0x1E72, 0x1E73); (0x1E74, 0x1E75); (0x1E76, 0x1E77);
  (0x1E78, 0x1E79); (0x1E7A, 0x1E7B); (0x1E7C, 0x1E7D); (0x1E7E, 0x1E7F); (0x1E80, 0x1E81);
  (0x1E82, 0x1E83); (0x1E84, 0x1E85); (0x1E86, 0x1E87); (0x1E88, 0x1E89); (0x1E8A, 0x1E8B);
  (0x1E8C, 0x1E8D); (0x1E8E, 0x1E8F); (0x1E90, 0x1E91); (0x1E92, 0x1E93); (0x1E94, 0x1E95);
  (0x1E9E, 0xDF); (0x1EA0, 0x1EA1); (0x1EA2, 0x1EA3); (0x1EA4, 0x1EA5); (0x1EA6, 0x1EA7);
  (0x1EA8, 0x1EA9); (0x1EAA, 0x1EAB); (0x1EAC, 0x1EAD); (0x1EAE, 0x1EAF); (0x1EB0, 0x1EB1);
  (0x1EB2, 0x1EB3); (0x1EB4, 0x1EB5); (0x1EB6, 0x1EB7); (0x1EB8, 0x1EB9); (0x1EBA, 0x1EBB);
  (0x1EBC, 0x1EBD); (0x1EBE, 0x1EBF); (0x1EC0, 0x1EC1); (0x1EC2, 0x1EC3); (0x1EC4, 0x1EC5);
  (0x1EC6, 0x1EC7); (0x1EC8, 0x1EC9); (0x1ECA, 0x1ECB); (0x1ECC, 0x1ECD); (0x1ECE, 0x1ECF);
  (0x1ED0, 0x1ED1); (0x1ED2, 0x1ED3); (0x1ED4, 0x1ED5); (0x1ED6, 0x1ED7); (0x1ED8, 0x1ED9);
  (0x1EDA, 0x1EDB); (0x1EDC, 0x1EDD); (0x1EDE, 0x1EDF); (0x1EE0, 0x1EE1); (0x1EE2, 0x1EE3);
  (0x1EE4, 0x1EE5); (0x1EE6, 0x1EE7); (0x1EE8, 0x1EE9); (0x1EEA, 0x1EEB); (0x1EEC, 0x1EED);
  (0x1EEE, 0x1EEF); (0x1EF0, 0x1EF1); (0x1EF2, 0x1EF3); (0x1EF4, 0x1EF5); (0x1EF6, 0x1EF7);
  (0x1EF8, 0x1EF9); (0x1EFA, 0x1EFB); (0x1EFC, 0x1EFD); (0x1EFE, 0x1EFF); (0x1F08, 0x1F00);
  (0x1F09, 0x1F01); (0x1F0A, 0x1F02); (0x1F0B, 0x1F03); (0x1F0C, 0x1F04); (0x1F0D, 0x1F05);
  (0x1F0E, 0x1F06); (0x1F0F, 0x1F07); (0x1F18, 0x1F10); (0x1F19, 0x1F11); (0x1F1A, 0x1F12);
  (0x1F1B, 0x1F13); (0x1F1C, 0x1F14); (0x1F1D, 0x1F15); (0x1F28, 0x1F20); (0x1F29, 0x1F21);
  (0x1F2A, 0x1F22); (0x1F2B, 0x1F23); (0x1F2C, 0x1F24); (0x1F2D, 0x1F25); (0x1F2E, 0x1F26);
  (0x1F2F, 0x1F27); (0x1F38, 0x1F30); (0x1F39, 0x1F31); (0x1F3A, 0x1F32); (0x1F3B, 0x1F33);
  (0x1F3C, 0x1F34); (0x1F3D, 0x1F35); (0x1F3E, 0x1F36); (0x1F3F, 0x1F37); (0x1F48, 0x1F40);
  (0x1F49, 0x1F41); (0x1F4A, 0x1F42); (0x1F4B, 0x1F43); (0x1F4C, 0x1F44); (0x1F4D, 0x1F45);
  (0x1F59, 0x1F51); (0x1F5B, 0x1F53); (0x1F5D, 0x1F55); (0x1F5F, 0x1F57); (0x1F68, 0x1F60);
  (0x1F69, 0x1F61); (0x1F6A, 0x1F62); (0x1F6B, 0x1F63); (0x1F6C, 0x1F64); (0x1F6D, 0x1F65);
  (0x1F6E, 0x1F66); (0x1F6F, 0x1F67); (0x1F88, 0x1F80); (0x1F89, 0x1F81); (0x1F8A, 0x1F82);
  (0x1F8B, 0x1F83); (0x1F8C, 0x1F84); (0x1F8D, 0x1F85); (0x1F8E, 0x1F86); (0x1F8F, 0x1F87);
  (0x1F98, 0x1F90); (0x1F99, 0x1F91); (0x1F9A, 0x1F92); (0x1F9B, 0x1F93); (0x1F9C, 0x1F94);
  (0x1F9D, 0x1F95); (0x1F9E, 0x1F96); (0x1F9F, 0x1F97); (0x1FA8, 0x1FA0); (0x1FA9, 0x1FA1);
  (0x1FAA, 0x1FA2); (0x1FAB, 0x1FA3); (0x1FAC, 0x1FA4); (0x1FAD, 0x1FA5); (0x1FAE, 0x1FA6);
  (0x1FAF, 0x1FA7); (0x1FB8, 0x1FB0); (0x1FB9, 0x1FB1); (0x1FBA, 0x1F70); (0x1FBB, 0x1F71);
  (0x1FBC, 0x1FB3); (0x1FC8, 0x1F72); (0x1FC9, 0x1F73); (0x1FCA, 0x1F74); (0x1FCB, 0x1F75);
  (0x1FCC, 0x1FC3); (0x1FD8, 0x1FD0); (0x1FD9, 0x1FD1); (0x1FDA, 0x1F76); (0x1FDB, 0x1F77);
  (0x1FE8, 0x1FE0); (0x1FE9, 0x1FE1); (0x1FEA, 0x1F7A); (0x1FEB, 0x1F7B); (0x1FEC, 0x1FE5);
  (0x1FF8, 0x1F78); (0x1FF9, 0x1F79); (0x1FFA, 0x1F7C); (0x1FFB, 0x1F7D); (0x1FFC, 0x1FF3);
  (0x2126, 0x3C9); (0x212A, 0x6B); (0x212B, 0xE5); (0x2132, 0x214E); (0x2160, 0x2170);
  (0x2161, 0x2171); (0x2162, 0x2172); (0x2163, 0x2173); (0x2164, 0x2174); (0x2165, 0x2175);
  (0x2166, 0x2176); (0x2167, 0x2177); (0x2168, 0x2178); (0x2169, 0x2179); (0x216A, 0x217A);
  (0x216B, 0x217B); (0x216C, 0x217C); (0x216D, 0x217D); (0x216E, 0x217E); (0x216F, 0x217F);
  (0x2183, 0x2184); (0x24B6, 0x24D0); (0x24B7, 0x24D1); (0x24B8, 0x24D2); (0x24B9, 0x24D3);
  (0x24BA, 0x24D4); (0x24BB, 0x24D5); (0x24BC, 0x24D6); (0x24BD, 0x24D7); (0x24BE, 0x24D8);
  (0x24BF, 0x24D9); (0x24C0, 0x24DA); (0x24C1, 0x24DB); (0x24C2, 0x24DC); (0x24C3, 0x24DD);
  (0x24C4, 0x24DE); (0x24C5, 0x24DF); (0x24C6, 0x24E0); (0x24C7, 0x24E1); (0x24C8, 0x24E2);
  (0x24C9, 0x24E3); (0x24CA, 0x24E4); (0x24CB, 0x24E5); (0x24CC, 0x24E6); (0x24CD, 0x24E7);
  (0x24CE, 0x24E8); (0x24CF, 0x24E9); (0x2C00, 0x2C30); (0x2C01, 0x2C31); (0x2C02, 0x2C32);
  (0x2C03, 0x2C33); (0x2C04, 0x2C34); (0x2C05, 0x2C35); (0x2C06, 0x2C36); (0x2C07, 0x2C37);
  (0x2C08, 0x2C38); (0x2C09, 0x2C39); (0x2C0A, 0x2C3A); (0x2C0B, 0x2C3B); (0x2C0C, 0x2C3C);
  (0x2C0D, 0x2C3D); (0x2C0E, 0x2C3E); (0x2C0F, 0x2C3F); (0x2C10, 0x2C40); (0x2C11, 0x2C41);
  (0x2C12, 0x2C42); (0x2C13, 0x2C43); (0x2C14, 0x2C44); (0x2C15, 0x2C45); (0x2C16, 0x2C46);
  (0x2C17, 0x2C47); (0x2C18, 0x2C48); (0x2C19, 0x2C49); (0x2C1A, 0x2C4A); (0x2C1B, 0x2C4B);
  (0x2C1C, 0x2C4C); (0x2C1D, 0x2C4D); (0x2C1E, 0x2C4E); (0x2C1F, 0x2C4F); (0x2C20, 0x2C50);
  (0x2C21, 0x2C51); (0x2C22, 0x2C52); (0x2C23, 0x2C53); (0x2C24, 0x2C54); (0x2C25, 0x2C55);
  (0x2C26, 0x2C56); (0x2C27, 0x2C57); (0x2C28, 0x2C58); (0x2C29, 0x2C59); (0x2C2A, 0x2C5A);
  (0x2C2B, 0x2C5B); (0x2C2C, 0x2C5C); (0x2C2D, 0x2C5D); (0x2C2E, 0x2C5E); (0x2C2F, 0x2C5F);
  (0x2C60, 0x2C61); (0x2C62, 0x26B); (0x2C63, 0x1D7D); (0x2C64, 0x27D); (0x2C67, 0x2C68);
  (0x2C69, 0x2C6A); (0x2C6B, 0x2C6C); (0x2C6D, 0x251); (0x2C6E, 0x271); (0x2C6F, 0x250);
  (0x2C70, 0x252); (0x2C72, 0x2C73); (0x2C75, 0x2C76); (0x2C7E, 0x23F); (0x2C7F, 0x240);
  (0x2C80, 0x2C81); (0x2C82, 0x2C83); (0x2C84, 0x2C85); (0x2C86, 0x2C87); (0x2C88, 0x2C89);
  (0x2C8A, 0x2C8B); (0x2C8C, 0x2C8D); (0x2C8E, 0x2C8F); (0x2C90, 0x2C91); (0x2C92, 0x2C93);
  (0x2C94, 0x2C95); (0x2C96, 0x2C97); (0x2C98, 0x2C99); (0x2C9A, 0x2C9B); (0x2C9C, 0x2C9D);
  (0x2C9E, 0x2C9F); (0x2CA0, 0x2CA1); (0x2CA2, 0x2CA3); (0x2CA4, 0x2CA5); (0x2CA6, 0x2CA7);
  (0x2CA8, 0x2CA9); (0x2CAA, 0x2CAB); (0x2CAC, 0x2CAD); (0x2CAE, 0x2CAF); (0x2CB0, 0x2CB1);
  (0x2CB2, 0x2CB3); (0x2CB4, 0x2CB5); (0x2CB6, 0x2CB7); (0x2CB8, 0x2CB9); (0x2CBA, 0x2CBB);
  (0x2CBC, 0x2CBD); (0x2CBE, 0x2CBF); (0x2CC0, 0x2CC1); (0x2CC2, 0x2CC3); (0x2CC4, 0x2CC5);
  (0x2CC6, 0x2CC7); (0x2CC8, 0x2CC9); (0x2CCA, 0x2CCB); (0x2CCC, 0x2CCD); (0x2CCE, 0x2CCF);
  (0x2CD0, 0x2CD1); (0x2CD2, 0x2CD3); (0x2CD4, 0x2CD5); (0x2CD6, 0x2CD7); (0x2CD8, 0x2CD9);
  (0x2CDA, 0x2CDB); (0x2CDC, 0x2CDD); (0x2CDE, 0x2CDF); (0x2CE0, 0x2CE1); (0x2CE2, 0x2CE3);
  (0x2CEB, 0x2CEC); (0x2CED, 0x2CEE); (0x2CF2, 0x2CF3); (0xA640, 0xA641); (0xA642, 0xA643);
  (0xA644, 0xA645); (0xA646, 0xA647); (0xA648, 0xA649); (0xA64A, 0xA64B); (0xA64C, 0xA64D);
  (0xA64E, 0xA64F); (0xA650, 0xA651); (0xA652, 0xA653); (0xA654, 0xA655); (0xA656, 0xA657);
  (0xA658, 0xA659); (0xA65A, 0xA65B); (0xA65C, 0xA65D); (0xA65E, 0xA65F); (0xA660, 0xA661);
  (0xA662, 0xA663); (0xA664, 0xA665); (0xA666, 0xA667); (0xA668, 0xA669); (0xA66A, 0xA66B);
  (0xA66C, 0xA66D); (0xA680, 0xA681); (0xA682, 0xA683); (0xA684, 0xA685); (0xA686, 0xA687);
  (0xA688, 0xA689); (0xA68A, 0xA68B); (0xA68C, 0xA68D); (0xA68E, 0xA68F); (0xA690, 0xA691);
  (0xA692, 0xA693); (0xA694, 0xA695); (0xA696, 0xA697); (0xA698, 0xA699); (0xA69A, 0xA69B);
  (0xA722, 0xA723); (0xA724, 0xA725); (0xA726, 0xA727); (0xA728, 0xA729); (0xA72A, 0xA72B);
  (0xA72C, 0xA72D); (0xA72E, 0xA72F); (0xA732, 0xA733); (0xA734, 0xA735); (0xA736, 0xA737);
  (0xA738, 0xA739); (0xA73A, 0xA73B); (0xA73C, 0xA73D); (0xA73E, 0xA73F); (0xA740, 0xA741);
  (0xA742, 0xA743); (0xA744, 0xA745); (0xA746, 0xA747); (0xA748, 0xA749); (0xA74A, 0xA74B);
  (0xA74C, 0xA74D); (0xA74E, 0xA74F); (0xA750, 0xA751); (0xA752, 0xA753); (0xA754, 0xA755);
  (0xA756, 0xA757); (0xA758, 0xA759); (0xA75A, 0xA75B); (0xA75C, 0xA75D); (0xA75E, 0xA75F);
  (0xA760, 0xA761); (0xA762, 0xA763); (0xA764, 0xA765); (0xA766, 0xA767); (0xA768, 0xA769);
  (0xA76A, 0xA76B); (0xA76C, 0xA76D); (0xA76E, 0xA76F); (0xA779, 0xA77A); (0xA77B, 0xA77C);
  (0xA77D, 0x1D79); (0xA77E, 0xA77F); (0xA780, 0xA781); (0xA782, 0xA783); (0xA784, 0xA785);
  (0xA786, 0xA787); (0xA78B, 0xA78C); (0xA78D, 0x265); (0xA790, 0xA791); (0xA792, 0xA793);
  (0xA796, 0xA797); (0xA798, 0xA799); (0xA79A, 0xA79B); (0xA79C, 0xA79D); (0xA79E, 0xA79F);
  (0xA7A0, 0xA7A1); (0xA7A2, 0xA7A3); (0xA7A4, 0xA7A5); (0xA7A6, 0xA7A7); (0xA7A8, 0xA7A9);
  (0xA7AA, 0x266); (0xA7AB, 0x25C); (0xA7AC, 0x261); (0xA7AD, 0x26C); (0xA7AE, 0x26A);
  (0xA7B0, 0x29E); (0xA7B1, 0x287); (0xA7B2, 0x29D); (0xA7B3, 0xAB53); (0xA7B4, 0xA7B5);
  (0xA7B6, 0xA7B7); (0xA7B8, 0xA7B9); (0xA7BA, 0xA7BB); (0xA7BC, 0xA7BD); (0xA7BE, 0xA7BF);
  (0xA7C0, 0xA7C1); (0xA7C2, 0xA7C3); (0xA7C4, 0xA794); (0xA7C5, 0x282); (0xA7C6, 0x1D8E);
  (0xA7C7, 0xA7C8); (0xA7C9, 0xA7CA); (0xA7D0, 0xA7D1); (0xA7D6, 0xA7D7); (0xA7D8, 0xA7D9);
  (0xA7F5, 0xA7F6); (0xFF21, 0xFF41); (0xFF22, 0xFF42); (0xFF23, 0xFF43); (0xFF24, 0xFF44);
  (0xFF25, 0xFF45); (0xFF26, 0xFF46); (0xFF27, 0xFF47); (0xFF28, 0xFF48); (0xFF29, 0xFF49);
  (0xFF2A, 0xFF4A); (0xFF2B, 0xFF4B); (0xFF2C, 0xFF4C); (0xFF2D, 0xFF4D); (0xFF2E, 0xFF4E);
  (0xFF2F, 0xFF4F); (0xFF30, 0xFF50); (0xFF31, 0xFF51); (0xFF32, 0xFF52); (0xFF33, 0xFF53);
  (0xFF34, 0xFF54); (0xFF35, 0xFF55); (0xFF36, 0xFF56); (0xFF37, 0xFF57); (0xFF38, 0xFF58);
  (0xFF39, 0xFF59); (0xFF3A, 0xFF5A); (0x10400, 0x10428); (0x10401, 0x10429); (0x10402, 0x1042A);
  (0x10403, 0x1042B); (0x10404, 0x1042C); (0x10405, 0x1042D); (0x10406, 0x1042E); (0x10407, 0x1042F);
  (0x10408, 0x10430); (0x10409, 0x10431); (0x1040A, 0x10432); (0x1040B, 0x10433); (0x1040C, 0x10434);
  (0x1040D, 0x10435); (0x1040E, 0x10436); (0x1040F, 0x10437); (0x10410, 0x10438); (0x10411, 0x10439);
  (0x10412, 0x1043A); (0x10413, 0x1043B); (0x10414, 0x1043C); (0x10415, 0x1043D); (0x10416, 0x1043E);
  (0x10417, 0x1043F); (0x10418, 0x10440); (0x10419, 0x10441); (0x1041A, 0x10442); (0x1041B, 0x10443);
  (0x1041C, 0x10444); (0x1041D, 0x10445); (0x1041E, 0x10446); (0x1041F, 0x10447); (0x10420, 0x10448);
  (0x10421, 0x10449); (0x10422, 0x1044A); (0x10423, 0x1044B); (0x10424, 0x1044C); (0x10425, 0x1044D);
  (0x10426, 0x1044E); (0x10427, 0x1044F); (0x104B0, 0x104D8); (0x104B1, 0x104D9); (0x104B2, 0x104DA);
  (0x104B3, 0x104DB); (0x104B4, 0x104DC); (0x104B5, 0x104DD); (0x104B6, 0x104DE); (0x104B7, 0x104DF);
  (0x104B8, 0x104E0); (0x104B9, 0x104E1); (0x104BA, 0x104E2); (0x104BB, 0x104E3); (0x104BC, 0x104E4);
  (0x104BD, 0x104E5); (0x104BE, 0x104E6); (0x104BF, 0x104E7); (0x104C0, 0x104E8); (0x104C1, 0x104E9);
  (0x104C2, 0x104EA); (0x104C3, 0x104EB); (0x104C4, 0x104EC); (0x104C5, 0x104ED); (0x104C6, 0x104EE);
  (0x104C7, 0x104EF); (0x104C8, 0x104F0); (0x104C9, 0x104F1); (0x104CA, 0x104F2); (0x104CB, 0x104F3);
  (0x104CC, 0x104F4); (0x104CD, 0x104F5); (0x104CE, 0x104F6); (0x104CF, 0x104F7); (0x104D0, 0x104F8);
  (0x104D1, 0x104F9); (0x104D2, 0x104FA); (0x104D3, 0x104FB); (0x10570, 0x10597); (0x10571, 0x10598);
  (0x10572, 0x10599); (0x10573, 0x1059A); (0x10574, 0x1059B); (0x10575, 0x1059C); (0x10576, 0x1059D);
  (0x10577, 0x1059E); (0x10578, 0x1059F); (0x10579, 0x105A0); (0x1057A, 0x105A1); (0x1057C, 0x105A3);
  (0x1057D, 0x105A4); (0x1057E, 0x105A5); (0x1057F, 0x105A6); (0x10580, 0x105A7); (0x10581, 0x105A8);
  (0x10582, 0x105A9); (0x10583, 0x105AA); (0x10584, 0x105AB); (0x10585, 0x105AC); (0x10586, 0x105AD);
  (0x10587, 0x105AE); (0x10588, 0x105AF); (0x10589, 0x105B0); (0x1058A, 0x105B1); (0x1058C, 0x105B3);
  (0x1058D, 0x105B4); (0x1058E, 0x105B5); (0x1058F, 0x105B6); (0x10590, 0x105B7); (0x10591, 0x105B8);
  (0x10592, 0x105B9); (0x10594, 0x105BB); (0x10595, 0x105BC); (0x10C80, 0x10CC0); (0x10C81, 0x10CC1);
  (0x10C82, 0x10CC2); (0x10C83, 0x10CC3); (0x10C84, 0x10CC4); (0x10C85, 0x10CC5); (0x10C86, 0x10CC6);
  (0x10C87, 0x10CC7); (0x10C88, 0x10CC8); (0x10C89, 0x10CC9); (0x10C8A, 0x10CCA); (0x10C8B, 0x10CCB);
  (0x10C8C, 0x10CCC); (0x10C8D, 0x10CCD); (0x10C8E, 0x10CCE); (0x10C8F, 0x10CCF); (0x10C90, 0x10CD0);
  (0x10C91, 0x10CD1); (0x10C92, 0x10CD2); (0x10C93, 0x10CD3); (0x10C94, 0x10CD4); (0x10C95, 0x10CD5);
  (0x10C96, 0x10CD6); (0x10C97, 0x10CD7); (0x10C98, 0x10CD8); (0x10C99, 0x10CD9); (0x10C9A, 0x10CDA);
  (0x10C9B, 0x10CDB); (0x10C9C, 0x10CDC); (0x10C9D, 0x10CDD); (0x10C9E, 0x10CDE); (0x10C9F, 0x10CDF);
  (0x10CA0, 0x10CE0); (0x10CA1, 0x10CE1); (0x10CA2, 0x10CE2); (0x10CA3, 0x10CE3); (0x10CA4, 0x10CE4);
  (0x10CA5, 0x10CE5); (0x10CA6, 0x10CE6); (0x10CA7, 0x10CE7); (0x10CA8, 0x10CE8); (0x10CA9, 0x10CE9);
  (0x10CAA, 0x10CEA); (0x10CAB, 0x10CEB); (0x10CAC, 0x10CEC); (0x10CAD, 0x10CED); (0x10CAE, 0x10CEE);
  (0x10CAF, 0x10CEF); (0x10CB0, 0x10CF0); (0x10CB1, 0x10CF1); (0x10CB2, 0x10CF2); (0x118A0, 0x118C0);
  (0x118A1, 0x118C1); (0x118A2, 0x118C2); (0x118A3, 0x118C3); (0x118A4, 0x118C4); (0x118A5, 0x118C5);
  (0x118A6, 0x118C6); (0x118A7, 0x118C7); (0x118A8, 0x118C8); (0x118A9, 0x118C9); (0x118AA, 0x118CA);
  (0x118AB, 0x118CB); (0x118AC, 0x118CC); (0x118AD, 0x118CD); (0x118AE, 0x118CE); (0x118AF, 0x118CF);
  (0x118B0, 0x118D0); (0x118B1, 0x118D1); (0x118B2, 0x118D2); (0x118B3, 0x118D3); (0x118B4, 0x118D4);
  (0x118B5, 0x118D5); (0x118B6, 0x118D6); (0x118B7, 0x118D7); (0x118B8, 0x118D8); (0x118B9, 0x118D9);
  (0x118BA, 0x118DA); (0x118BB, 0x118DB); (0x118BC, 0x118DC); (0x118BD, 0x118DD); (0x118BE, 0x118DE);
  (0x118BF, 0x118DF); (0x16E40, 0x16E60); (0x16E41, 0x16E61); (0x16E42, 0x16E62); (0x16E43, 0x16E63);
  (0x16E44, 0x16E64); (0x16E45, 0x16E65); (0x16E46, 0x16E66); (0x16E47, 0x16E67); (0x16E48, 0x16E68);
  (0x16E49, 0x16E69); (0x16E4A, 0x16E6A); (0x16E4B, 0x16E6B); (0x16E4C, 0x16E6C); (0x16E4D, 0x16E6D);
  (0x16E4E, 0x16E6E); (0x16E4F, 0x16E6F); (0x16E50, 0x16E70); (0x16E51, 0x16E71); (0x16E52, 0x16E72);
  (0x16E53, 0x16E73); (0x16E54, 0x16E74); (0x16E55, 0x16E75); (0x16E56, 0x16E76); (0x16E57, 0x16E77);
  (0x16E58, 0x16E78); (0x16E59, 0x16E79); (0x16E5A, 0x16E7A); (0x16E5B, 0x16E7B); (0x16E5C, 0x16E7C);
  (0x16E5D, 0x16E7D); (0x16E5E, 0x16E7E); (0x16E5F, 0x16E7F); (0x1E900, 0x1E922); (0x1E901, 0x1E923);
  (0x1E902, 0x1E924); (0x1E903, 0x1E925); (0x1E904, 0x1E926); (0x1E905, 0x1E927); (0x1E906, 0x1E928);
  (0x1E907, 0x1E929); (0x1E908, 0x1E92A); (0x1E909, 0x1E92B); (0x1E90A, 0x1E92C); (0x1E90B, 0x1E92D);
  (0x1E90C, 0x1E92E); (0x1E90D, 0x1E92F); (0x1E90E, 0x1E930); (0x1E90F, 0x1E931); (0x1E910, 0x1E932);
  (0x1E911, 0x1E933); (0x1E912, 0x1E934); (0x1E913, 0x1E935); (0x1E914, 0x1E936); (0x1E915, 0x1E937);
  (0x1E916, 0x1E938); (0x1E917, 0x1E939); (0x1E918, 0x1E93A); (0x1E919, 0x1E93B); (0x1E91A, 0x1E93C);
  (0x1E91B, 0x1E93D); (0x1E91C, 0x1E93E); (0x1E91D, 0x1E93F); (0x1E91E, 0x1E940); (0x1E91F, 0x1E941);
  (0x1E920, 0x1E942); (0x1E921, 0x1E943)
].

(** The code points with the property [Cased], as ranges. *)
Definition cased_ranges : list (Z * Z) := [
  (0x41, 0x5A); (0x61, 0x7A); (0xAA, 0xAA); (0xB5, 0xB5); (0xBA, 0xBA);
  (0xC0, 0xD6); (0xD8, 0xF6); (0xF8, 0x1BA); (0x1BC, 0x1BF); (0x1C4, 0x293);
  (0x295, 0x2B8); (0x2C0, 0x2C1); (0x2E0, 0x2E4); (0x345, 0x345); (0x370, 0x373);
  (0x376, 0x377); (0x37A, 0x37D); (0x37F, 0x37F); (0x386, 0x386); (0x388, 0x38A);
  (0x38C, 0x38C); (0x38E, 0x3A1); (0x3A3, 0x3F5); (0x3F7, 0x481); (0x48A, 0x52F);
  (0x531, 0x556); (0x560, 0x588); (0x10A0, 0x10C5); (0x10C7, 0x10C7); (0x10CD, 0x10CD);
  (0x10D0, 0x10FA); (0x10FD, 0x10FF); (0x13A0, 0x13F5); (0x13F8, 0x13FD); (0x1C80, 0x1C88);
  (0x1C90, 0x1CBA); (0x1CBD, 0x1CBF); (0x1D00, 0x1DBF); (0x1E00, 0x1F15); (0x1F18, 0x1F1D);
  (0x1F20, 0x1F45); (0x1F48, 0x1F4D); (0x1F50, 0x1F57); (0x1F59, 0x1F59); (0x1F5B, 0x1F5B);
  (0x1F5D, 0x1F5D); (0x1F5F, 0x1F7D); (0x1F80, 0x1FB4); (0x1FB6, 0x1FBC); (0x1FBE, 0x1FBE);
  (0x1FC2, 0x1FC4); (0x1FC6, 0x1FCC); (0x1FD0, 0x1FD3); (0x1FD6, 0x1FDB); (0x1FE0, 0x1FEC);
  (0x1FF2, 0x1FF4); (0x1FF6, 0x1FFC); (0x2071, 0x2071); (0x207F, 0x207F); (0x2090, 0x209C);
  (0x2102, 0x2102); (0x2107, 0x2107); (0x210A, 0x2113); (0x2115, 0x2115); (0x2119, 0x211D);
  (0x2124, 0x2124); (0x2126, 0x2126); (0x2128, 0x2128); (0x212A, 0x212D); (0x212F, 0x2134);
  (0x2139, 0x2139); (0x213C, 0x213F); (0x2145, 0x2149); (0x214E, 0x214E); (0x2160, 0x217F);
  (0x2183, 0x2184); (0x24B6, 0x24E9); (0x2C00, 0x2CE4); (0x2CEB, 0x2CEE); (0x2CF2, 0x2CF3);
  (0x2D00, 0x2D25); (0x2D27, 0x2D27); (0x2D2D, 0x2D2D); (0xA640, 0xA66D); (0xA680, 0xA69D);
  (0xA722, 0xA787); (0xA78B, 0xA78E); (0xA790, 0xA7CA); (0xA7D0, 0xA7D1); (0xA7D3, 0xA7D3);
  (0xA7D5, 0xA7D9); (0xA7F5, 0xA7F6); (0xA7F8, 0xA7FA); (0xAB30, 0xAB5A); (0xAB5C, 0xAB68);
  (0xAB70, 0xABBF); (0xFB00, 0xFB06); (0xFB13, 0xFB17); (0xFF21, 0xFF3A); (0xFF41, 0xFF5A);
  (0x10400, 0x1044F); (0x104B0, 0x104D3); (0x104D8, 0x104FB); (0x10570, 0x1057A); (0x1057C, 0x1058A);
  (0x1058C, 0x10592); (0x10594, 0x10595); (0x10597, 0x105A1); (0x105A3, 0x105B1); (0x105B3, 0x105B9);
  (0x105BB, 0x105BC); (0x10780, 0x10780); (0x10783, 0x10785); (0x10787, 0x107B0); (0x107B2, 0x107BA);
  (0x10C80, 0x10CB2); (0x10CC0, 0x10CF2); (0x118A0, 0x118DF); (0x16E40, 0x16E7F); (0x1D400, 0x1D454);
  (0x1D456, 0x1D49C); (0x1D49E, 0x1D49F); (0x1D4A2, 0x1D4A2); (0x1D4A5, 0x1D4A6); (0x1D4A9, 0x1D4AC);
  (0x1D4AE, 0x1D4B9); (0x1D4BB, 0x1D4BB); (0x1D4BD, 0x1D4C3); (0x1D4C5, 0x1D505); (0x1D507, 0x1D50A);
  (0x1D50D, 0x1D514); (0x1D516, 0x1D51C); (0x1D51E, 0x1D539); (0x1D53B, 0x1D53E); (0x1D540, 0x1D544);
  (0x1D546, 0x1D546); (0x1D54A, 0x1D550); (0x1D552, 0x1D6A5); (0x1D6A8, 0x1D6C0); (0x1D6C2, 0x1D6DA);
  (0x1D6DC, 0x1D6FA); (0x1D6FC, 0x1D714); (0x1D716, 0x1D734); (0x1D736, 0x1D74E); (0x1D750, 0x1D76E);
  (0x1D770, 0x1D788); (0x1D78A, 0x1D7A8); (0x1D7AA, 0x1D7C2); (0x1D7C4, 0x1D7CB); (0x1DF00, 0x1DF09);
  (0x1DF0B, 0x1DF1E); (0x1E900, 0x1E943); (0x1F130, 0x1F149); (0x1F150, 0x1F169); (0x1F170, 0x1F189)
].

(** The code points with the property [Case_Ignorable], as ranges. *)
Definition case_ignorable_ranges : list (Z * Z) := [
  (0x27, 0x27); (0x2E, 0x2E); (0x3A, 0x3A); (0x5E, 0x5E); (0x60, 0x60);
  (0xA8, 0xA8); (0xAD, 0xAD); (0xAF, 0xAF); (0xB4, 0xB4); (0xB7, 0xB8);
  (0x2B0, 0x36F); (0x374, 0x375); (0x37A, 0x37A); (0x384, 0x385); (0x387, 0x387);
  (0x483, 0x489); (0x559, 0x559); (0x55F, 0x55F); (0x591, 0x5BD); (0x5BF, 0x5BF);
  (0x5C1, 0x5C2); (0x5C4, 0x5C5); (0x5C7, 0x5C7); (0x5F4, 0x5F4); (0x600, 0x605);
  (0x610, 0x61A); (0x61C, 0x61C); (0x640, 0x640); (0x64B, 0x65F); (0x670, 0x670);
  (0x6D6, 0x6DD); (0x6DF, 0x6E8); (0x6EA, 0x6ED); (0x70F, 0x70F); (0x711, 0x711);
  (0x730, 0x74A); (0x7A6, 0x7B0); (0x7EB, 0x7F5); (0x7FA, 0x7FA); (0x7FD, 0x7FD);
  (0x816, 0x82D); (0x859, 0x85B); (0x888, 0x888); (0x890, 0x891); (0x898, 0x89F);
  (0x8C9, 0x902); (0x93A, 0x93A); (0x93C, 0x93C); (0x941, 0x948); (0x94D, 0x94D);
  (0x951, 0x957); (0x962, 0x963); (0x971, 0x971); (0x981, 0x981); (0x9BC, 0x9BC);
  (0x9C1, 0x9C4); (0x9CD, 0x9CD); (0x9E2, 0x9E3); (0x9FE, 0x9FE); (0xA01, 0xA02);
  (0xA3C, 0xA3C); (0xA41, 0xA42); (0xA47, 0xA48); (0xA4B, 0xA4D); (0xA51, 0xA51);
  (0xA70, 0xA71); (0xA75, 0xA75); (0xA81, 0xA82); (0xABC, 0xABC); (0xAC1, 0xAC5);
  (0xAC7, 0xAC8); (0xACD, 0xACD); (0xAE2, 0xAE3); (0xAFA, 0xAFF); (0xB01, 0xB01);
  (0xB3C, 0xB3C); (0xB3F, 0xB3F); (0xB41, 0xB44); (0xB4D, 0xB4D); (0xB55, 0xB56);
  (0xB62, 0xB63); (0xB82, 0xB82); (0xBC0, 0xBC0); (0xBCD, 0xBCD); (0xC00, 0xC00);
  (0xC04, 0xC04); (0xC3C, 0xC3C); (0xC3E, 0xC40); (0xC46, 0xC48); (0xC4A, 0xC4D);
  (0xC55, 0xC56); (0xC62, 0xC63); (0xC81, 0xC81); (0xCBC, 0xCBC); (0xCBF, 0xCBF);
  (0xCC6, 0xCC6); (0xCCC, 0xCCD); (0xCE2, 0xCE3); (0xD00, 0xD01); (0xD3B, 0xD3C);
  (0xD41, 0xD44); (0xD4D, 0xD4D); (0xD62, 0xD63); (0xD81, 0xD81); (0xDCA, 0xDCA);
  (0xDD2, 0xDD4); (0xDD6, 0xDD6); (0xE31, 0xE31); (0xE34, 0xE3A); (0xE46, 0xE4E);
  (0xEB1, 0xEB1); (0xEB4, 0xEBC); (0xEC6, 0xEC6); (0xEC8, 0xECD); (0xF18, 0xF19);
  (0xF35, 0xF35); (0xF37, 0xF37); (0xF39, 0xF39); (0xF71, 0xF7E); (0xF80, 0xF84);
  (0xF86, 0xF87); (0xF8D, 0xF97); (0xF99, 0xFBC); (0xFC6, 0xFC6); (0x102D, 0x1030);
  (0x1032, 0x1037); (0x1039, 0x103A); (0x103D, 0x103E); (0x1058, 0x1059); (0x105E, 0x1060);
  (0x1071, 0x1074); (0x1082, 0x1082); (0x1085, 0x1086); (0x108D, 0x108D); (0x109D, 0x109D);
  (0x10FC, 0x10FC); (0x135D, 0x135F); (0x1712, 0x1714); (0x1732, 0x1733); (0x1752, 0x1753);
  (0x1772, 0x1773); (0x17B4, 0x17B5); (0x17B7, 0x17BD); (0x17C6, 0x17C6); (0x17C9, 0x17D3);
  (0x17D7, 0x17D7); (0x17DD, 0x17DD); (0x180B, 0x180F); (0x1843, 0x1843); (0x1885, 0x1886);
  (0x18A9, 0x18A9); (0x1920, 0x1922); (0x1927, 0x1928); (0x1932, 0x1932); (0x1939, 0x193B);
  (0x1A17, 0x1A18); (0x1A1B, 0x1A1B); (0x1A56, 0x1A56); (0x1A58, 0x1A5E); (0x1A60, 0x1A60);
  (0x1A62, 0x1A62); (0x1A65, 0x1A6C); (0x1A73, 0x1A7C); (0x1A7F, 0x1A7F); (0x1AA7, 0x1AA7);
  (0x1AB0, 0x1ACE); (0x1B00, 0x1B03); (0x1B34, 0x1B34); (0x1B36, 0x1B3A); (0x1B3C, 0x1B3C);
  (0x1B42, 0x1B42); (0x1B6B, 0x1B73); (0x1B80, 0x1B81); (0x1BA2, 0x1BA5); (0x1BA8, 0x1BA9);
  (0x1BAB, 0x1BAD); (0x1BE6, 0x1BE6); (0x1BE8, 0x1BE9); (0x1BED, 0x1BED); (0x1BEF, 0x1BF1);
  (0x1C2C, 0x1C33); (0x1C36, 0x1C37); (0x1C78, 0x1C7D); (0x1CD0, 0x1CD2); (0x1CD4, 0x1CE0);
  (0x1CE2, 0x1CE8); (0x1CED, 0x1CED); (0x1CF4, 0x1CF4); (0x1CF8, 0x1CF9); (0x1D2C, 0x1D6A);
  (0x1D78, 0x1D78); (0x1D9B, 0x1DFF); (0x1FBD, 0x1FBD); (0x1FBF, 0x1FC1); (0x1FCD, 0x1FCF);
  (0x1FDD, 0x1FDF); (0x1FED, 0x1FEF); (0x1FFD, 0x1FFE); (0x200B, 0x200F); (0x2018, 0x2019);
  (0x2024, 0x2024); (0x2027, 0x2027); (0x202A, 0x202E); (0x2060, 0x2064); (0x2066, 0x206F);
  (0x2071, 0x2071); (0x207F, 0x207F); (0x2090, 0x209C); (0x20D0, 0x20F0); (0x2C7C, 0x2C7D);
  (0x2CEF, 0x2CF1); (0x2D6F, 0x2D6F); (0x2D7F, 0x2D7F); (0x2DE0, 0x2DFF); (0x2E2F, 0x2E2F);
  (0x3005, 0x3005); (0x302A, 0x302D); (0x3031, 0x3035); (0x303B, 0x303B); (0x3099, 0x309E);
  (0x30FC, 0x30FE); (0xA015, 0xA015); (0xA4F8, 0xA4FD); (0xA60C, 0xA60C); (0xA66F, 0xA672);
  (0xA674, 0xA67D); (0xA67F, 0xA67F); (0xA69C, 0xA69F); (0xA6F0, 0xA6F1); (0xA700, 0xA721);
  (0xA770, 0xA770); (0xA788, 0xA78A); (0xA7F2, 0xA7F4); (0xA7F8, 0xA7F9); (0xA802, 0xA802);
  (0xA806, 0xA806); (0xA80B, 0xA80B); (0xA825, 0xA826); (0xA82C, 0xA82C); (0xA8C4, 0xA8C5);
  (0xA8E0, 0xA8F1); (0xA8FF, 0xA8FF); (0xA926, 0xA92D); (0xA947, 0xA951); (0xA980, 0xA982);
  (0xA9B3, 0xA9B3); (0xA9B6, 0xA9B9); (0xA9BC, 0xA9BD); (0xA9CF, 0xA9CF); (0xA9E5, 0xA9E6);
  (0xAA29, 0xAA2E); (0xAA31, 0xAA32); (0xAA35, 0xAA36); (0xAA43, 0xAA43); (0xAA4C, 0xAA4C);
  (0xAA70, 0xAA70); (0xAA7C, 0xAA7C); (0xAAB0, 0xAAB0); (0xAAB2, 0xAAB4); (0xAAB7, 0xAAB8);
  (0xAABE, 0xAABF); (0xAAC1, 0xAAC1); (0xAADD, 0xAADD); (0xAAEC, 0xAAED); (0xAAF3, 0xAAF4);
  (0xAAF6, 0xAAF6); (0xAB5B, 0xAB5F); (0xAB69, 0xAB6B); (0xABE5, 0xABE5); (0xABE8, 0xABE8);
  (0xABED, 0xABED); (0xFB1E, 0xFB1E); (0xFBB2, 0xFBC2); (0xFE00, 0xFE0F); (0xFE13, 0xFE13);
  (0xFE20, 0xFE2F); (0xFE52, 0xFE52); (0xFE55, 0xFE55); (0xFEFF, 0xFEFF); (0xFF07, 0xFF07);
  (0xFF0E, 0xFF0E); (0xFF1A, 0xFF1A); (0xFF3E, 0xFF3E); (0xFF40, 0xFF40); (0xFF70, 0xFF70);
  (0xFF9E, 0xFF9F); (0xFFE3, 0xFFE3); (0xFFF9, 0xFFFB); (0x101FD, 0x101FD); (0x102E0, 0x102E0);
  (0x10376, 0x1037A); (0x10780, 0x10785); (0x10787, 0x107B0); (0x107B2, 0x107BA); (0x10A01, 0x10A03);
  (0x10A05, 0x10A06); (0x10A0C, 0x10A0F); (0x10A38, 0x10A3A); (0x10A3F, 0x10A3F); (0x10AE5, 0x10AE6);
  (0x10D24, 0x10D27); (0x10EAB, 0x10EAC); (0x10F46, 0x10F50); (0x10F82, 0x10F85); (0x11001, 0x11001);
  (0x11038, 0x11046); (0x11070, 0x11070); (0x11073, 0x11074); (0x1107F, 0x11081); (0x110B3, 0x110B6);
  (0x110B9, 0x110BA); (0x110BD, 0x110BD); (0x110C2, 0x110C2); (0x110CD, 0x110CD); (0x11100, 0x11102);
  (0x11127, 0x1112B); (0x1112D, 0x11134); (0x11173, 0x11173); (0x11180, 0x11181); (0x111B6, 0x111BE);
  (0x111C9, 0x111CC); (0x111CF, 0x111CF); (0x1122F, 0x11231); (0x11234, 0x11234); (0x11236, 0x11237);
  (0x1123E, 0x1123E); (0x112DF, 0x112DF); (0x112E3, 0x112EA); (0x11300, 0x11301); (0x1133B, 0x1133C);
  (0x11340, 0x11340); (0x11366, 0x1136C); (0x11370, 0x11374); (0x11438, 0x1143F); (0x11442, 0x11444);
  (0x11446, 0x11446); (0x1145E, 0x1145E); (0x114B3, 0x114B8); (0x114BA, 0x114BA); (0x114BF, 0x114C0);
  (0x114C2, 0x114C3); (0x115B2, 0x115B5); (0x115BC, 0x115BD); (0x115BF, 0x115C0); (0x115DC, 0x115DD);
  (0x11633, 0x1163A); (0x1163D, 0x1163D); (0x1163F, 0x11640); (0x116AB, 0x116AB); (0x116AD, 0x116AD);
  (0x116B0, 0x116B5); (0x116B7, 0x116B7); (0x1171D, 0x1171F); (0x11722, 0x11725); (0x11727, 0x1172B);
  (0x1182F, 0x11837); (0x11839, 0x1183A); (0x1193B, 0x1193C); (0x1193E, 0x1193E); (0x11943, 0x11943);
  (0x119D4, 0x119D7); (0x119DA, 0x119DB); (0x119E0, 0x119E0); (0x11A01, 0x11A0A); (0x11A33, 0x11A38);
  (0x11A3B, 0x11A3E); (0x11A47, 0x11A47); (0x11A51, 0x11A56); (0x11A59, 0x11A5B); (0x11A8A, 0x11A96);
  (0x11A98, 0x11A99); (0x11C30, 0x11C36); (0x11C38, 0x11C3D); (0x11C3F, 0x11C3F); (0x11C92, 0x11CA7);
  (0x11CAA, 0x11CB0); (0x11CB2, 0x11CB3); (0x11CB5, 0x11CB6); (0x11D31, 0x11D36); (0x11D3A, 0x11D3A);
  (0x11D3C, 0x11D3D); (0x11D3F, 0x11D45); (0x11D47, 0x11D47); (0x11D90, 0x11D91); (0x11D95, 0x11D95);
  (0x11D97, 0x11D97); (0x11EF3, 0x11EF4); (0x13430, 0x13438); (0x16AF0, 0x16AF4); (0x16B30, 0x16B36);
  (0x16B40, 0x16B43); (0x16F4F, 0x16F4F); (0x16F8F, 0x16F9F); (0x16FE0, 0x16FE1); (0x16FE3, 0x16FE4);
  (0x1AFF0, 0x1AFF3); (0x1AFF5, 0x1AFFB); (0x1AFFD, 0x1AFFE); (0x1BC9D, 0x1BC9E); (0x1BCA0, 0x1BCA3);
  (0x1CF00, 0x1CF2D); (0x1CF30, 0x1CF46); (0x1D167, 0x1D169); (0x1D173, 0x1D182); (0x1D185, 0x1D18B);
  (0x1D1AA, 0x1D1AD); (0x1D242, 0x1D244); (0x1DA00, 0x1DA36); (0x1DA3B, 0x1DA6C); (0x1DA75, 0x1DA75);
  (0x1DA84, 0x1DA84); (0x1DA9B, 0x1DA9F); (0x1DAA1, 0x1DAAF); (0x1E000, 0x1E006); (0x1E008, 0x1E018);
  (0x1E01B, 0x1E021); (0x1E023, 0x1E024); (0x1E026, 0x1E02A); (0x1E130, 0x1E13D); (0x1E2AE, 0x1E2AE);
  (0x1E2EC, 0x1E2EF); (0x1E8D0, 0x1E8D6); (0x1E944, 0x1E94B); (0x1F3FB, 0x1F3FF); (0xE0001, 0xE0001);
  (0xE0020, 0xE007F); (0xE0100, 0xE01EF)
].

Definition in_ranges (ranges : list (Z * Z)) (c : Z) : bool :=
  existsb (fun r => (fst r <=? c) && (c <=? snd r)) ranges.

Definition cased (c : Z) : bool := in_ranges cased_ranges c.
Definition case_ignorable (c : Z) : bool := in_ranges case_ignorable_ranges c.

Fixpoint assoc (c : Z) (l : list (Z * Z)) : option Z :=
  match l with
  | [] => None
  | (u, d) :: r => if u =? c then Some d else assoc c r
  end.

Definition simple_lower (c : Z) : Z :=
  match assoc c lower_pairs with
  | Some d => d
  | None => c
  end.

Definition capital_sigma : Z := 0x3A3.
Definition small_sigma : Z := 0x3C3.
Definition final_sigma : Z := 0x3C2.
Definition capital_i_dot : Z := 0x130.

(** What follows, case-ignorable code points passed over, is a cased
    letter. *)
Fixpoint followed_by_cased (l : list Z) : bool :=
  match l with
  | [] => false
  | c :: r => if case_ignorable c then followed_by_cased r else cased c
  end.

(** The lower-case form of a sequence of code points. A capital sigma
    that ends a word (a cased letter before it, none after it, in both
    directions past case-ignorable code points) becomes a final sigma;
    a capital I with a dot becomes an i and a combining dot.
    [after_cased] tells whether the code point before, case-ignorable
    ones passed over, is a cased letter. *)
Fixpoint lower (after_cased : bool) (l : list Z) : list Z :=
  match l with
  | [] => []
  | c :: r =>
      (if c =? capital_sigma then
         if after_cased && negb (followed_by_cased r)
         then [final_sigma] else [small_sigma]
       else if c =? capital_i_dot then [0x69; 0x307]
       else [simple_lower c])
      ++ lower (if case_ignorable c then after_cased else cased c) r
  end.

(** What the table of lower-case mappings never does: map to a code
    point that is mapped itself, map to the capital sigma, map from or
    to the capital I with a dot, or pair a code point with one that
    counts otherwise in the rule of the final sigma. *)
Definition well_paired (pair : Z * Z) : bool :=
  match assoc (snd pair) lower_pairs with
  | None => true
  | Some _ => false
  end
  && negb (snd pair =? capital_sigma)
  && negb (snd pair =? capital_i_dot)
  && negb (fst pair =? capital_i_dot)
  && Bool.eqb (case_ignorable (fst pair)) (case_ignorable (snd pair))
  && Bool.eqb (cased (fst pair)) (cased (snd pair)).

(** Two code points that [lower] treats alike. *)
Definition alike (a b : Z) : Prop :=
  (a =? capital_sigma) = (b =? capital_sigma)
  /\ (a =? capital_i_dot) = (b =? capital_i_dot)
  /\ simple_lower a = simple_lower b
  /\ case_ignorable a = case_ignorable b
  /\ cased a = cased b.

End Unicode.

(** ** Strings

    A [string] holds the UTF-8 bytes of a JavaScript string. [points]
    reads them back as code points the way the platform decodes UTF-8 (a
    byte that belongs to no well-formed sequence is read as U+FFFD), and
    [units] gives the UTF-16 code units that JavaScript indexes and that
    regular expressions run over. A lone surrogate, which UTF-8 cannot
    hold, is not told apart from U+FFFD: [TextEncoder] does not tell
    them apart either. *)

Module Str.

Definition chars (s : string) : list ascii := list_ascii_of_string s.
Definition of_chars (l : list ascii) : string := string_of_list_ascii l.

Definition code (c : ascii) : Z := Z.of_N (N_of_ascii c).
Definition byte (b : Z) : ascii := ascii_of_N (Z.to_N b).

(** *** UTF-8 and UTF-16 *)

(** A sequence begun: the bits read so far, the number of bytes still
    to come, and the range the next byte must lie in. *)
Record pending : Type :=
  Pending { bits : Z; needed : Z; lower_boundary : Z; upper_boundary : Z }.

Inductive lead : Type :=
| Single : Z -> lead
| Lead : pending -> lead
| Stray : lead.

(** The byte read when no sequence is begun. *)
Definition first_byte (b : Z) : lead :=
  if b <=? 0x7F then Single b
  else if (0xC2 <=? b) && (b <=? 0xDF)
  then Lead (Pending (Z.land b 0x1F) 1 0x80 0xBF)
  else if (0xE0 <=? b) && (b <=? 0xEF)
  then Lead (Pending (Z.land b 0xF) 2
               (if b =? 0xE0 then 0xA0 else 0x80)
               (if b =? 0xED then 0x9F else 0xBF))
  else if (0xF0 <=? b) && (b <=? 0xF4)
  then Lead (Pending (Z.land b 0x7) 3
               (if b =? 0xF0 then 0x90 else 0x80)
               (if b =? 0xF4 then 0x8F else 0xBF))
  else Stray.

Definition replacement : Z := 0xFFFD.

(** The UTF-8 decoder: a byte out of range ends the sequence begun with
    U+FFFD and is read again as a first byte. *)
Fixpoint decode (st : option pending) (bytes : list Z) : list Z :=
  match bytes with
  | [] =>
      match st with
      | None => []
      | Some _ => [replacement]
      end
  | b :: r =>
      let start :=
        match first_byte b with
        | Single c => c :: decode None r
        | Lead s => decode (Some s) r
        | Stray => replacement :: decode None r
        end in
      match st with
      | None => start
      | Some s =>
          if (lower_boundary s <=? b) && (b <=? upper_boundary s) then
            let bits' := Z.lor (Z.shiftl (bits s) 6) (Z.land b 0x3F) in
            if needed s =? 1 then bits' :: decode None r
            else decode (Some (Pending bits' (needed s - 1) 0x80 0xBF)) r
          else replacement :: start
      end
  end.

(** The UTF-8 bytes of a code point. *)
Definition utf8 (c : Z) : list Z :=
  if c <? 0x80 then [c]
  else if c <? 0x800 then [0xC0 + c / 64; 0x80 + c mod 64]
  else if c <? 0x10000
  then [0xE0 + c / 4096; 0x80 + (c / 64) mod 64; 0x80 + c mod 64]
  else [0xF0 + c / 262144; 0x80 + (c / 4096) mod 64;
        0x80 + (c / 64) mod 64; 0x80 + c mod 64].

(** The UTF-16 code units of a code point. *)
Definition utf16 (c : Z) : list Z :=
  if c <? 0x10000 then [c]
  else [0xD800 + (c - 0x10000) / 1024; 0xDC00 + (c - 0x10000) mod 1024].

Definition points (s : string) : list Z := decode None (map code (chars s)).
Definition of_points (l : list Z) : string :=
  of_chars (map byte (flat_map utf8 l)).
Definition units (s : string) : list Z := flat_map utf16 (points s).

(** *** Classes and methods *)

(** [/\d/]: a decimal digit. *)
Definition is_digit (c : ascii) : bool :=
  (48 <=? code c) && (code c <=? 57).

(** [/\s/]: the white space and the line terminators of ECMAScript,
    tab, line feed, vertical tab, form feed, carriage return, space,
    no-break space, U+1680, U+2000 to U+200A, the line and paragraph
    separators, U+202F, U+205F, U+3000 and the byte order mark. *)
Definition is_space (c : Z) : bool :=
  ((0x9 <=? c) && (c <=? 0xD)) || (c =? 0x20) || (c =? 0xA0)
  || (c =? 0x1680) || ((0x2000 <=? c) && (c <=? 0x200A))
  || (c =? 0x2028) || (c =? 0x2029) || (c =? 0x202F) || (c =? 0x205F)
  || (c =? 0x3000) || (c =? 0xFEFF).

Definition not_space (c : Z) : bool := negb (is_space c).

(** [s.toLowerCase()] *)
Definition toLowerCase (s : string) : string :=
  of_points (Unicode.lower false (points s)).

(** [s.replace(/\D/g, '')] *)
Definition strip_non_digits (s : string) : string :=
  of_chars (List.filter is_digit (chars s)).

(** [s.length]: the number of code units. *)
Definition length (s : string) : Z := Z.of_nat (List.length (units s)).

(** [s.startsWith(p)] *)
Fixpoint startsWith (s p : string) : bool :=
  match p, s with
  | EmptyString, _ => true
  | String a p', String b s' => Ascii.eqb a b && startsWith s' p'
  | String _ _, EmptyString => false
  end.

(** [s.slice(1)], for a string whose first character is one byte long. *)
Definition slice1 (s : string) : string :=
  match s with
  | EmptyString => EmptyString
  | String _ r => r
  end.

(** [n.toString()] for a non-negative integer. *)
Definition of_Z (n : Z) : string :=
  NilZero.string_of_uint (N.to_uint (Z.to_N n)).

(** JavaScript truthiness of a string: [!s] holds for the empty one. *)
Definition falsy (s : string) : bool :=
  match s with
  | EmptyString => true
  | _ => false
  end.

End Str.

(** ** Regular expressions

    The handlers use one pattern with [test]; it is kept as a syntax tree
    and matched by derivatives over the code units of the string,
    anchored at both ends as [^...$] asks. *)

Module Regex.

Inductive re : Type :=
| Void : re
| Eps : re
| Class : (Z -> bool) -> re
| Cat : re -> re -> re
| Alt : re -> re -> re
| Star : re -> re.

Definition Plus (r : re) : re := Cat r (Star r).
Definition Lit (c : ascii) : re := Class (Z.eqb (Str.code c)).

Fixpoint nullable (r : re) : bool :=
  match r with
  | Void => false
  | Eps => true
  | Class _ => false
  | Cat a b => nullable a && nullable b
  | Alt a b => nullable a || nullable b
  | Star _ => true
  end.

Fixpoint deriv (c : Z) (r : re) : re :=
  match r with
  | Void => Void
  | Eps => Void
  | Class p => if p c then Eps else Void
  | Cat a b =>
      if nullable a
      then Alt (Cat (deriv c a) b) (deriv c b)
      else Cat (deriv c a) b
  | Alt a b => Alt (deriv c a) (deriv c b)
  | Star a => Cat (deriv c a) (Star a)
  end.

Fixpoint matches (r : re) (s : list Z) : bool :=
  match s with
  | [] => nullable r
  | c :: s' => matches (deriv c r) s'
  end.

(** A pattern that matches no string at all, seen on its syntax. *)
Fixpoint is_void (r : re) : bool :=
  match r with
  | Void => true
  | Eps => false
  | Class _ => false
  | Cat a b => is_void a || is_void b
  | Alt a b => is_void a && is_void b
  | Star _ => false
  end.

(** Every character class of the pattern lies within [P]. *)
Fixpoint within (P : Z -> bool) (r : re) : Prop :=
  match r with
  | Void => True
  | Eps => True
  | Class p => forall c, p c = true -> P c = true
  | Cat a b => within P a /\ within P b
  | Alt a b => within P a /\ within P b
  | Star a => within P a
  end.

(** [r.test(s)] for a pattern of the form [^r$]. *)
Definition test (r : re) (s : string) : bool := matches r (Str.units s).

End Regex.

(** ** SHA-256

    [crypto.subtle.digest('SHA-256', bytes)] is a primitive of the
    platform; it is modelled by the function of FIPS 180-4 on lists of
    bytes, so that the handlers can be run. *)

Module SHA256.

Definition w32 (x : Z) : Z := x mod 4294967296.
Definition add32 (x y : Z) : Z := w32 (x + y).
Definition rotr (n x : Z) : Z :=
  Z.lor (Z.shiftr x n) (w32 (Z.shiftl x (32 - n))).
Definition not32 (x : Z) : Z := 4294967295 - x.

Definition Ch (x y z : Z) : Z :=
  Z.lxor (Z.land x y) (Z.land (not32 x) z).
Definition Maj (x y z : Z) : Z :=
  Z.lxor (Z.lxor (Z.land x y) (Z.land x z)) (Z.land y z).
Definition Sigma0 (x : Z) : Z :=
  Z.lxor (Z.lxor (rotr 2 x) (rotr 13 x)) (rotr 22 x).
Definition Sigma1 (x : Z) : Z :=
  Z.lxor (Z.lxor (rotr 6 x) (rotr 11 x)) (rotr 25 x).
Definition sigma0 (x : Z) : Z :=
  Z.lxor (Z.lxor (rotr 7 x) (rotr 18 x)) (Z.shiftr x 3).
Definition sigma1 (x : Z) : Z :=
  Z.lxor (Z.lxor (rotr 17 x) (rotr 19 x)) (Z.shiftr x 10).

(** The round constants are the first 32 bits of the fractional parts
    of the cube roots of the first 64 primes, the initial hash value
    those of the square roots of the first 8 primes. *)
Definition is_prime (n : nat) : bool :=
  forallb (fun d => negb (Nat.eqb (Nat.modulo n d) 0)) (seq 2 (n - 2)).

Definition primes : list Z :=
  map Z.of_nat (List.filter is_prime (seq 2 310)).

(** The integer cube root, one bit at a time from bit [bits - 1] down. *)
Fixpoint cube_root (bits : nat) (n r : Z) : Z :=
  match bits with
  | O => r
  | S b =>
      let r' := r + Z.shiftl 1 (Z.of_nat b) in
      cube_root b n (if r' * r' * r' <=? n then r' else r)
  end.

Definition K : list Z :=
  map (fun q => w32 (cube_root 36 (Z.shiftl q 96) 0)) primes.

Definition H0 : list Z :=
  map (fun q => w32 (Z.sqrt (Z.shiftl q 64))) (firstn 8 primes).

(** Padding: a 1 bit, zeros up to 56 modulo 64, the bit length on
    eight bytes, most significant first. *)
Definition be_bytes (n : nat) (x : Z) : list Z :=
  map (fun i => Z.shiftr x (8 * Z.of_nat i) mod 256) (rev (seq 0 n)).

Definition pad (msg : list Z) : list Z :=
  let len := Z.of_nat (List.length msg) in
  let zeros := Z.to_nat ((55 - len) mod 64) in
  msg ++ [128] ++ repeat 0 zeros ++ be_bytes 8 (8 * len).

Fixpoint be_words (fuel : nat) (bs : list Z) : list Z :=
  match fuel, bs with
  | S f, b0 :: b1 :: b2 :: b3 :: r =>
      (b0 * 16777216 + b1 * 65536 + b2 * 256 + b3) :: be_words f r
  | _, _ => []
  end.

Definition nthw (l : list Z) (i : nat) : Z := nth i l 0.

(** The message schedule: [win] holds the last sixteen words. *)
Fixpoint schedule (n : nat) (win : list Z) : list Z :=
  match n with
  | O => []
  | S n' =>
      let w := add32 (add32 (sigma1 (nthw win 14)) (nthw win 9))
                     (add32 (sigma0 (nthw win 1)) (nthw win 0)) in
      w :: schedule n' (tl win ++ [w])
  end.

Definition round (st : list Z) (kw : Z * Z) : list Z :=
  match st with
  | [a; b; c; d; e; f; g; h] =>
      let t1 := add32 (add32 (add32 h (Sigma1 e)) (Ch e f g))
                      (add32 (fst kw) (snd kw)) in
      let t2 := add32 (Sigma0 a) (Maj a b c) in
      [add32 t1 t2; a; b; c; add32 d t1; e; f; g]
  | _ => st
  end.

Definition compress (h : list Z) (block : list Z) : list Z :=
  let w := block ++ schedule 48 block in
  let st := fold_left round (combine K w) h in
  map (fun p => add32 (fst p) (snd p)) (combine h st).

Fixpoint blocks (fuel : nat) (ws : list Z) (h : list Z) : list Z :=
  match fuel with
  | O => h
  | S f =>
      match ws with
      | [] => h
      | _ => blocks f (skipn 16 ws) (compress h (firstn 16 ws))
      end
  end.

Definition digest (msg : list Z) : list Z :=
  let p := pad msg in
  let ws := be_words (List.length p) p in
  flat_map (be_bytes 4) (blocks (List.length ws) ws H0).

End SHA256.

(** ** Hashing helpers of the worker *)

(** [new TextEncoder().encode(data)] *)
Definition encode (data : string) : list Z := map Str.code (Str.chars data).

(** [b.toString(16).padStart(2, '0')] for a byte. *)
Definition hex_digit (d : Z) : ascii :=
  ascii_of_N (Z.to_N (if d <? 10 then 48 + d else 87 + d)).

Definition hex_byte (b : Z) : string :=
  String (hex_digit (b / 16)) (String (hex_digit (b mod 16)) EmptyString).

(** [hashArray.map(...).join('')] *)
Definition hex_join (bytes : list Z) : string :=
  fold_right (fun b acc => hex_byte b +:+ acc) "" bytes.

Definition hashString (data : string) : string :=
  let dataBuffer := encode data in
  let hashBuffer := SHA256.digest dataBuffer in
  let hashArray := hashBuffer in
  hex_join hashArray.

Definition hashCode (code : string) : string :=
  let data := encode code in
  let hashBuffer := SHA256.digest data in
  let hashArray := hashBuffer in
  hex_join hashArray.

(** ** The URL of a limiter request

    The handlers call a limiter object with
    [new Request(`http://internal/?key=${v}`)], and the object reads
    [new URL(request.url).searchParams.get('key')]. This is what the URL
    Standard makes of such a string: the parser drops the C0 controls
    and spaces at both ends and every tab and newline, the query runs
    from the first "?" to the first "#" and is percent-encoded, and the
    search parameters are the pieces of the query between "&", each cut
    at its first "=", with "+" read as a space, percent-decoded and
    decoded as UTF-8. *)

Module URL.

Definition c0_or_space (c : ascii) : bool := Str.code c <=? 0x20.

Definition tab_or_newline (c : ascii) : bool :=
  (Str.code c =? 0x9) || (Str.code c =? 0xA) || (Str.code c =? 0xD).

Fixpoint strip_leading (l : list ascii) : list ascii :=
  match l with
  | c :: r => if c0_or_space c then strip_leading r else l
  | [] => []
  end.

Fixpoint strip_trailing (l : list ascii) : list ascii :=
  match l with
  | [] => []
  | c :: r =>
      match strip_trailing r with
      | [] => if c0_or_space c then [] else [c]
      | r' => c :: r'
      end
  end.

(** What comes before the first [stop], and what comes after it. *)
Fixpoint until (stop : ascii) (l : list ascii) : list ascii :=
  match l with
  | [] => []
  | c :: r => if Ascii.eqb c stop then [] else c :: until stop r
  end.

Fixpoint after (stop : ascii) (l : list ascii) : list ascii :=
  match l with
  | [] => []
  | c :: r => if Ascii.eqb c stop then r else after stop r
  end.

(** The bytes that are percent-encoded in the query of an [http] URL:
    the C0 controls, the space, the double and the single quote, "#",
    "<", ">", and everything above "~". *)
Definition in_query_set (c : ascii) : bool :=
  (Str.code c <=? 0x20) || (Str.code c =? 0x22) || (Str.code c =? 0x23)
  || (Str.code c =? 0x27) || (Str.code c =? 0x3C) || (Str.code c =? 0x3E)
  || (0x7F <=? Str.code c).

Definition upper_hex (d : Z) : ascii :=
  Str.byte (if d <? 10 then 48 + d else 55 + d).

Definition percent_encode (l : list ascii) : list ascii :=
  flat_map
    (fun c =>
       if in_query_set c
       then ["%"%char; upper_hex (Str.code c / 16); upper_hex (Str.code c mod 16)]
       else [c])
    l.

Definition hex_value (c : ascii) : option Z :=
  let n := Str.code c in
  if (48 <=? n) && (n <=? 57) then Some (n - 48)
  else if (65 <=? n) && (n <=? 70) then Some (n - 55)
  else if (97 <=? n) && (n <=? 102) then Some (n - 87)
  else None.

Fixpoint percent_decode (l : list ascii) : list ascii :=
  match l with
  | [] => []
  | c :: r =>
      if Ascii.eqb c "%" then
        match r with
        | h :: l' :: r' =>
            match hex_value h, hex_value l' with
            | Some a, Some b => Str.byte (16 * a + b) :: percent_decode r'
            | _, _ => c :: percent_decode r
            end
        | _ => c :: percent_decode r
        end
      else c :: percent_decode r
  end.

(** [new URL(input).search] without its "?", for an input with no "?"
    and no "#" in its scheme, host and path. *)
Definition query (input : string) : list ascii :=
  let stripped := strip_trailing (strip_leading (Str.chars input)) in
  let joined := List.filter (fun c => negb (tab_or_newline c)) stripped in
  percent_encode (until "#" (after "?" joined)).

Fixpoint split_on (sep : ascii) (l : list ascii) : list (list ascii) :=
  match l with
  | [] => [[]]
  | c :: r =>
      if Ascii.eqb c sep then [] :: split_on sep r
      else
        match split_on sep r with
        | s :: ss => (c :: s) :: ss
        | [] => [[c]]
        end
  end.

Definition plus_to_space (c : ascii) : ascii :=
  if Ascii.eqb c "+" then " "%char else c.

(** A name or a value of the query, decoded. *)
Definition component (bytes : list ascii) : string :=
  Str.of_points
    (Str.points (Str.of_chars (percent_decode (map plus_to_space bytes)))).

Definition is_empty (l : list ascii) : bool :=
  match l with
  | [] => true
  | _ => false
  end.

(** The list of name-value pairs of [url.searchParams]. *)
Definition searchParams (query : list ascii) : list (string * string) :=
  map (fun piece => (component (until "=" piece), component (after "=" piece)))
    (List.filter (fun piece => negb (is_empty piece)) (split_on "&" query)).

(** [searchParams.get(name)] *)
Definition get (name : string) (query : list ascii) : option string :=
  option_map snd
    (List.find (fun pair => String.eqb (fst pair) name) (searchParams query)).

End URL.

(** ** The rate limiter (durable object [RateLimiter])

    One object holds a key-value storage; [fetch] reads the key from the
    query string of the request and the clock from [Date.now()]. *)

Module RateLimiter.

Record window : Type := Window { count : Z; resetTime : Z }.

Inductive body : Type :=
| Text : string -> body
| Json : bool -> Z -> body.   (* { allowed, remaining } *)

Record response : Type := Response { status : Z; payload : body }.

Definition windowMs : Z := 60000.
Definition maxRequests : Z := 5.

(** [url.searchParams.get('key')] for the request the handlers make,
    [new Request(`http://internal/?key=${v}`)]. *)
Definition key_param (v : string) : option string :=
  URL.get "key" (URL.query ("http://internal/?key=" +:+ v)).

(** [key] is what [url.searchParams.get('key')] returns, [now] is
    [Date.now()]. *)
Definition fetch (key : option string) (now : Z) (storage : gmap string window)
  : response * gmap string window :=
  match key with
  | None => (Response 400 (Text "Missing key"), storage)
  | Some k =>
      if Str.falsy k then (Response 400 (Text "Missing key"), storage)
      else
        let data := storage !! k in
        match data with
        | None =>
            (Response 200 (Json true (maxRequests - 1)),
             <[k := Window 1 (now + windowMs)]> storage)
        | Some d =>
            if resetTime d <? now then
              (Response 200 (Json true (maxRequests - 1)),
               <[k := Window 1 (now + windowMs)]> storage)
            else if maxRequests <=? count d then
              (Response 429 (Json false 0), storage)
            else
              (Response 200 (Json true (maxRequests - count d - 1)),
               <[k := Window (count d + 1) (resetTime d)]> storage)
        end
  end.

(** [(await response.json()).allowed] as the callers read it. *)
Definition allowed (r : response) : bool :=
  match payload r with
  | Json a _ => a
  | Text _ => false
  end.

(** A run of the object: requests [(key, now)] served in order, each
    logged with its verdict and the window it left under its key. *)
Record entry : Type :=
  Entry { e_key : string; e_allowed : bool; e_window : option window }.

Fixpoint serve (reqs : list (string * Z)) (storage : gmap string window)
  : list entry * gmap string window :=
  match reqs with
  | [] => ([], storage)
  | (k, now) :: rest =>
      let '(r, storage1) := fetch (Some k) now storage in
      let '(log, storage2) := serve rest storage1 in
      (Entry k (allowed r) (storage1 !! k) :: log, storage2)
  end.

Definition verdicts (log : list entry) : list bool := map e_allowed log.

(** Is the entry a request of key [k] let through in the window that
    ends at [R]? *)
Definition admitted (k : string) (R : Z) (e : entry) : bool :=
  String.eqb (e_key e) k && e_allowed e &&
  match e_window e with
  | Some w => resetTime w =? R
  | None => false
  end.

Definition admitted_in (k : string) (R : Z) (log : list entry) : nat :=
  List.length (List.filter (admitted k R) log).

(** What a window ending at [R] may still let through for [k]. *)
Definition budget (storage : gmap string window) (k : string) (R : Z) : Z :=
  match storage !! k with
  | None => maxRequests
  | Some w =>
      if R <? resetTime w then 0
      else if R =? resetTime w then Z.max 0 (maxRequests - count w)
      else maxRequests
  end.

End RateLimiter.

(** ** The D1 tables (the schema and the address migration)

    Rows carry the columns the handlers read or write; [created_at] and
    [updated_at], which they never touch, are left out. The flag columns
    are INTEGER and only ever written with 0 or 1: they are booleans
    here. D1 enforces foreign keys, so [ON DELETE CASCADE] is live. *)

Module DB.

Record signature_row : Type := SignatureRow {
  id : Z;
  name : string;
  email_hash : string;
  phone_hash : string;
  position : option string;
  institution : option string;
  address : option string;
  address_id : option string;
  stateElec : option string;
  fedElec : option string;
  latitude : option string;
  longitude : option string;
  sa1 : option string;
  lga : option string;
  postcode : option string;
  state : option string;
  email_verified : bool;
  phone_verified : bool;
  verification_completed_at : option Z
}.

Record code_row : Type := CodeRow {
  code_id : Z;
  signature_id : Z;
  code_type : string;
  code_hash : string;
  expires_at : Z;
  attempts : Z;
  verified_at : option Z
}.

Record initial_row : Type := InitialRow {
  initial_id : Z;
  title : option string;
  first_name : string;
  last_name : string;
  initial_position : option string;
  initial_institution : option string;
  display_order : Z
}.

(** The tables, and the AUTOINCREMENT counters of [sqlite_sequence]. *)
Record database : Type := Database {
  public_signatures : list signature_row;
  verification_codes : list code_row;
  initial_signatories : list initial_row;
  seq_public_signatures : Z;
  seq_verification_codes : Z
}.

Definition empty : database := Database [] [] [] 0 0.

Definition max_of (l : list Z) : Z := fold_right Z.max 0 l.

(** AUTOINCREMENT: one more than the largest rowid the table has ever
    held. *)
Definition next_rowid (seq : Z) (ids : list Z) : Z :=
  Z.max seq (max_of ids) + 1.

(** [INSERT INTO public_signatures (...) VALUES (..., 0, 0)] and
    [meta.last_row_id]. *)
Definition insert_signature
    (name email_hash phone_hash : string)
    (position institution address address_id stateElec fedElec
     latitude longitude sa1 lga postcode state : option string)
    (d : database) : Z * database :=
  let rowid :=
    next_rowid (seq_public_signatures d) (map id (public_signatures d)) in
  let row :=
    SignatureRow rowid name email_hash phone_hash position institution
      address address_id stateElec fedElec latitude longitude sa1 lga
      postcode state false false None in
  (rowid,
   Database (public_signatures d ++ [row]) (verification_codes d)
     (initial_signatories d) rowid (seq_verification_codes d)).

(** [INSERT INTO verification_codes (signature_id, code_type, code_hash,
    expires_at, attempts) VALUES (?, type, ?, ?, 0)] *)
Definition insert_code (signature_id : Z) (code_type code_hash : string)
    (expires_at : Z) (d : database) : database :=
  let rowid :=
    next_rowid (seq_verification_codes d)
      (map code_id (verification_codes d)) in
  let row := CodeRow rowid signature_id code_type code_hash expires_at 0 None in
  Database (public_signatures d) (verification_codes d ++ [row])
    (initial_signatories d) (seq_public_signatures d) rowid.

(** [DELETE FROM public_signatures WHERE id = ?]; the codes of a deleted
    row go with it. *)
Definition delete_signature (sid : Z) (d : database) : database :=
  let hit := existsb (fun r => id r =? sid) (public_signatures d) in
  Database
    (List.filter (fun r => negb (id r =? sid)) (public_signatures d))
    (if hit
     then List.filter (fun c => negb (signature_id c =? sid))
            (verification_codes d)
     else verification_codes d)
    (initial_signatories d) (seq_public_signatures d)
    (seq_verification_codes d).

(** [SELECT id FROM public_signatures WHERE email_hash = ? OR
    phone_hash = ?] with [first()]. *)
Definition select_by_hash (emailHash phoneHash : string) (d : database)
  : option signature_row :=
  List.find
    (fun r => String.eqb (email_hash r) emailHash
              || String.eqb (phone_hash r) phoneHash)
    (public_signatures d).

(** [SELECT email_verified, phone_verified FROM public_signatures
    WHERE id = ?] with [first()]. *)
Definition select_signature (sid : Z) (d : database) : option signature_row :=
  List.find (fun r => id r =? sid) (public_signatures d).

Definition is_code_of (sid : Z) (types : list string) (c : code_row) : bool :=
  (signature_id c =? sid)
  && existsb (String.eqb (code_type c)) types.

(** [SELECT ... FROM verification_codes WHERE signature_id = ? AND
    code_type IN ('email', 'phone')] with [all()]. *)
Definition select_codes (sid : Z) (d : database) : list code_row :=
  List.filter (is_code_of sid ["email"; "phone"]) (verification_codes d).

Definition set_codes (cs : list code_row) (d : database) : database :=
  Database (public_signatures d) cs (initial_signatories d)
    (seq_public_signatures d) (seq_verification_codes d).

(** [UPDATE verification_codes SET attempts = attempts + 1 WHERE
    signature_id = ? AND code_type IN (?, ?)] *)
Definition bump_attempts (sid : Z) (t1 t2 : string) (d : database) : database :=
  set_codes
    (map (fun c =>
            if is_code_of sid [t1; t2] c
            then CodeRow (code_id c) (signature_id c) (code_type c)
                   (code_hash c) (expires_at c) (attempts c + 1)
                   (verified_at c)
            else c)
       (verification_codes d)) d.

(** [UPDATE verification_codes SET verified_at = CURRENT_TIMESTAMP WHERE
    signature_id = ? AND code_type IN (?, ?)] *)
Definition mark_codes_verified (sid : Z) (t1 t2 : string) (ts : Z)
    (d : database) : database :=
  set_codes
    (map (fun c =>
            if is_code_of sid [t1; t2] c
            then CodeRow (code_id c) (signature_id c) (code_type c)
                   (code_hash c) (expires_at c) (attempts c) (Some ts)
            else c)
       (verification_codes d)) d.

(** [UPDATE public_signatures SET email_verified = 1, phone_verified = 1,
    verification_completed_at = CURRENT_TIMESTAMP WHERE id = ?] *)
Definition mark_signature_verified (sid : Z) (ts : Z) (d : database)
  : database :=
  Database
    (map (fun r =>
            if id r =? sid
            then SignatureRow (id r) (name r) (email_hash r) (phone_hash r)
                   (position r) (institution r) (address r) (address_id r)
                   (stateElec r) (fedElec r) (latitude r) (longitude r)
                   (sa1 r) (lga r) (postcode r) (state r) true true (Some ts)
            else r)
       (public_signatures d))
    (verification_codes d) (initial_signatories d)
    (seq_public_signatures d) (seq_verification_codes d).

(** [WHERE email_verified = 1 AND phone_verified = 1] *)
Definition both_verified (r : signature_row) : bool :=
  email_verified r && phone_verified r.

(** [SELECT COUNT( * ) FROM public_signatures WHERE email_verified = 1
    AND phone_verified = 1] *)
Definition count_verified (d : database) : Z :=
  Z.of_nat (List.length (List.filter both_verified (public_signatures d))).

(** [SELECT COUNT( * ) FROM initial_signatories] *)
Definition count_initial (d : database) : Z :=
  Z.of_nat (List.length (initial_signatories d)).

End DB.

(** ** The worker: helpers and handlers *)

Module Worker.

Import DB.

(** *** What the platform supplies *)

(** A thrown [Error]. *)
Record js_error : Type := JsError { error_name : string; error_message : string }.

(** [error.toString()] *)
Definition error_toString (e : js_error) : string :=
  if Str.falsy (error_name e) then error_message e
  else if Str.falsy (error_message e) then error_name e
  else error_name e +:+ ": " +:+ error_message e.

(** What [aws.fetch] comes back with: a response (status and text), or
    a rejection. *)
Inductive fetched : Type :=
| Replied : Z -> string -> fetched
| Rejected : js_error -> fetched.

Record platform : Type := Platform {
  date_now : Z;             (* Date.now() in the limiter *)
  new_date : Z;             (* new Date() in the handler *)
  current_timestamp : Z;    (* CURRENT_TIMESTAMP in D1 *)
  random_email : Z;         (* Math.floor(100000 + Math.random() * 900000)
                               less 100000, for the email code *)
  random_sms : Z;           (* the same for the SMS code *)
  ses : string -> string -> fetched;   (* address, code *)
  sns : string -> string -> fetched;   (* number, code *)
  sms_settles_first : bool
}.

(** *** Responses *)

Inductive body : Type :=
| ErrorBody : string -> body
| DeliveryErrorBody : string -> string -> string -> string -> body
    (* error, details.message, details.name, details.debug *)
| IdBody : Z -> string -> body
| InvalidCodesBody : string -> Z -> body
| MessageBody : string -> body
| CountBody : Z -> body.

Record response : Type := Response { status : Z; payload : body }.

(** [c.json(b)] answers 200, [c.json(b, s)] answers [s]. *)
Definition json (b : body) : response := Response 200 b.
Definition json_status (b : body) (s : Z) : response := Response s b.

(** *** Utility functions *)

Definition generateVerificationCode (draw : Z) : string :=
  Str.of_Z (100000 + draw).

(** Ten minutes from now. *)
Definition getCodeExpiryTime (now : Z) : Z := now + 10 * 60000.

(** [response.ok] *)
Definition ok (st : Z) : bool := (200 <=? st) && (st <=? 299).

Definition send (service : string) (r : fetched) : option js_error :=
  match r with
  | Rejected e => Some e
  | Replied st text =>
      if ok st then None
      else Some (JsError "Error"
                   (service +:+ " API error: " +:+ Str.of_Z st +:+ " - " +:+ text))
  end.

Definition sendEmailVerification (p : platform) (email code : string)
  : option js_error :=
  send "SES" (ses p email code).

Definition sendSmsVerification (p : platform) (mobile code : string)
  : option js_error :=
  let e164Mobile :=
    if Str.startsWith mobile "04" then "+61" +:+ Str.slice1 mobile
    else mobile in
  send "SNS" (sns p e164Mobile code).

(** [Promise.all] of two promises: the rejection that comes first. *)
Definition promise_all (second_first : bool) (a b : option js_error)
  : option js_error :=
  match a, b with
  | None, None => None
  | Some e, None => Some e
  | None, Some e => Some e
  | Some ea, Some eb => Some (if second_first then eb else ea)
  end.

(** [x || null] *)
Definition or_null (s : string) : option string :=
  if Str.falsy s then None else Some s.

(** [/^[^\s@]+@[^\s@]+\.[^\s@]+$/] *)
Definition not_space_at (c : Z) : bool :=
  negb (Str.is_space c || (c =? Str.code "@")).

Definition emailRegex : Regex.re :=
  Regex.Cat (Regex.Plus (Regex.Class not_space_at))
    (Regex.Cat (Regex.Lit "@"%char)
       (Regex.Cat (Regex.Plus (Regex.Class not_space_at))
          (Regex.Cat (Regex.Lit "."%char)
             (Regex.Plus (Regex.Class not_space_at))))).

(** Truthiness of a nullable column. *)
Definition is_set {A : Type} (o : option A) : bool :=
  match o with
  | Some _ => true
  | None => false
  end.

(** *** State and requests *)

(** The tables, and the storage of each limiter object by name. *)
Record world : Type := World {
  db : database;
  limiters : gmap string (gmap string RateLimiter.window)
}.

Record submission : Type := Submission {
  cf_connecting_ip : option string;
  s_name : string;
  s_email : string;
  s_mobile : string;
  s_position : string;
  s_institution : string;
  s_address : string;
  s_addressId : string;
  s_stateElec : string;
  s_fedElec : string;
  s_latitude : string;
  s_longitude : string;
  s_sa1 : string;
  s_lga : string;
  s_postcode : string;
  s_state : string
}.

(** [c.req.header('CF-Connecting-IP') || 'unknown'] *)
Definition client_ip (req : submission) : string :=
  match cf_connecting_ip req with
  | Some h => if Str.falsy h then "unknown" else h
  | None => "unknown"
  end.

(** [await rateLimitResponse.json()] then [.allowed]; a body that is
    not JSON makes [json()] throw. *)
Definition limiter_verdict (r : RateLimiter.response) : option bool :=
  match RateLimiter.payload r with
  | RateLimiter.Json a _ => Some a
  | RateLimiter.Text _ => None
  end.

Definition mobile_valid (cleanMobile : string) : bool :=
  (Str.length cleanMobile =? 10) && Str.startsWith cleanMobile "04".

(** *** [POST /api/signatures]

    [post_signatures] is the handler for a body that [c.req.json()]
    parsed into a value other than [null]: its fields are those of the
    [submission], with the empty string for a field that is absent.
    [post_signatures_request] below is the handler for every body. The
    statements on D1 succeed. The limiter object is the one named after
    the client address; the key it works with is the one it reads back
    from the URL of the request. *)

Definition post_signatures (p : platform) (req : submission) (w : world)
  : response * world :=
  let ip := client_ip req in
  let object := default ∅ (limiters w !! ip) in
  let '(rateLimitResponse, object') :=
    RateLimiter.fetch (RateLimiter.key_param ip) (date_now p) object in
  let w1 := World (db w) (<[ip := object']> (limiters w)) in
  match limiter_verdict rateLimitResponse with
  | None => (json_status (ErrorBody "Internal server error") 500, w1)
  | Some false => (json_status (ErrorBody "Too many requests") 429, w1)
  | Some true =>
    if Str.falsy (s_name req) || Str.falsy (s_email req)
       || Str.falsy (s_mobile req)
    then (json_status (ErrorBody "Missing required fields") 400, w1)
    else if negb (Regex.test emailRegex (s_email req))
    then (json_status (ErrorBody "Invalid email format") 400, w1)
    else
      let cleanMobile := Str.strip_non_digits (s_mobile req) in
      if negb (Str.length cleanMobile =? 10)
         || negb (Str.startsWith cleanMobile "04")
      then (json_status
              (ErrorBody "Invalid Australian mobile number. Must be 10 digits starting with 04.")
              400, w1)
      else
        let emailHash := hashString (Str.toLowerCase (s_email req)) in
        let phoneHash := hashString cleanMobile in
        match select_by_hash emailHash phoneHash (db w1) with
        | Some _ =>
            (json_status
               (ErrorBody "This email or phone number has already been used to sign")
               409, w1)
        | None =>
            let '(signatureId, d1) :=
              insert_signature (s_name req) emailHash phoneHash
                (or_null (s_position req)) (or_null (s_institution req))
                (or_null (s_address req)) (or_null (s_addressId req))
                (or_null (s_stateElec req)) (or_null (s_fedElec req))
                (or_null (s_latitude req)) (or_null (s_longitude req))
                (or_null (s_sa1 req)) (or_null (s_lga req))
                (or_null (s_postcode req)) (or_null (s_state req))
                (db w1) in
            let emailCode := generateVerificationCode (random_email p) in
            let smsCode := generateVerificationCode (random_sms p) in
            let emailCodeHash := hashCode emailCode in
            let smsCodeHash := hashCode smsCode in
            let expiresAt := getCodeExpiryTime (new_date p) in
            let d2 := insert_code signatureId "email" emailCodeHash expiresAt d1 in
            let d3 := insert_code signatureId "phone" smsCodeHash expiresAt d2 in
            match promise_all (sms_settles_first p)
                    (sendEmailVerification p (s_email req) emailCode)
                    (sendSmsVerification p cleanMobile smsCode) with
            | Some error =>
                let d4 := delete_signature signatureId d3 in
                (json_status
                   (DeliveryErrorBody
                      "Failed to send verification codes. Please try again."
                      (error_message error) (error_name error)
                      (error_toString error))
                   500,
                 World d4 (limiters w1))
            | None =>
                (json (IdBody signatureId
                         "Verification codes sent to your email and phone"),
                 World d3 (limiters w1))
            end
        end
  end.

(** What [await c.req.json()] makes of the body of the request: it
    throws on a body that is not JSON; [null] is a value like any
    other, until its fields are asked for. *)
Inductive parsed : Type :=
| NotJson : parsed
| JsonNull : parsed
| JsonValue : parsed.

Definition is_json (body : parsed) : bool :=
  match body with
  | NotJson => false
  | _ => true
  end.

(** The handler for every body. The body is parsed first of all, and a
    body that is not JSON is answered 500 before the limiter is
    called; the fields are read after the limiter has let the request
    through, and reading those of [null] throws. *)
Definition post_signatures_request (p : platform) (body : parsed)
    (req : submission) (w : world) : response * world :=
  match body with
  | NotJson => (json_status (ErrorBody "Internal server error") 500, w)
  | JsonNull =>
      let ip := client_ip req in
      let object := default ∅ (limiters w !! ip) in
      let '(rateLimitResponse, object') :=
        RateLimiter.fetch (RateLimiter.key_param ip) (date_now p) object in
      let w1 := World (db w) (<[ip := object']> (limiters w)) in
      match limiter_verdict rateLimitResponse with
      | None => (json_status (ErrorBody "Internal server error") 500, w1)
      | Some false => (json_status (ErrorBody "Too many requests") 429, w1)
      | Some true => (json_status (ErrorBody "Internal server error") 500, w1)
      end
  | JsonValue => post_signatures p req w
  end.

(** *** [POST /api/signatures/:id/verify] *)

Definition post_verify (p : platform) (id : Z) (emailCode smsCode : string)
    (d : database) : response * database :=
  if Str.falsy emailCode || Str.falsy smsCode
  then (json_status (ErrorBody "Missing verification codes") 400, d)
  else
    match select_signature id d with
    | None => (json_status (ErrorBody "Signature not found") 404, d)
    | Some signature =>
      if email_verified signature && phone_verified signature
      then (json_status (ErrorBody "Signature already verified") 400, d)
      else
        let emailCodeHash := hashCode emailCode in
        let smsCodeHash := hashCode smsCode in
        let codes := select_codes id d in
        if negb (Z.of_nat (List.length codes) =? 2)
        then (json_status (ErrorBody "Verification codes not found") 404, d)
        else
          match List.find (fun c => String.eqb (code_type c) "email") codes,
                List.find (fun c => String.eqb (code_type c) "phone") codes with
          | Some emailVerification, Some phoneVerification =>
            if is_set (verified_at emailVerification)
               && is_set (verified_at phoneVerification)
            then (json_status (ErrorBody "Already verified") 400, d)
            else
              let now := new_date p in
              if (expires_at emailVerification <? now)
                 || (expires_at phoneVerification <? now)
              then (json_status (ErrorBody "Verification codes have expired") 400, d)
              else if (3 <=? attempts emailVerification)
                      || (3 <=? attempts phoneVerification)
              then (json_status
                      (ErrorBody "Too many failed attempts. Please request new codes.")
                      400, d)
              else
                let emailValid :=
                  String.eqb (code_hash emailVerification) emailCodeHash in
                let phoneValid :=
                  String.eqb (code_hash phoneVerification) smsCodeHash in
                if negb emailValid || negb phoneValid
                then
                  let d1 := bump_attempts id "email" "phone" d in
                  let attemptsRemaining :=
                    Z.min (3 - (attempts emailVerification + 1))
                          (3 - (attempts phoneVerification + 1)) in
                  (json_status
                     (InvalidCodesBody "Invalid verification codes"
                        (if 0 <? attemptsRemaining then attemptsRemaining else 0))
                     400, d1)
                else
                  let d1 :=
                    mark_codes_verified id "email" "phone"
                      (current_timestamp p) d in
                  let d2 := mark_signature_verified id (current_timestamp p) d1 in
                  (json (MessageBody "Signature verified successfully"), d2)
          | _, _ =>
            (json_status (ErrorBody "Verification codes not found") 404, d)
          end
    end.

(** *** [GET /api/signatures/count] *)

Definition get_count (d : database) : response :=
  let publicCount := count_verified d in
  let initialCount := count_initial d in
  let totalCount := publicCount + initialCount in
  json (CountBody totalCount).

End Worker.

(** ** Vocabulary for the statements

    The steps of [POST /api/signatures] named one by one, the responses
    by the outcome they signal, and the few notions that the
    specification words differently from the code. *)

Module Steps.

Import DB Worker.

(** The limiter object of the caller lets the request through. *)
Definition limiter_allows (p : platform) (req : submission) (w : world) : Prop :=
  limiter_verdict
    (fst (RateLimiter.fetch (RateLimiter.key_param (client_ip req))
            (date_now p) (default ∅ (limiters w !! client_ip req))))
  = Some true.

Definition required_present (req : submission) : bool :=
  negb (Str.falsy (s_name req)) && negb (Str.falsy (s_email req))
  && negb (Str.falsy (s_mobile req)).

Definition email_well_formed (req : submission) : bool :=
  Regex.test emailRegex (s_email req).

Definition cleanMobile (req : submission) : string :=
  Str.strip_non_digits (s_mobile req).

Definition emailHash (req : submission) : string :=
  hashString (Str.toLowerCase (s_email req)).

Definition phoneHash (req : submission) : string :=
  hashString (cleanMobile req).

(** Some row of the table already carries one of the two hashes. *)
Definition identity_taken (req : submission) (d : database) : Prop :=
  ∃ r, In r (public_signatures d)
       ∧ (email_hash r = emailHash req ∨ phone_hash r = phoneHash req).

(** The outcome of the two deliveries, as [Promise.all] reports it. *)
Definition dispatch (p : platform) (req : submission) : option js_error :=
  promise_all (sms_settles_first p)
    (sendEmailVerification p (s_email req)
       (generateVerificationCode (random_email p)))
    (sendSmsVerification p (cleanMobile req)
       (generateVerificationCode (random_sms p))).

(** The tables once the signature and its two codes are inserted. *)
Definition staged (p : platform) (req : submission) (d : database)
  : Z * database :=
  let '(signatureId, d1) :=
    insert_signature (s_name req) (emailHash req) (phoneHash req)
      (or_null (s_position req)) (or_null (s_institution req))
      (or_null (s_address req)) (or_null (s_addressId req))
      (or_null (s_stateElec req)) (or_null (s_fedElec req))
      (or_null (s_latitude req)) (or_null (s_longitude req))
      (or_null (s_sa1 req)) (or_null (s_lga req))
      (or_null (s_postcode req)) (or_null (s_state req)) d in
  let expiresAt := getCodeExpiryTime (new_date p) in
  let d2 :=
    insert_code signatureId "email"
      (hashCode (generateVerificationCode (random_email p))) expiresAt d1 in
  let d3 :=
    insert_code signatureId "phone"
      (hashCode (generateVerificationCode (random_sms p))) expiresAt d2 in
  (signatureId, d3).

(** The limiter storage after the call made for this request. *)
Definition limiters_after (p : platform) (req : submission) (w : world)
  : gmap string (gmap string RateLimiter.window) :=
  <[client_ip req :=
      snd (RateLimiter.fetch (RateLimiter.key_param (client_ip req))
             (date_now p) (default ∅ (limiters w !! client_ip req)))]>
    (limiters w).

(** No two rows share an email hash, nor a phone hash. *)
Definition unique_identities (d : database) : Prop :=
  NoDup (map email_hash (public_signatures d))
  ∧ NoDup (map phone_hash (public_signatures d)).

(** The row of a verification code after one more failed attempt. *)
Definition failed_once (c : code_row) : code_row :=
  CodeRow (code_id c) (signature_id c) (code_type c) (code_hash c)
    (expires_at c) (attempts c + 1) (verified_at c).

(** A verification request that gets as far as the attempt limit: the
    codes are given, the signature [sig] exists and is not verified
    yet, its two code rows are [e] (email) and [ph] (phone), not both
    verified, none expired. *)
Record at_attempt_check (p : platform) (id : Z) (emailCode smsCode : string)
    (d : database) (e ph : code_row) : Prop := AtAttemptCheck {
  codes_given : Str.falsy emailCode = false ∧ Str.falsy smsCode = false;
  signature_pending :
    ∃ sig, select_signature id d = Some sig
           ∧ email_verified sig && phone_verified sig = false;
  two_codes : List.length (select_codes id d) = 2%nat;
  email_row :
    List.find (fun c => String.eqb (code_type c) "email") (select_codes id d)
    = Some e;
  phone_row :
    List.find (fun c => String.eqb (code_type c) "phone") (select_codes id d)
    = Some ph;
  not_both_verified : is_set (verified_at e) && is_set (verified_at ph) = false;
  not_expired : new_date p <= expires_at e ∧ new_date p <= expires_at ph
}.

(** One code point is the lower-case form of the other. The capital
    sigma is left out: its lower-case form depends on its place in the
    word. So is the capital I with a dot, which has no lower-case form
    of one code point. *)
Definition lower_of (capital small : Z) : bool :=
  negb (capital =? Unicode.capital_sigma)
  && match Unicode.assoc capital Unicode.lower_pairs with
     | Some d => d =? small
     | None => false
     end.

Definition same_letter (a b : Z) : bool :=
  (a =? b) || lower_of a b || lower_of b a.

Fixpoint same_letters (l1 l2 : list Z) : bool :=
  match l1, l2 with
  | [], [] => true
  | a :: r1, b :: r2 => same_letter a b && same_letters r1 r2
  | _, _ => false
  end.

(** Two strings that differ only in letter case: code point by code
    point they hold the same letter, in the same or in the other case. *)
Definition differ_only_in_case (a b : string) : bool :=
  same_letters (Str.points a) (Str.points b).

End Steps.

Module Outcome.

Import Worker.

Definition rate_limited : response :=
  json_status (ErrorBody "Too many requests") 429.
Definition internal_error : response :=
  json_status (ErrorBody "Internal server error") 500.
Definition missing_fields : response :=
  json_status (ErrorBody "Missing required fields") 400.
Definition invalid_email : response :=
  json_status (ErrorBody "Invalid email format") 400.
Definition invalid_mobile : response :=
  json_status
    (ErrorBody "Invalid Australian mobile number. Must be 10 digits starting with 04.")
    400.
Definition duplicate_identity : response :=
  json_status
    (ErrorBody "This email or phone number has already been used to sign") 409.
Definition delivery_failed (e : js_error) : response :=
  json_status
    (DeliveryErrorBody "Failed to send verification codes. Please try again."
       (error_message e) (error_name e) (error_toString e))
    500.
Definition created (id : Z) : response :=
  json (IdBody id "Verification codes sent to your email and phone").

Definition too_many_attempts : response :=
  json_status
    (ErrorBody "Too many failed attempts. Please request new codes.") 400.
Definition invalid_codes (attemptsRemaining : Z) : response :=
  json_status (InvalidCodesBody "Invalid verification codes" attemptsRemaining) 400.
Definition verified : response :=
  json (MessageBody "Signature verified successfully").

(** The responses that report an input the handler refuses. *)
Definition invalid_input (r : response) : Prop :=
  r = missing_fields ∨ r = invalid_email ∨ r = invalid_mobile.

End Outcome.

(** The specification's own wording, kept apart from the code's. *)
Module Spec.

(** "exactly 10 digits after stripping non-digits, pattern 0[0-9]{9}" *)
Definition mobile_pattern (clean : string) : bool :=
  match Str.chars clean with
  | c :: rest =>
      Ascii.eqb c "0"%char
      && (List.length rest =? 9)%nat
      && forallb Str.is_digit rest
  | [] => false
  end.

(** "the hex-encoded SHA-256 digest of the UTF-8 bytes" *)
Definition hex_sha256_utf8 (s : string) : string :=
  hex_join (SHA256.digest (encode s)).

(** "email lower-cased/trimmed": surrounding white space removed, as
    [trim()] does. *)
Fixpoint trim_left (l : list Z) : list Z :=
  match l with
  | c :: r => if Str.is_space c then trim_left r else l
  | [] => []
  end.

Definition trim (s : string) : string :=
  Str.of_points (rev (trim_left (rev (trim_left (Str.points s))))).

Definition normalize_email (s : string) : string :=
  Str.toLowerCase (trim s).

End Spec.

(** ** Concrete runs: Scenario A and B of the specification *)

Module Scenario.

Import DB Worker.

Definition delivered : string → string → fetched := fun _ _ => Replied 200 "".
Definition refused : string → string → fetched :=
  fun _ _ => Replied 500 "Service unavailable".

(** Both gateways deliver; the generator draws "123456" and "654321". *)
Definition at_time (now : Z) : platform :=
  Platform now now now 23456 554321 delivered delivered false.

(** The email gateway refuses, the SMS gateway delivers. *)
Definition ses_down : platform :=
  Platform 1000 1000 1000 23456 554321 refused delivered false.

(** The SMS gateway refuses, the email gateway delivers. *)
Definition sns_down : platform :=
  Platform 1000 1000 1000 23456 554321 delivered refused false.

Definition jane (email mobile : string) : submission :=
  Submission (Some "203.0.113.7") "Jane Doe" email mobile
    "" "" "" "" "" "" "" "" "" "" "" "".

Definition start : world := World DB.empty ∅.

(** Scenario A, first step: Jane has signed. *)
Definition jane_signed : world :=
  snd (post_signatures (at_time 1000) (jane "Jane@Example.com" "0412345678") start).

Definition jane_row : signature_row :=
  SignatureRow 1 "Jane Doe"
    "8c87b489ce35cf2e2f39f80e282cb2e804932a56a213983eeeb428407d43b52d"
    "e41826c28802a198d4806265956e297cca877a5118130441691bed37aad57c72"
    None None None None None None None None None None None None
    false false None.

(** The two code rows of Jane's signature, for "123456" and "654321". *)
Definition jane_email_code : code_row :=
  CodeRow 1 1 "email"
    "8d969eef6ecad3c29a3a629280e686cf0c3f5d5a86aff3ca12020c923adc6c92"
    601000 0 None.

Definition jane_phone_code : code_row :=
  CodeRow 2 1 "phone"
    "481f6cc0511143ccdd7e2d1b1b94faf0a700a8b49cd13922a70b5ae28acaa8c5"
    601000 0 None.

(** "ja ne@example.com", with a no-break space for the blank. *)
Definition no_break_space_address : string :=
  "ja" +:+ Str.of_points [0xA0] +:+ "ne@example.com".

(** One curated signatory, nobody else. *)
Definition one_initial_signatory : database :=
  Database [] []
    [InitialRow 1 (Some "Prof") "Ada" "Lovelace" None None 0] 0 1.

End Scenario.

(** ** The other public routes of the worker *)

Module Routes.

Import DB Worker.

(** A row of [GET /api/signatures]: [id, name, position, institution,
    verification_completed_at as created_at]. *)
Record listing : Type := Listing {
  listed_id : Z;
  listed_name : string;
  listed_position : option string;
  listed_institution : option string;
  created_at : Z
}.

(** A row of [GET /api/initial-signatories]. *)
Record signatory : Type := Signatory {
  shown_title : option string;
  shown_first_name : string;
  shown_last_name : string;
  shown_position : option string;
  shown_institution : option string
}.

Inductive body : Type :=
| Error : string -> body
| Availability : bool -> bool -> bool -> body
    (* emailExists, mobileExists, available *)
| Signatures : list listing -> body
| Signatories : list signatory -> body.

Record response : Type := Response { status : Z; payload : body }.

(** [ORDER BY]: the rows put in order by insertion, rows that compare
    equal keeping the order of the table (SQL leaves theirs open). *)
Fixpoint insert_by {A : Type} (leb : A -> A -> bool) (x : A) (l : list A)
  : list A :=
  match l with
  | [] => [x]
  | y :: r => if leb x y then x :: l else y :: insert_by leb x r
  end.

Definition order_by {A : Type} (leb : A -> A -> bool) (l : list A) : list A :=
  fold_right (insert_by leb) [] l.

(** *** [POST /api/signatures/check] *)

Definition post_check (email mobile : string) (d : database) : response :=
  if Str.falsy email && Str.falsy mobile
  then Response 400 (Error "Email or mobile number required")
  else
    let emailExists :=
      if Str.falsy email then false
      else
        let emailHash := hashString (Str.toLowerCase email) in
        is_set
          (List.find
             (fun r => String.eqb (email_hash r) emailHash && email_verified r)
             (public_signatures d)) in
    let mobileExists :=
      if Str.falsy mobile then false
      else
        let cleanMobile := Str.strip_non_digits mobile in
        let phoneHash := hashString cleanMobile in
        is_set
          (List.find
             (fun r => String.eqb (phone_hash r) phoneHash && phone_verified r)
             (public_signatures d)) in
    Response 200
      (Availability emailExists mobileExists
         (negb emailExists && negb mobileExists)).

(** *** [GET /api/signatures] *)

(** [WHERE email_verified = 1 AND phone_verified = 1 AND
    verification_completed_at IS NOT NULL], and the columns selected. *)
Definition listing_of (r : signature_row) : option listing :=
  match verification_completed_at r with
  | Some at_ =>
      if email_verified r && phone_verified r
      then Some (Listing (id r) (name r) (position r) (institution r) at_)
      else None
  | None => None
  end.

(** [ORDER BY verification_completed_at DESC] *)
Definition later_first (a b : listing) : bool := created_at b <=? created_at a.

Definition get_signatures (d : database) : response :=
  let results := order_by later_first (omap listing_of (public_signatures d)) in
  Response 200 (Signatures results).

(** *** [GET /api/initial-signatories] *)

(** [ORDER BY display_order ASC, last_name ASC], text compared byte by
    byte. *)
Definition by_display_order (a b : initial_row) : bool :=
  (display_order a <? display_order b)
  || ((display_order a =? display_order b)
      && String.leb (last_name a) (last_name b)).

Definition signatory_of (r : initial_row) : signatory :=
  Signatory (title r) (first_name r) (last_name r) (initial_position r)
    (initial_institution r).

Definition get_initial_signatories (d : database) : response :=
  let results :=
    map signatory_of (order_by by_display_order (initial_signatories d)) in
  Response 200 (Signatories results).

End Routes.

(** ** Authentication utilities ([auth-utils.ts])

    The JWT and bcrypt packages are libraries of the platform: they are
    taken as given, a [None] standing for a call that throws. *)

Module Auth.

Record JWTPayload : Type := Payload {
  userId : Z;
  email : string;
  exp : Z
}.

Record library : Type := Library {
  jwt_sign : JWTPayload -> string -> option string;
  jwt_verify : string -> string -> option bool;
  jwt_decode : string -> option JWTPayload;
  bcrypt_compare : string -> string -> option bool
}.

Definition TOKEN_EXPIRY_HOURS : Z := 24.

(** [now] is [Date.now()]. *)
Definition generateToken (lib : library) (now : Z) (userId : Z)
    (email jwtSecret : string) : option string :=
  let expirationTime := now / 1000 + TOKEN_EXPIRY_HOURS * 60 * 60 in
  jwt_sign lib (Payload userId email expirationTime) jwtSecret.

(** A throw inside is caught and gives [null]. *)
Definition verifyToken (lib : library) (token jwtSecret : string)
  : option JWTPayload :=
  match jwt_verify lib token jwtSecret with
  | Some isValid =>
      if negb isValid then None
      else jwt_decode lib token
  | None => None
  end.

Definition verifyPassword (lib : library) (password hash : string)
  : option bool :=
  bcrypt_compare lib password hash.

(** [s.substring(n)] *)
Fixpoint substring_from (n : nat) (s : string) : string :=
  match n, s with
  | O, _ => s
  | S n', String _ r => substring_from n' r
  | S _, EmptyString => EmptyString
  end.

Definition extractTokenFromHeader (authHeader : option string) : option string :=
  match authHeader with
  | None => None
  | Some h =>
      if Str.falsy h || negb (Str.startsWith h "Bearer ")
      then None
      else Some (substring_from 7 h)
  end.

End Auth.

(** ** The admin routes *)

Module Admin.

Import DB Worker Auth.

Record admin_row : Type := AdminRow {
  admin_id : Z;
  admin_email : string;
  password_hash : string
}.

(** The tables of the public routes, the table [admin_users], and the
    AUTOINCREMENT counter of [initial_signatories]. *)
Record store : Type := Store {
  tables : database;
  admin_users : list admin_row;
  seq_initial_signatories : Z
}.

Record config : Type := Config {
  lib : library;
  JWT_SECRET : string
}.

Inductive body : Type :=
| Error : string -> body
| Message : string -> body
| Session : string -> Z -> string -> body   (* token, user.id, user.email *)
| Authenticated : bool -> body
| Created : Z -> string -> body.            (* id, message *)

Record response : Type := Response { status : Z; payload : body }.

Definition with_tables (d : database) (s : store) : store :=
  Store d (admin_users s) (seq_initial_signatories s).

Definition with_initial (rows : list initial_row) (seq : Z) (s : store) : store :=
  Store
    (Database (public_signatures (tables s)) (verification_codes (tables s))
       rows (seq_public_signatures (tables s))
       (seq_verification_codes (tables s)))
    (admin_users s) seq.

(** *** [adminAuthMiddleware]

    [None] when the middleware calls [next()], the response otherwise.
    [authorization] is [c.req.header('Authorization')]. *)
Definition adminAuthMiddleware (cfg : config) (authorization : option string)
    (s : store) : option response :=
  let authHeader :=
    match authorization with
    | Some h => if Str.falsy h then None else Some h
    | None => None
    end in
  match extractTokenFromHeader authHeader with
  | None => Some (Response 401 (Error "Unauthorized - No token provided"))
  | Some token =>
      if Str.falsy token
      then Some (Response 401 (Error "Unauthorized - No token provided"))
      else
        match verifyToken (lib cfg) token (JWT_SECRET cfg) with
        | None =>
            Some (Response 401 (Error "Unauthorized - Invalid or expired token"))
        | Some payload =>
            match List.find (fun u => admin_id u =? userId payload)
                    (admin_users s) with
            | None => Some (Response 401 (Error "Unauthorized - User not found"))
            | Some _ => None
            end
        end
  end.

(** A route registered behind the middleware. *)
Definition behind_middleware (cfg : config) (authorization : option string)
    (handler : store -> response * store) (s : store) : response * store :=
  match adminAuthMiddleware cfg authorization s with
  | Some refusal => (refusal, s)
  | None => handler s
  end.

(** *** [POST /api/admin/login] *)

Definition login_key (cf_connecting_ip : option string) : string :=
  let ip :=
    match cf_connecting_ip with
    | Some h => if Str.falsy h then "unknown" else h
    | None => "unknown"
    end in
  "admin-login-" +:+ ip.

Definition post_admin_login (cfg : config) (now : Z)
    (cf_connecting_ip : option string) (email password : string)
    (limiters : gmap string (gmap string RateLimiter.window)) (s : store)
  : response * gmap string (gmap string RateLimiter.window) :=
  let rateLimitKey := login_key cf_connecting_ip in
  let object := default ∅ (limiters !! rateLimitKey) in
  let '(rateLimitResponse, object') :=
    RateLimiter.fetch (RateLimiter.key_param rateLimitKey) now object in
  let limiters1 := <[rateLimitKey := object']> limiters in
  match limiter_verdict rateLimitResponse with
  | None =>
      (Response 500
         (Error "An unexpected error occurred during login. Please try again."),
       limiters1)
  | Some false =>
      (Response 429
         (Error "Too many login attempts. Please try again later."),
       limiters1)
  | Some true =>
      if Str.falsy email || Str.falsy password
      then (Response 400 (Error "Email and password are required"), limiters1)
      else if Str.falsy (JWT_SECRET cfg)
      then (Response 500
              (Error "Authentication service is not properly configured. Please contact support."),
            limiters1)
      else
        match List.find
                (fun u => String.eqb (admin_email u) (Str.toLowerCase email))
                (admin_users s) with
        | None => (Response 401 (Error "Invalid email or password"), limiters1)
        | Some user =>
            match verifyPassword (lib cfg) password (password_hash user) with
            | None =>
                (Response 500 (Error "Authentication error. Please try again."),
                 limiters1)
            | Some isValid =>
                if negb isValid
                then (Response 401 (Error "Invalid email or password"), limiters1)
                else
                  match generateToken (lib cfg) now (admin_id user)
                          (admin_email user) (JWT_SECRET cfg) with
                  | None =>
                      (Response 500
                         (Error "Failed to generate authentication token. Please try again."),
                       limiters1)
                  | Some token =>
                      (Response 200
                         (Session token (admin_id user) (admin_email user)),
                       limiters1)
                  end
            end
        end
  end.

(** *** [GET /api/admin/verify] *)

Definition get_admin_verify (s : store) : response * store :=
  (Response 200 (Authenticated true), s).

(** *** [DELETE /api/admin/signatures/:id] *)

(** [result.meta.changes]: the rows the statement itself deleted. *)
Definition delete_admin_signature (sid : Z) (s : store) : response * store :=
  let changes :=
    List.length
      (List.filter (fun r => id r =? sid) (public_signatures (tables s))) in
  let s1 := with_tables (delete_signature sid (tables s)) s in
  if (changes =? 0)%nat
  then (Response 404 (Error "Signature not found"), s1)
  else (Response 200 (Message "Signature deleted successfully"), s1).

(** *** The initial signatories *)

Record signatory_form : Type := SignatoryForm {
  f_title : string;
  f_first_name : string;
  f_last_name : string;
  f_position : string;
  f_institution : string;
  f_display_order : Z
}.

(** [display_order || 0] *)
Definition or_zero (n : Z) : Z := if n =? 0 then 0 else n.

(** [POST /api/admin/initial-signatories] *)
Definition post_admin_initial_signatory (f : signatory_form) (s : store)
  : response * store :=
  if Str.falsy (f_first_name f) || Str.falsy (f_last_name f)
  then (Response 400 (Error "First name and last name are required"), s)
  else
    let rowid :=
      next_rowid (seq_initial_signatories s)
        (map initial_id (initial_signatories (tables s))) in
    let row :=
      InitialRow rowid (or_null (f_title f)) (f_first_name f) (f_last_name f)
        (or_null (f_position f)) (or_null (f_institution f))
        (or_zero (f_display_order f)) in
    (Response 200 (Created rowid "Initial signatory created successfully"),
     with_initial (initial_signatories (tables s) ++ [row]) rowid s).

(** [PUT /api/admin/initial-signatories/:id] *)
Definition put_admin_initial_signatory (sid : Z) (f : signatory_form) (s : store)
  : response * store :=
  if Str.falsy (f_first_name f) || Str.falsy (f_last_name f)
  then (Response 400 (Error "First name and last name are required"), s)
  else
    let changes :=
      List.length
        (List.filter (fun r => initial_id r =? sid)
           (initial_signatories (tables s))) in
    let rows :=
      map (fun r =>
             if initial_id r =? sid
             then InitialRow (initial_id r) (or_null (f_title f))
                    (f_first_name f) (f_last_name f) (or_null (f_position f))
                    (or_null (f_institution f)) (or_zero (f_display_order f))
             else r)
        (initial_signatories (tables s)) in
    let s1 := with_initial rows (seq_initial_signatories s) s in
    if (changes =? 0)%nat
    then (Response 404 (Error "Initial signatory not found"), s1)
    else (Response 200 (Message "Initial signatory updated successfully"), s1).

(** [DELETE /api/admin/initial-signatories/:id] *)
Definition delete_admin_initial_signatory (sid : Z) (s : store)
  : response * store :=
  let changes :=
    List.length
      (List.filter (fun r => initial_id r =? sid)
         (initial_signatories (tables s))) in
  let rows :=
    List.filter (fun r => negb (initial_id r =? sid))
      (initial_signatories (tables s)) in
  let s1 := with_initial rows (seq_initial_signatories s) s in
  if (changes =? 0)%nat
  then (Response 404 (Error "Initial signatory not found"), s1)
  else (Response 200 (Message "Initial signatory deleted successfully"), s1).

(** [UPDATE initial_signatories SET display_order = ? WHERE id = ?] *)
Definition set_display_order (order : Z * Z) (rows : list initial_row)
  : list initial_row :=
  map (fun r =>
         if initial_id r =? fst order
         then InitialRow (initial_id r) (title r) (first_name r) (last_name r)
                (initial_position r) (initial_institution r) (snd order)
         else r)
    rows.

(** [PATCH /api/admin/initial-signatories/reorder]; [signatories] is
    [None] when the field is not an array, and holds the pairs
    [(id, display_order)] otherwise. *)
Definition patch_admin_reorder (signatories : option (list (Z * Z))) (s : store)
  : response * store :=
  match signatories with
  | None => (Response 400 (Error "Invalid request format"), s)
  | Some l =>
      let rows :=
        fold_left (fun rows order => set_display_order order rows) l
          (initial_signatories (tables s)) in
      (Response 200 (Message "Display order updated successfully"),
       with_initial rows (seq_initial_signatories s) s)
  end.

End Admin.

(** ** What a pattern matches

    The strings of a pattern, given by rules, apart from the matcher. *)

Module RegexLanguage.

Import Regex.

Inductive lang : re -> list Z -> Prop :=
| lang_eps : lang Eps []
| lang_class : forall p c, p c = true -> lang (Class p) [c]
| lang_cat : forall a b s1 s2,
    lang a s1 -> lang b s2 -> lang (Cat a b) (s1 ++ s2)
| lang_alt_l : forall a b s, lang a s -> lang (Alt a b) s
| lang_alt_r : forall a b s, lang b s -> lang (Alt a b) s
| lang_star_nil : forall a, lang (Star a) []
| lang_star_cons : forall a s1 s2,
    lang a s1 -> lang (Star a) s2 -> lang (Star a) (s1 ++ s2).

End RegexLanguage.

(** ** Invariants of the state *)

Module Invariants.

Import DB Worker.

(** The counters a limiter object holds once it only stores what
    [fetch] writes. *)
Definition counters_in_range (storage : gmap string RateLimiter.window) : Prop :=
  ∀ k d, storage !! k = Some d →
         1 <= RateLimiter.count d <= 5.

(** Every verification code belongs to a signature of the table: what
    the foreign key of [verification_codes] enforces. *)
Definition referential_integrity (d : database) : Prop :=
  ∀ c, In c (verification_codes d) →
       ∃ r, In r (public_signatures d) ∧ id r = signature_id c.

(** The two flags of a signature go together, and with the time of
    completion. *)
Definition flags_consistent (d : database) : Prop :=
  ∀ r, In r (public_signatures d) →
       phone_verified r = email_verified r
       ∧ is_set (verification_completed_at r) = email_verified r.

(** Rowids of [initial_signatories] are a primary key. *)
Definition initial_ids_unique (d : database) : Prop :=
  NoDup (map initial_id (initial_signatories d)).

(** The rows that do not belong to signature [sid] are the same in [d]
    and [d'], and no row has come or gone. *)
Definition untouched_outside (sid : Z) (d d' : database) : Prop :=
  (∀ r, id r ≠ sid →
        (In r (public_signatures d) ↔ In r (public_signatures d')))
  ∧ (∀ c, signature_id c ≠ sid →
          (In c (verification_codes d) ↔ In c (verification_codes d')))
  ∧ initial_signatories d' = initial_signatories d
  ∧ map id (public_signatures d') = map id (public_signatures d)
  ∧ map code_id (verification_codes d') = map code_id (verification_codes d).

(** An initial signatory, its display order set aside. *)
Definition without_order (r : initial_row) : initial_row :=
  InitialRow (initial_id r) (title r) (first_name r) (last_name r)
    (initial_position r) (initial_institution r) 0.

(** Requests to [POST /api/signatures] handled one after the other,
    each with what its body parses to. *)
Definition submit_all (l : list (platform * parsed * submission)) (w : world)
  : world :=
  fold_left
    (fun w q =>
       snd (post_signatures_request (fst (fst q)) (snd (fst q)) (snd q) w))
    l w.

(** Logins of one client against one store, handled one after the
    other: each is [(now, email, password)]. *)
Definition login_all (cfg : Admin.config) (cf_connecting_ip : option string)
    (s : Admin.store) (l : list (Z * string * string))
    (limiters : gmap string (gmap string RateLimiter.window))
  : gmap string (gmap string RateLimiter.window) :=
  fold_left
    (fun ls q =>
       snd (Admin.post_admin_login cfg (fst (fst q)) cf_connecting_ip
              (snd (fst q)) (snd q) ls s))
    l limiters.

End Invariants.

(** ** A concrete admin: one user, and stand-ins for the two libraries *)

Module AdminScenario.

Import Auth Admin.

(** A JWT library that issues one token, for the admin of id 1, and a
    password check against hashes of the form "bcrypt:" and the
    password. *)
Definition toy : library :=
  Library
    (fun _ _ => Some "token-of-admin-1")
    (fun token _ => Some (String.eqb token "token-of-admin-1"))
    (fun _ => Some (Payload 1 "admin@example.com" 86401))
    (fun password hash => Some (String.eqb hash ("bcrypt:" +:+ password))).

Definition cfg : config := Config toy "secret".

Definition office : store :=
  Store DB.empty [AdminRow 1 "admin@example.com" "bcrypt:changeme123"] 0.

(** The same tables once the admin user is removed. *)
Definition office_closed : store := Store DB.empty [] 0.

Definition ada : signatory_form :=
  SignatoryForm "Prof" "Ada" "Lovelace" "" "" 0.

End AdminScenario.

(** * Properties *)

(** ** SHA-256 against the published test vectors *)

Example sha256_abc :
  hashString "abc"
  = "ba7816bf8f01cfea414140de5dae2223b00361a396177a9cb410ff61f20015ad".
Proof. vm_compute. reflexivity. Qed.

Example sha256_empty :
  hashString ""
  = "e3b0c44298fc1c149afbf4c8996fb92427ae41e4649b934ca495991b7852b855".
Proof. vm_compute. reflexivity. Qed.

Example sha256_two_blocks :
  hashString "abcdbcdecdefdefgefghfghighijhijkijkljklmklmnlmnomnopnopq"
  = "248d6a61d20638b8e5c026930c3e6039a33ce45964ff2167f6ecedd419db06c1".
Proof. vm_compute. reflexivity. Qed.

(** ** The rate limiter *)

Section RateLimiterFacts.

Import RateLimiter.

Variable key : string.
Hypothesis key_given : key ≠ "".

Lemma key_truthy : Str.falsy key = false.
Proof using key_given. destruct key; [congruence | reflexivity]. Qed.

Lemma fetch_fresh storage now :
  (storage !! key = None
   ∨ ∃ d, storage !! key = Some d ∧ resetTime d < now) →
  fetch (Some key) now storage
  = (Response 200 (Json true 4),
     <[key := Window 1 (now + 60000)]> storage).
Proof using key_given.
  intros H. unfold fetch. rewrite key_truthy. cbv zeta.
  destruct H as [-> | (d & -> & Hd)]; [reflexivity |].
  apply Z.ltb_lt in Hd. rewrite Hd. reflexivity.
Qed.

Lemma fetch_active storage now d :
  storage !! key = Some d → now <= resetTime d → count d < 5 →
  fetch (Some key) now storage
  = (Response 200 (Json true (5 - count d - 1)),
     <[key := Window (count d + 1) (resetTime d)]> storage).
Proof using key_given.
  intros Hd Hn Hc. unfold fetch. rewrite key_truthy. cbv zeta. rewrite Hd.
  replace (resetTime d <? now) with false by (symmetry; apply Z.ltb_ge; lia).
  unfold maxRequests.
  replace (5 <=? count d) with false by (symmetry; apply Z.leb_gt; lia).
  reflexivity.
Qed.

Lemma fetch_full storage now d :
  storage !! key = Some d → now <= resetTime d → 5 <= count d →
  fetch (Some key) now storage = (Response 429 (Json false 0), storage).
Proof using key_given.
  intros Hd Hn Hc. unfold fetch. rewrite key_truthy. cbv zeta. rewrite Hd.
  replace (resetTime d <? now) with false by (symmetry; apply Z.ltb_ge; lia).
  unfold maxRequests.
  replace (5 <=? count d) with true by (symmetry; apply Z.leb_le; lia).
  reflexivity.
Qed.

End RateLimiterFacts.

Section RateLimiterRuns.

Import RateLimiter.

Lemma budget_nonneg storage k R : 0 <= budget storage k R.
Proof.
  unfold budget, maxRequests. destruct (storage !! k) as [w|]; [|lia].
  destruct (R <? resetTime w); [lia|].
  destruct (R =? resetTime w); lia.
Qed.

(** One request of key [k'] spends at most one unit of the budget of
    [(k, R)], and exactly one when it is admitted there. *)
Lemma fetch_budget k' now storage k R :
  let '(r, storage1) := fetch (Some k') now storage in
  budget storage1 k R
  + (if admitted k R (Entry k' (allowed r) (storage1 !! k')) then 1 else 0)
  <= budget storage k R.
Proof.
  unfold fetch. destruct (Str.falsy k') eqn:Hk'.
  { unfold admitted; cbn. rewrite andb_false_r. cbn. lia. }
  assert (Hsame : ∀ w, k' ≠ k →
            budget (<[k':=w]> storage) k R = budget storage k R).
  { intros w Hne. unfold budget. rewrite lookup_insert_ne; done. }
  assert (Hout : ∀ a w, k' ≠ k → admitted k R (Entry k' a w) = false).
  { intros a w Hne. unfold admitted; cbn.
    destruct (String.eqb_spec k' k); [done | reflexivity]. }
  pose proof (budget_nonneg storage k R) as Hnn.
  destruct (storage !! k') as [d|] eqn:Hd.
  - destruct (resetTime d <? now) eqn:Hexp.
    + destruct (decide (k' = k)) as [->|Hne].
      2:{ rewrite Hsame, Hout by done. lia. }
      apply Z.ltb_lt in Hexp.
      unfold admitted, budget in *; cbn.
      rewrite lookup_insert_eq, Hd in *. cbn.
      rewrite String.eqb_refl. cbn. unfold windowMs, maxRequests in *.
      destruct (R <? now + 60000) eqn:E1;
        destruct (now + 60000 =? R) eqn:E2;
        destruct (R =? now + 60000) eqn:E3;
        destruct (R <? resetTime d) eqn:E4;
        destruct (R =? resetTime d) eqn:E5; lia.
    + destruct (maxRequests <=? count d) eqn:Hfull.
      * unfold admitted; cbn. rewrite andb_false_r. cbn. lia.
      * destruct (decide (k' = k)) as [->|Hne].
        2:{ rewrite Hsame, Hout by done. lia. }
        unfold admitted, budget in *; cbn.
        rewrite lookup_insert_eq, Hd in *. cbn.
        rewrite String.eqb_refl. cbn. unfold maxRequests in *.
        destruct (R <? resetTime d) eqn:E4;
          destruct (resetTime d =? R) eqn:E2;
          destruct (R =? resetTime d) eqn:E5; lia.
  - destruct (decide (k' = k)) as [->|Hne].
    2:{ rewrite Hsame, Hout by done. lia. }
    unfold admitted, budget in *; cbn.
    rewrite lookup_insert_eq, Hd in *. cbn.
    rewrite String.eqb_refl. cbn. unfold windowMs, maxRequests in *.
    destruct (R <? now + 60000) eqn:E1;
      destruct (now + 60000 =? R) eqn:E2;
      destruct (R =? now + 60000) eqn:E3; lia.
Qed.

Lemma serve_budget reqs : ∀ storage k R,
  Z.of_nat (admitted_in k R (fst (serve reqs storage))) <= budget storage k R.
Proof.
  induction reqs as [|[k' now] rest IH]; intros storage k R.
  - cbn. apply budget_nonneg.
  - pose proof (fetch_budget k' now storage k R) as Hstep.
    cbn [serve]. destruct (fetch (Some k') now storage) as [r storage1].
    specialize (IH storage1 k R).
    destruct (serve rest storage1) as [log storage2]. cbn [fst] in *.
    unfold admitted_in in *. cbn [List.filter].
    destruct (admitted k R _); cbn [List.length]; lia.
Qed.

Lemma budget_le_max storage k R :
  (∀ d, storage !! k = Some d → 0 <= count d) → budget storage k R <= 5.
Proof.
  intros H. unfold budget, maxRequests.
  destruct (storage !! k) as [d|]; [|lia].
  specialize (H d eq_refl).
  destruct (R <? resetTime d); [lia|]. destruct (R =? resetTime d); lia.
Qed.

End RateLimiterRuns.

Section RateLimiterScenario.

Import RateLimiter.

Variable key : string.
Hypothesis key_given : key ≠ "".

(** Five requests, the last four no later than 60 s after the first,
    fill the window the first one opened. *)
Lemma five_fill_window storage t1 t2 t3 t4 t5 rest :
  (storage !! key = None
   ∨ ∃ d, storage !! key = Some d ∧ resetTime d < t1) →
  t2 <= t1 + 60000 → t3 <= t1 + 60000 →
  t4 <= t1 + 60000 → t5 <= t1 + 60000 →
  let storage5 := <[key := Window 5 (t1 + 60000)]> storage in
  verdicts (fst (serve
    ((key, t1) :: (key, t2) :: (key, t3) :: (key, t4) :: (key, t5) :: rest)
    storage))
  = [true; true; true; true; true] ++ verdicts (fst (serve rest storage5))
  ∧ snd (serve
      ((key, t1) :: (key, t2) :: (key, t3) :: (key, t4) :: (key, t5) :: rest)
      storage)
    = snd (serve rest storage5).
Proof using key_given.
  intros Hfresh H2 H3 H4 H5 storage5. subst storage5. cbn [serve].
  rewrite (fetch_fresh key key_given storage t1 Hfresh).
  rewrite (fetch_active key key_given _ t2 (Window 1 (t1 + 60000)));
    [| apply lookup_insert_eq | cbn; lia | cbn; lia].
  rewrite (fetch_active key key_given _ t3 (Window 2 (t1 + 60000)));
    [| apply lookup_insert_eq | cbn; lia | cbn; lia].
  rewrite (fetch_active key key_given _ t4 (Window 3 (t1 + 60000)));
    [| apply lookup_insert_eq | cbn; lia | cbn; lia].
  rewrite (fetch_active key key_given _ t5 (Window 4 (t1 + 60000)));
    [| apply lookup_insert_eq | cbn; lia | cbn; lia].
  cbn [count resetTime Z.add Pos.add Pos.succ].
  rewrite !insert_insert_eq.
  destruct (serve rest _) as [l s]. split; reflexivity.
Qed.

End RateLimiterScenario.

Section RateLimiterWindow.

Import RateLimiter.

(** C1. For a key that is present, [fetch] opens a window with
    [count = 1] and [resetTime = now + 60 s] and allows the request
    when the key has no record or [now > resetTime]; inside a window
    it increments [count] and allows while [count < 5]; at
    [count >= 5] it rejects and leaves the record as it is. Hence in
    any run, for any key and any window, at most five requests are
    let through; and of six requests of which the second to fifth
    come within 60 s of the first, the sixth is rejected when it too
    comes within 60 s of the first, and is allowed and opens a new
    window when it comes later (61 s after the first, say). *)
Theorem rate_limiter_fixed_window
    (key : string) (now : Z) (storage : gmap string window) :
  key ≠ "" →
  ((storage !! key = None
    ∨ ∃ d, storage !! key = Some d ∧ resetTime d < now) →
   fetch (Some key) now storage
   = (Response 200 (Json true 4),
      <[key := Window 1 (now + 60000)]> storage))
  ∧ (∀ d, storage !! key = Some d → now <= resetTime d → count d < 5 →
     fetch (Some key) now storage
     = (Response 200 (Json true (5 - count d - 1)),
        <[key := Window (count d + 1) (resetTime d)]> storage))
  ∧ (∀ d, storage !! key = Some d → now <= resetTime d → 5 <= count d →
     fetch (Some key) now storage
     = (Response 429 (Json false 0), storage))
  ∧ (∀ reqs R,
       (∀ d, storage !! key = Some d → 0 <= count d) →
       (admitted_in key R (fst (serve reqs storage)) <= 5)%nat)
  ∧ (∀ t2 t3 t4 t5 t6,
       (storage !! key = None
        ∨ ∃ d, storage !! key = Some d ∧ resetTime d < now) →
       t2 <= now + 60000 → t3 <= now + 60000 →
       t4 <= now + 60000 → t5 <= now + 60000 →
       let run :=
         serve [(key, now); (key, t2); (key, t3); (key, t4); (key, t5);
                (key, t6)] storage in
       (t6 <= now + 60000 →
        verdicts (fst run) = [true; true; true; true; true; false]
        ∧ snd run !! key = Some (Window 5 (now + 60000)))
       ∧ (now + 60000 < t6 →
          verdicts (fst run) = [true; true; true; true; true; true]
          ∧ snd run !! key = Some (Window 1 (t6 + 60000)))).
Proof.
  intros Hkey. split; [| split; [| split; [| split]]].
  - apply fetch_fresh; assumption.
  - intros d. apply fetch_active; assumption.
  - intros d. apply fetch_full; assumption.
  - intros reqs R Hcount.
    pose proof (serve_budget reqs storage key R).
    pose proof (budget_le_max storage key R Hcount). lia.
  - intros t2 t3 t4 t5 t6 Hfresh H2 H3 H4 H5 run.
    destruct (five_fill_window key Hkey storage now t2 t3 t4 t5
                [(key, t6)] Hfresh H2 H3 H4 H5) as [Hv Hs].
    subst run. rewrite Hv, Hs. cbn [serve]. split; intros H6.
    + rewrite (fetch_full key Hkey _ t6 (Window 5 (now + 60000)));
        [| apply lookup_insert_eq | cbn; lia | cbn; lia].
      split; [reflexivity | apply lookup_insert_eq].
    + rewrite (fetch_fresh key Hkey _ t6).
      * split; [reflexivity | apply lookup_insert_eq].
      * right. eexists. split; [apply lookup_insert_eq | cbn; lia].
Qed.

(** The sixth request, one second after the first window closed. *)
Lemma rate_limiter_fixed_window_witness :
  "203.0.113.7" ≠ ""
  ∧ verdicts (fst (serve
      [("203.0.113.7", 0); ("203.0.113.7", 10000); ("203.0.113.7", 20000);
       ("203.0.113.7", 30000); ("203.0.113.7", 40000);
       ("203.0.113.7", 61000)] ∅))
    = [true; true; true; true; true; true].
Proof.
  assert (Hk : "203.0.113.7" ≠ "") by discriminate.
  split; [exact Hk |].
  refine (proj1 (proj2 (proj2 (proj2 (proj2 (proj2
    (rate_limiter_fixed_window "203.0.113.7" 0 ∅ Hk))))
    10000 20000 30000 40000 61000 _ _ _ _ _) _));
    [left; apply lookup_empty | lia | lia | lia | lia | lia].
Defined.

End RateLimiterWindow.

(** ** Facts about the tables *)

Section Tables.

Import DB.

Lemma max_of_ge (l : list Z) x : In x l → x <= max_of l.
Proof.
  unfold max_of. induction l as [|y l IH]; cbn [In fold_right]; [tauto|].
  intros [->|H]; [lia | specialize (IH H); lia].
Qed.

Lemma next_rowid_fresh seq (ids : list Z) x :
  In x ids → x < next_rowid seq ids.
Proof. intros H%max_of_ge. unfold next_rowid. lia. Qed.

Lemma filter_all {A} (f : A → bool) (l : list A) :
  (∀ x, In x l → f x = true) → List.filter f l = l.
Proof.
  induction l as [|y l IH]; cbn; [reflexivity|]. intros H.
  rewrite (H y) by tauto. f_equal. apply IH. intros x Hx. apply H. tauto.
Qed.

(** Deleting a row by a rowid no other row has gives back the rest. *)
Lemma filter_drop_fresh (rows : list signature_row) (row : signature_row) :
  (∀ r, In r rows → id r < id row) →
  List.filter (fun r => negb (id r =? id row)) (rows ++ [row]) = rows.
Proof.
  intros H. rewrite List.filter_app. cbn. rewrite Z.eqb_refl. cbn.
  rewrite app_nil_r. apply filter_all. intros r Hr.
  specialize (H r Hr). apply negb_true_iff, Z.eqb_neq. lia.
Qed.

Lemma delete_signature_gone sid d :
  select_signature sid (delete_signature sid d) = None.
Proof.
  unfold select_signature, delete_signature. cbn.
  induction (public_signatures d) as [|r l IH]; cbn; [reflexivity|].
  destruct (id r =? sid) eqn:E; cbn; [exact IH|]. rewrite E. exact IH.
Qed.

(** The cascade: once a row of that id was deleted, no code refers to
    it. *)
Lemma delete_signature_cascade sid d c :
  select_signature sid d ≠ None →
  In c (verification_codes (delete_signature sid d)) →
  signature_id c ≠ sid.
Proof.
  unfold select_signature, delete_signature. cbn. intros Hsel Hin.
  assert (Hhit : existsb (fun r => id r =? sid) (public_signatures d) = true).
  { destruct (List.find _ _) as [r|] eqn:E; [|congruence].
    apply List.find_some in E as [E1 E2]. apply existsb_exists. eauto. }
  rewrite Hhit in Hin. apply List.filter_In in Hin as [_ Hin].
  apply negb_true_iff, Z.eqb_neq in Hin. exact Hin.
Qed.

End Tables.

(** ** [POST /api/signatures], step by step *)

Section Submission.

Import DB Worker Steps Outcome.

Arguments hashString : simpl never.
Arguments hashCode : simpl never.

Variables (p : platform) (req : submission) (w : world).

(** The handler, read along the steps it goes through. *)
Lemma post_signatures_steps :
  let ls := limiters_after p req w in
  post_signatures p req w =
  match limiter_verdict
          (fst (RateLimiter.fetch (RateLimiter.key_param (client_ip req))
                  (date_now p) (default ∅ (limiters w !! client_ip req)))) with
  | None => (json_status (ErrorBody "Internal server error") 500, World (db w) ls)
  | Some false => (rate_limited, World (db w) ls)
  | Some true =>
      if negb (required_present req) then (missing_fields, World (db w) ls)
      else if negb (email_well_formed req) then (invalid_email, World (db w) ls)
      else if negb (mobile_valid (cleanMobile req))
      then (invalid_mobile, World (db w) ls)
      else
        match select_by_hash (emailHash req) (phoneHash req) (db w) with
        | Some _ => (duplicate_identity, World (db w) ls)
        | None =>
            match dispatch p req with
            | Some e =>
                (delivery_failed e,
                 World (delete_signature (fst (staged p req (db w)))
                          (snd (staged p req (db w)))) ls)
            | None =>
                (created (fst (staged p req (db w))),
                 World (snd (staged p req (db w))) ls)
            end
        end
  end.
Proof.
  unfold post_signatures, limiters_after.
  destruct (RateLimiter.fetch _ _ _) as [r o]. cbn [fst snd db limiters].
  destruct (limiter_verdict r) as [[|]|]; try reflexivity.
  unfold required_present, email_well_formed, mobile_valid, cleanMobile.
  destruct (Str.falsy (s_name req)); [reflexivity|].
  destruct (Str.falsy (s_email req)); [reflexivity|].
  destruct (Str.falsy (s_mobile req)); [reflexivity|].
  cbn [negb orb andb].
  destruct (Regex.test emailRegex (s_email req)); [|reflexivity].
  cbn [negb].
  destruct (Str.length _ =? 10); cbn [negb orb andb]; [|reflexivity].
  destruct (Str.startsWith _ "04"); cbn [negb]; [|reflexivity].
  unfold emailHash, phoneHash, cleanMobile.
  destruct (select_by_hash _ _ _); [reflexivity|].
  unfold dispatch, staged, cleanMobile, emailHash, phoneHash, cleanMobile.
  destruct (insert_signature _ _ _ _ _ _ _ _ _ _ _ _ _ _ _ _) as [sid d1].
  cbn [fst snd].
  destruct (promise_all _ _ _); reflexivity.
Qed.

End Submission.

(** ** Roll-back when a delivery fails *)

Section Rollback.

Import DB Worker Steps Outcome.

Arguments hashString : simpl never.
Arguments hashCode : simpl never.

Lemma promise_all_rejects second_first (a b : option js_error) :
  a ≠ None ∨ b ≠ None → ∃ e, promise_all second_first a b = Some e.
Proof.
  destruct a, b; cbn; intros [H|H]; try congruence; eauto.
Qed.

(** What [staged] adds: one signature row of a fresh rowid, then its
    email code and its phone code. *)
Lemma staged_rows (p : platform) (req : submission) (d : database) :
  let sid := fst (staged p req d) in
  ∃ row c1 c2,
    public_signatures (snd (staged p req d)) = public_signatures d ++ [row]
    ∧ verification_codes (snd (staged p req d))
      = verification_codes d ++ [c1; c2]
    ∧ initial_signatories (snd (staged p req d)) = initial_signatories d
    ∧ id row = sid
    ∧ email_hash row = emailHash req ∧ phone_hash row = phoneHash req
    ∧ email_verified row = false ∧ phone_verified row = false
    ∧ signature_id c1 = sid ∧ code_type c1 = "email"
    ∧ signature_id c2 = sid ∧ code_type c2 = "phone"
    ∧ (∀ r, In r (public_signatures d) → id r < sid).
Proof.
  unfold staged, insert_signature, insert_code. cbn.
  do 3 eexists. rewrite <- app_assoc. cbn.
  repeat (split; [reflexivity|]).
  intros r Hr. apply next_rowid_fresh, in_map, Hr.
Qed.

(** C2. When the request has passed the limiter, the validation and
    the duplicate check, so that the signature row and its two code
    rows are inserted, and the email delivery or the SMS delivery
    fails, the handler deletes the signature row it has just inserted
    and answers with the delivery failure: afterwards the table of
    signatures is what it was before the request, and no verification
    code refers to the signature of this submission. *)
Theorem delivery_failure_rolls_back
    (p : platform) (req : submission) (w : world) :
  limiter_allows p req w →
  required_present req = true →
  email_well_formed req = true →
  mobile_valid (cleanMobile req) = true →
  select_by_hash (emailHash req) (phoneHash req) (db w) = None →
  (sendEmailVerification p (s_email req)
     (generateVerificationCode (random_email p)) ≠ None
   ∨ sendSmsVerification p (cleanMobile req)
       (generateVerificationCode (random_sms p)) ≠ None) →
  let sid := fst (staged p req (db w)) in
  let res := post_signatures p req w in
  (∃ e, fst res = delivery_failed e)
  ∧ select_signature sid (db (snd res)) = None
  ∧ (∀ c, In c (verification_codes (db (snd res))) → signature_id c ≠ sid)
  ∧ public_signatures (db (snd res)) = public_signatures (db w)
  ∧ verification_codes (db (snd res))
    = List.filter (fun c => negb (signature_id c =? sid))
        (verification_codes (db w)).
Proof.
  intros Hlim Hreq Hmail Hmob Hfresh Hfail sid res. subst res.
  rewrite post_signatures_steps. unfold limiter_allows in Hlim.
  rewrite Hlim, Hreq, Hmail, Hmob, Hfresh. cbn [negb].
  destruct (promise_all_rejects (sms_settles_first p) _ _ Hfail) as [e He].
  unfold dispatch. rewrite He. cbn [fst snd db].
  destruct (staged_rows p req (db w))
    as (row & c1 & c2 & Hsigs & Hcodes & _ & Hid & _ & _ & _ & _
        & Hc1 & _ & Hc2 & _ & Hlt).
  fold sid in Hid, Hc1, Hc2, Hlt |- *.
  assert (Hsel : select_signature sid (snd (staged p req (db w))) ≠ None).
  { unfold select_signature. rewrite Hsigs.
    destruct (List.find _ _) eqn:E; [congruence|].
    assert (Hrow : In row (public_signatures (db w) ++ [row]))
      by (apply in_app_iff; cbn; tauto).
    pose proof (List.find_none _ _ E row Hrow) as Hne.
    apply Z.eqb_neq in Hne. destruct (Hne Hid). }
  split; [eauto|]. split; [apply delete_signature_gone|].
  split; [intros c; apply delete_signature_cascade, Hsel|].
  split.
  - unfold delete_signature. cbn [public_signatures]. rewrite Hsigs, <- Hid.
    apply filter_drop_fresh. rewrite Hid. exact Hlt.
  - unfold delete_signature. cbn [verification_codes].
    replace (existsb _ _) with true.
    2:{ symmetry. apply existsb_exists. exists row.
        rewrite Hsigs, in_app_iff. cbn. split; [tauto|]. apply Z.eqb_eq, Hid. }
    rewrite Hcodes, List.filter_app. cbn. rewrite Hc1, Hc2, Z.eqb_refl.
    cbn. apply app_nil_r.
Qed.

End Rollback.

Section RollbackRun.

Import DB Worker Steps Outcome Scenario.

(** The email gateway refuses, then the SMS gateway: either way nothing
    of Jane's submission stays. *)
Lemma delivery_failure_rolls_back_witness :
  limiter_allows ses_down (jane "Jane@Example.com" "0412345678") start
  ∧ select_signature 1
      (db (snd (post_signatures ses_down
                  (jane "Jane@Example.com" "0412345678") start))) = None
  ∧ verification_codes
      (db (snd (post_signatures ses_down
                  (jane "Jane@Example.com" "0412345678") start))) = []
  ∧ public_signatures
      (db (snd (post_signatures sns_down
                  (jane "Jane@Example.com" "0412345678") start))) = []
  ∧ verification_codes
      (db (snd (post_signatures sns_down
                  (jane "Jane@Example.com" "0412345678") start))) = [].
Proof.
  assert (Hlim : limiter_allows ses_down
                   (jane "Jane@Example.com" "0412345678") start)
    by (vm_compute; reflexivity).
  split; [exact Hlim|].
  destruct (delivery_failure_rolls_back ses_down
              (jane "Jane@Example.com" "0412345678") start Hlim
              ltac:(vm_compute; reflexivity) ltac:(vm_compute; reflexivity)
              ltac:(vm_compute; reflexivity) ltac:(vm_compute; reflexivity)
              ltac:(left; vm_compute; discriminate))
    as (_ & Hgone & _ & _ & Hcodes).
  destruct (delivery_failure_rolls_back sns_down
              (jane "Jane@Example.com" "0412345678") start
              ltac:(vm_compute; reflexivity)
              ltac:(vm_compute; reflexivity) ltac:(vm_compute; reflexivity)
              ltac:(vm_compute; reflexivity) ltac:(vm_compute; reflexivity)
              ltac:(right; vm_compute; discriminate))
    as (_ & _ & _ & Hsigs' & Hcodes').
  repeat split; assumption.
Defined.

End RollbackRun.

(** ** Duplicate identities *)

Section Duplicates.

Import DB Worker Steps Outcome.

Arguments hashString : simpl never.
Arguments hashCode : simpl never.

Lemma select_by_hash_taken req d :
  identity_taken req d →
  ∃ r, select_by_hash (emailHash req) (phoneHash req) d = Some r.
Proof.
  intros (r & Hin & Hr). unfold select_by_hash.
  destruct (List.find _ _) as [r'|] eqn:E; [eauto|].
  pose proof (List.find_none _ _ E r Hin) as Hnone. cbn in Hnone.
  apply orb_false_iff in Hnone as [H1 H2].
  apply String.eqb_neq in H1, H2. tauto.
Qed.

Lemma select_by_hash_free req d :
  select_by_hash (emailHash req) (phoneHash req) d = None →
  ¬ In (emailHash req) (map email_hash (public_signatures d))
  ∧ ¬ In (phoneHash req) (map phone_hash (public_signatures d)).
Proof.
  unfold select_by_hash. intros E.
  split; intros (r & Hr & Hin)%in_map_iff;
    pose proof (List.find_none _ _ E r Hin) as Hnone; cbn in Hnone;
    apply orb_false_iff in Hnone as [H1 H2];
    apply String.eqb_neq in H1, H2; congruence.
Qed.

Lemma NoDup_map_filter {A B} (f : A → B) (g : A → bool) (l : list A) :
  NoDup (map f l) → NoDup (map f (List.filter g l)).
Proof.
  induction l as [|x l IH]; cbn; [auto|]. intros H.
  apply NoDup_cons in H as [Hx Hl].
  destruct (g x); cbn; [|auto].
  apply NoDup_cons. split; [|auto].
  rewrite list_elem_of_In in Hx |- *.
  intros (y & Hy & Hin)%in_map_iff. apply Hx.
  apply in_map_iff. exists y. split; [exact Hy|].
  apply List.filter_In in Hin. tauto.
Qed.

Lemma NoDup_snoc {A} (l : list A) x : NoDup l → ¬ In x l → NoDup (l ++ [x]).
Proof.
  intros Hl Hx. apply NoDup_app. split; [exact Hl|]. split.
  - intros y Hy Hy'. apply list_elem_of_In in Hy, Hy'.
    destruct Hy' as [->|[]]. tauto.
  - apply NoDup_singleton.
Qed.

Lemma unique_after_submission p req w :
  unique_identities (db w) →
  unique_identities (db (snd (post_signatures p req w))).
Proof.
  intros [He Hp]. rewrite post_signatures_steps.
  destruct (limiter_verdict _) as [[|]|]; [| split; assumption..].
  destruct (negb (required_present req)); [split; assumption|].
  destruct (negb (email_well_formed req)); [split; assumption|].
  destruct (negb (mobile_valid _)); [split; assumption|].
  destruct (select_by_hash _ _ _) eqn:Efree; [split; assumption|].
  apply select_by_hash_free in Efree as [Fe Fp].
  destruct (staged_rows p req (db w))
    as (row & c1 & c2 & Hsigs & _ & _ & _ & Hre & Hrp & _).
  assert (Hstaged : unique_identities (snd (staged p req (db w)))).
  { unfold unique_identities. rewrite Hsigs, !map_app. cbn [map].
    rewrite Hre, Hrp. split; apply NoDup_snoc; assumption. }
  destruct (dispatch p req); cbn [snd db]; [|exact Hstaged].
  destruct Hstaged as [Se Sp]. unfold unique_identities, delete_signature.
  cbn [public_signatures]. split; apply NoDup_map_filter; assumption.
Qed.

(** Marking a row verified changes neither hash. *)
Lemma mark_signature_verified_hashes sid ts d :
  map email_hash (public_signatures (mark_signature_verified sid ts d))
  = map email_hash (public_signatures d)
  ∧ map phone_hash (public_signatures (mark_signature_verified sid ts d))
    = map phone_hash (public_signatures d).
Proof.
  unfold mark_signature_verified. cbn [public_signatures].
  rewrite !map_map. split; apply map_ext; intros r;
    destruct (id r =? sid); reflexivity.
Qed.

Lemma unique_after_verification p sid emailCode smsCode d :
  unique_identities d →
  unique_identities (snd (post_verify p sid emailCode smsCode d)).
Proof.
  intros Hd. unfold post_verify.
  repeat match goal with
         | |- context [if ?b then _ else _] => destruct b
         | |- context [match ?x with Some _ => _ | None => _ end] => destruct x
         end; cbn [snd]; try exact Hd.
  unfold unique_identities.
  destruct (mark_signature_verified_hashes sid (current_timestamp p)
              (mark_codes_verified sid "email" "phone" (current_timestamp p) d))
    as [-> ->].
  exact Hd.
Qed.

Lemma duplicate_identity_steps p req w :
  limiter_allows p req w →
  required_present req = true →
  email_well_formed req = true →
  mobile_valid (cleanMobile req) = true →
  identity_taken req (db w) →
  fst (post_signatures p req w) = duplicate_identity.
Proof.
  intros Hlim Hreq Hmail Hmob Htaken.
  rewrite post_signatures_steps. unfold limiter_allows in Hlim.
  rewrite Hlim, Hreq, Hmail, Hmob. cbn [negb].
  destruct (select_by_hash_taken req (db w) Htaken) as [r ->].
  reflexivity.
Qed.

(** C5. A submission that has passed the limiter and the validation,
    and whose email hash or phone hash is carried by some row of the
    table, verified or not, is answered with the duplicate error and
    leaves the tables as they were. Consequently the two workflows keep
    the hashes unique: if no two rows share an email hash or a phone
    hash before a submission or a verification, none do after it. *)
Theorem duplicate_identity_rejected
    (p : platform) (req : submission) (w : world) :
  (limiter_allows p req w →
   required_present req = true →
   email_well_formed req = true →
   mobile_valid (cleanMobile req) = true →
   identity_taken req (db w) →
   fst (post_signatures p req w) = duplicate_identity
   ∧ db (snd (post_signatures p req w)) = db w)
  ∧ (unique_identities (db w) →
     unique_identities (db (snd (post_signatures p req w)))
     ∧ ∀ p' sid emailCode smsCode,
         unique_identities
           (snd (post_verify p' sid emailCode smsCode (db w)))).
Proof.
  split.
  2:{ intros Hu. split; [apply unique_after_submission, Hu|].
      intros p' sid emailCode smsCode.
      apply unique_after_verification, Hu. }
  intros Hlim Hreq Hmail Hmob Htaken.
  rewrite post_signatures_steps. unfold limiter_allows in Hlim.
  rewrite Hlim, Hreq, Hmail, Hmob. cbn [negb].
  destruct (select_by_hash_taken req (db w) Htaken) as [r ->].
  split; reflexivity.
Qed.

End Duplicates.

Section DuplicateRun.

Import DB Worker Steps Outcome Scenario.

(** Jane signs twice with the same email and mobile. *)
Lemma duplicate_identity_rejected_witness :
  identity_taken (jane "Jane@Example.com" "0412345678") (db jane_signed)
  ∧ fst (post_signatures (at_time 2000)
           (jane "Jane@Example.com" "0412345678") jane_signed)
    = duplicate_identity
  ∧ unique_identities
      (db (snd (post_signatures (at_time 2000)
                  (jane "Jane@Example.com" "0412345678") jane_signed))).
Proof.
  assert (Htaken : identity_taken (jane "Jane@Example.com" "0412345678")
                     (db jane_signed)).
  { exists jane_row.
    split; [vm_compute; left; reflexivity | left; vm_compute; reflexivity]. }
  assert (Huniq : unique_identities (db jane_signed)).
  { split; vm_compute; apply NoDup_singleton. }
  pose proof (duplicate_identity_rejected (at_time 2000)
                (jane "Jane@Example.com" "0412345678") jane_signed)
    as [Hdup Hkeep].
  split; [exact Htaken|]. split.
  - apply Hdup; [vm_compute; reflexivity .. | exact Htaken].
  - apply (proj1 (Hkeep Huniq)).
Defined.

End DuplicateRun.

(** ** The email pattern *)

Section RegexFacts.

Import Regex.

Lemma void_not_nullable r : is_void r = true → nullable r = false.
Proof.
  induction r; cbn; intros H; try congruence.
  - apply orb_true_iff in H as [H|H]; [rewrite IHr1 | rewrite IHr2];
      auto using andb_false_r.
  - apply andb_true_iff in H as [H1 H2]. rewrite IHr1, IHr2; auto.
Qed.

Lemma void_deriv c r : is_void r = true → is_void (deriv c r) = true.
Proof.
  induction r; cbn; intros H; try congruence.
  - apply orb_true_iff in H.
    destruct (nullable r1) eqn:N; cbn.
    + destruct H as [H|H].
      * apply void_not_nullable in H. congruence.
      * rewrite H, IHr2, orb_true_r by assumption. reflexivity.
    + destruct H as [H|H]; [rewrite IHr1 | rewrite H]; auto using orb_true_r.
  - apply andb_true_iff in H as [H1 H2]. rewrite IHr1, IHr2; auto.
Qed.

Lemma void_no_match s : ∀ r, is_void r = true → matches r s = false.
Proof.
  induction s as [|c s IH]; intros r H; cbn.
  - apply void_not_nullable, H.
  - apply IH, void_deriv, H.
Qed.

Variable P : Z → bool.

Lemma within_deriv c r : within P r → within P (deriv c r).
Proof.
  induction r; cbn; try tauto.
  - intros _. destruct (b c); cbn; tauto.
  - intros [H1 H2]. destruct (nullable r1); cbn; tauto.
Qed.

Lemma deriv_outside c r :
  within P r → P c = false → is_void (deriv c r) = true.
Proof.
  intros Hr Hc. induction r; cbn in *; try reflexivity.
  - destruct (b c) eqn:E; [|reflexivity].
    apply Hr in E. congruence.
  - destruct Hr as [H1 H2]. destruct (nullable r1); cbn.
    + rewrite IHr1, IHr2 by assumption. reflexivity.
    + rewrite IHr1 by assumption. reflexivity.
  - destruct Hr as [H1 H2]. rewrite IHr1, IHr2 by assumption. reflexivity.
  - rewrite IHr by assumption. reflexivity.
Qed.

(** A string the pattern matches is made of characters of its classes. *)
Lemma matches_within s : ∀ r,
  within P r → matches r s = true → forallb P s = true.
Proof.
  induction s as [|c s IH]; intros r Hr Hm; cbn in *; [reflexivity|].
  destruct (P c) eqn:E; cbn.
  - apply (IH (deriv c r)); [apply within_deriv, Hr | exact Hm].
  - rewrite void_no_match in Hm; [congruence|].
    apply deriv_outside; assumption.
Qed.

End RegexFacts.

Section EmailPattern.

Import Regex Worker.

Lemma emailRegex_within : within Str.not_space emailRegex.
Proof.
  assert (H1 : ∀ c, not_space_at c = true → Str.not_space c = true).
  { intros c. unfold not_space_at, Str.not_space.
    destruct (Str.is_space c); cbn; congruence. }
  assert (H2 : ∀ a c, Str.not_space a = true → Z.eqb a c = true →
                      Str.not_space c = true).
  { intros a c Ha Hc. apply Z.eqb_eq in Hc. congruence. }
  unfold emailRegex, Plus, Lit. cbn [within].
  repeat split; try exact H1; intros c; apply H2; reflexivity.
Qed.

(** An address with white space anywhere does not pass the pattern. *)
Lemma emailRegex_no_space email :
  Regex.test emailRegex email = true →
  forallb Str.not_space (Str.units email) = true.
Proof. apply matches_within, emailRegex_within. Qed.

End EmailPattern.

(** ** Lower case *)

Section LowerCase.

Import Unicode Steps.

Lemma assoc_In c l : ∀ d, assoc c l = Some d → In (c, d) l.
Proof.
  induction l as [|[u e] l IH]; intros d; cbn [assoc]; [discriminate|].
  destruct (u =? c) eqn:E.
  - intros [= <-]. apply Z.eqb_eq in E as ->. left. reflexivity.
  - intros H. right. apply IH, H.
Qed.

Lemma lower_pairs_well_paired : forallb well_paired lower_pairs = true.
Proof. vm_compute. reflexivity. Qed.

Lemma lower_of_spec a b :
  lower_of a b = true →
  a ≠ capital_sigma ∧ assoc a lower_pairs = Some b
  ∧ well_paired (a, b) = true.
Proof.
  unfold lower_of. intros [Hs Ha]%andb_true_iff.
  apply negb_true_iff, Z.eqb_neq in Hs.
  destruct (assoc a lower_pairs) as [d|] eqn:E; [|discriminate].
  apply Z.eqb_eq in Ha as ->. repeat split; try assumption.
  apply assoc_In in E.
  pose proof lower_pairs_well_paired as H.
  rewrite forallb_forall in H. apply (H _ E).
Qed.

Lemma lower_of_alike a b : lower_of a b = true → alike a b.
Proof.
  intros (Hs & Ha & Hw)%lower_of_spec. unfold well_paired in Hw.
  cbn [fst snd] in Hw.
  repeat (apply andb_true_iff in Hw as [Hw ?]).
  destruct (assoc b lower_pairs) eqn:Eb; [discriminate|].
  repeat match goal with
         | H : negb _ = true |- _ => apply negb_true_iff in H
         | H : Bool.eqb _ _ = true |- _ => apply Bool.eqb_prop in H
         end.
  unfold alike, simple_lower. rewrite Ha, Eb.
  apply Z.eqb_neq in Hs. repeat split; congruence.
Qed.

Lemma same_letter_alike a b : same_letter a b = true → alike a b.
Proof.
  unfold same_letter. intros [[H|H]%orb_true_iff|H]%orb_true_iff.
  - apply Z.eqb_eq in H as ->. repeat split.
  - apply lower_of_alike, H.
  - apply lower_of_alike in H. unfold alike in *. intuition congruence.
Qed.

Lemma same_letters_followed l1 : ∀ l2,
  same_letters l1 l2 = true → followed_by_cased l1 = followed_by_cased l2.
Proof.
  induction l1 as [|a l1 IH]; intros [|b l2]; cbn [same_letters];
    try discriminate; [reflexivity|].
  intros [Hab Hl]%andb_true_iff.
  apply same_letter_alike in Hab as (_ & _ & _ & Hi & Hc).
  cbn [followed_by_cased]. rewrite Hi, Hc, (IH _ Hl). reflexivity.
Qed.

Lemma same_letters_lower l1 : ∀ l2 after_cased,
  same_letters l1 l2 = true → lower after_cased l1 = lower after_cased l2.
Proof.
  induction l1 as [|a l1 IH]; intros [|b l2] st; cbn [same_letters];
    try discriminate; [reflexivity|].
  intros [Hab Hl]%andb_true_iff.
  apply same_letter_alike in Hab as (Hs & Hd & Hm & Hi & Hc).
  cbn [lower].
  rewrite Hs, Hd, Hm, Hi, Hc, (same_letters_followed _ _ Hl), (IH _ _ Hl).
  reflexivity.
Qed.

(** Strings that differ only in letter case have one lower-case form. *)
Lemma differ_only_in_case_lower a b :
  differ_only_in_case a b = true → Str.toLowerCase a = Str.toLowerCase b.
Proof.
  unfold differ_only_in_case, Str.toLowerCase. intros H.
  rewrite (same_letters_lower _ _ _ H). reflexivity.
Qed.

Lemma decode_pending bytes : ∀ s, Str.decode (Some s) bytes ≠ [].
Proof.
  induction bytes as [|b r IH]; intros s; cbn [Str.decode]; [discriminate|].
  destruct (_ && _); [| discriminate].
  destruct (_ =? 1); [discriminate | apply IH].
Qed.

Lemma decode_nonempty b r : Str.decode None (b :: r) ≠ [].
Proof.
  cbn [Str.decode]. destruct (Str.first_byte b); try discriminate.
  apply decode_pending.
Qed.

Lemma of_points_nonempty c l : Str.of_points (c :: l) ≠ "".
Proof.
  unfold Str.of_points, Str.utf8. cbn [flat_map].
  destruct (c <? 0x80); [discriminate|].
  destruct (c <? 0x800); [discriminate|].
  destruct (c <? 0x10000); discriminate.
Qed.

Lemma toLowerCase_falsy s : Str.falsy (Str.toLowerCase s) = Str.falsy s.
Proof.
  destruct s as [|a s]; [reflexivity|]. cbn [Str.falsy].
  unfold Str.toLowerCase, Str.points, Str.chars.
  cbn [list_ascii_of_string map].
  destruct (Str.decode None _) as [|c l] eqn:E;
    [apply decode_nonempty in E; destruct E|].
  cbn [lower].
  destruct (_ ++ _) as [|c' l'] eqn:E';
    [apply app_eq_nil in E' as [E' _];
     repeat destruct (_ =? _) in E'; try destruct (_ && _) in E'; discriminate|].
  pose proof (of_points_nonempty c' l') as H.
  destruct (Str.of_points (c' :: l')); [congruence | reflexivity].
Qed.

(** The rule of the final sigma at work: "ΟΔΟΣ" in capitals and in
    small letters, with the sigma of the middle of a word at its end,
    do not have one lower-case form. *)
Lemma capital_sigma_by_position :
  Str.toLowerCase "ΟΔΟΣ@example.com" = "οδος@example.com"
  ∧ Str.toLowerCase "οδοσ@example.com" = "οδοσ@example.com".
Proof. split; vm_compute; reflexivity. Qed.

End LowerCase.

(** ** Normalisation of the email address *)

Section EmailIdentity.

Import DB Worker Steps Outcome Scenario.

Arguments hashString : simpl never.
Arguments hashCode : simpl never.

(** A request answered with the new id went through every step: the
    tables it leaves are the staged ones. *)
Lemma created_inversion p req w sid :
  fst (post_signatures p req w) = created sid →
  limiter_allows p req w
  ∧ required_present req = true
  ∧ email_well_formed req = true
  ∧ mobile_valid (cleanMobile req) = true
  ∧ select_by_hash (emailHash req) (phoneHash req) (db w) = None
  ∧ dispatch p req = None
  ∧ sid = fst (staged p req (db w))
  ∧ db (snd (post_signatures p req w)) = snd (staged p req (db w)).
Proof.
  rewrite post_signatures_steps. unfold limiter_allows.
  destruct (limiter_verdict _) as [[|]|]; [| discriminate..].
  destruct (required_present req); [| discriminate].
  destruct (email_well_formed req); [| discriminate].
  destruct (mobile_valid _); [| discriminate].
  cbn [negb].
  destruct (select_by_hash _ _ _); [discriminate|].
  destruct (dispatch p req); [discriminate|].
  cbn [fst snd db]. unfold created, json. intros [= <-].
  repeat split; reflexivity.
Qed.

Lemma whitespace_fails_pattern email c :
  In c (Str.units email) → Str.is_space c = true →
  Regex.test emailRegex email = false.
Proof.
  intros Hin Hc. destruct (Regex.test emailRegex email) eqn:E; [|reflexivity].
  apply emailRegex_no_space in E.
  rewrite forallb_forall in E. specialize (E c Hin).
  unfold Str.not_space in E. rewrite Hc in E. discriminate.
Qed.

(** C6, as the code has it. The email is lower-cased before hashing and
    is not trimmed: the format check refuses an address with white
    space, surrounding or not. So two addresses that differ only in
    letter case (code point by code point the same letter, in the same
    or in the other case) give the same hash, and once a submission has
    been answered with its new id, a later one whose address differs
    from its address only in letter case is answered with the
    duplicate error; a submission whose address holds a character of
    [\s] is answered with the format error and changes no table. After
    Jane's submission with "Jane@Example.com", the one with
    "jane@example.com" is a duplicate, the one with
    "jane@example.com " an invalid input. *)
Theorem email_normalized_by_case
    (p : platform) (req : submission) (w : world) :
  (∀ req', differ_only_in_case (s_email req') (s_email req) = true →
           emailHash req' = emailHash req)
  ∧ (∀ p0 req0 w0 sid,
       post_signatures p0 req0 w0 = (created sid, w) →
       differ_only_in_case (s_email req0) (s_email req) = true →
       limiter_allows p req w →
       required_present req = true →
       email_well_formed req = true →
       mobile_valid (cleanMobile req) = true →
       fst (post_signatures p req w) = duplicate_identity)
  ∧ (limiter_allows p req w →
     required_present req = true →
     (∃ c, In c (Str.units (s_email req)) ∧ Str.is_space c = true) →
     fst (post_signatures p req w) = invalid_email
     ∧ db (snd (post_signatures p req w)) = db w)
  ∧ fst (post_signatures (at_time 2000)
           (jane "jane@example.com" "0412345678") jane_signed)
    = duplicate_identity
  ∧ fst (post_signatures (at_time 2000)
           (jane "jane@example.com " "0412345678") jane_signed)
    = invalid_email.
Proof.
  split; [| split; [| split; [| split]]].
  - intros req' H. unfold emailHash.
    rewrite (differ_only_in_case_lower _ _ H). reflexivity.
  - intros p0 req0 w0 sid Hrun Hcase Hlim Hreq Hmail Hmob.
    assert (H0 : fst (post_signatures p0 req0 w0) = created sid)
      by (rewrite Hrun; reflexivity).
    apply created_inversion in H0 as (_ & _ & _ & _ & _ & _ & _ & Hdb).
    rewrite Hrun in Hdb. cbn [snd] in Hdb.
    destruct (staged_rows p0 req0 (db w0))
      as (row & _ & _ & Hsigs & _ & _ & _ & Hre & _).
    apply (duplicate_identity_steps p req w); try assumption.
    exists row. split.
    + rewrite Hdb, Hsigs. apply in_app_iff. cbn. tauto.
    + left. rewrite Hre. unfold emailHash.
      rewrite (differ_only_in_case_lower _ _ Hcase). reflexivity.
  - intros Hlim Hreq (c & Hin & Hc).
    rewrite post_signatures_steps. unfold limiter_allows in Hlim.
    rewrite Hlim, Hreq. cbn [negb]. unfold email_well_formed.
    rewrite (whitespace_fails_pattern _ c Hin Hc). split; reflexivity.
  - vm_compute. reflexivity.
  - vm_compute. reflexivity.
Qed.

End EmailIdentity.

Section EmailIdentityRun.

Import DB Worker Steps Outcome Scenario.

(** As worded, C6 does not hold: the two addresses of Scenario A agree
    once lower-cased and trimmed, yet the code hashes them differently,
    and the second submission is refused for its format, not as a
    duplicate. *)
Lemma email_trim_counterexample :
  Spec.normalize_email "jane@example.com "
  = Spec.normalize_email "Jane@Example.com"
  ∧ emailHash (jane "jane@example.com " "0412345678")
    ≠ emailHash (jane "Jane@Example.com" "0412345678")
  ∧ fst (post_signatures (at_time 1000)
           (jane "Jane@Example.com" "0412345678") start)
    = created 1
  ∧ fst (post_signatures (at_time 2000)
           (jane "jane@example.com " "0412345678") jane_signed)
    ≠ duplicate_identity.
Proof.
  split; [vm_compute; reflexivity|].
  split; [vm_compute; discriminate|].
  split; [vm_compute; reflexivity|].
  vm_compute. discriminate.
Qed.

(** After "José@Example.com" has signed: the address in capitals is a
    duplicate, and the one with a no-break space in it an invalid
    input. *)
Lemma email_normalized_by_case_witness :
  fst (post_signatures (at_time 1000) (jane "José@Example.com" "0412345678")
         start) = created 1
  ∧ differ_only_in_case "José@Example.com" "JOSÉ@EXAMPLE.COM" = true
  ∧ fst (post_signatures (at_time 2000)
           (jane "JOSÉ@EXAMPLE.COM" "0400000000")
           (snd (post_signatures (at_time 1000)
                   (jane "José@Example.com" "0412345678") start)))
    = duplicate_identity
  ∧ In 0xA0 (Str.units (s_email (jane no_break_space_address "0412345678")))
  ∧ fst (post_signatures (at_time 2000)
           (jane no_break_space_address "0412345678") jane_signed)
    = invalid_email.
Proof.
  pose (jose_signed :=
          snd (post_signatures (at_time 1000)
                 (jane "José@Example.com" "0412345678") start)).
  pose proof (email_normalized_by_case (at_time 2000)
                (jane "JOSÉ@EXAMPLE.COM" "0400000000") jose_signed)
    as (_ & Hcase & _).
  pose proof (email_normalized_by_case (at_time 2000)
                (jane no_break_space_address "0412345678") jane_signed)
    as (_ & _ & Hspace & _).
  assert (Hrun : post_signatures (at_time 1000)
                   (jane "José@Example.com" "0412345678") start
                 = (created 1, jose_signed))
    by (vm_compute; reflexivity).
  assert (Hdiff : differ_only_in_case "José@Example.com" "JOSÉ@EXAMPLE.COM"
                  = true)
    by (vm_compute; reflexivity).
  assert (Hin : In 0xA0 (Str.units
                           (s_email (jane no_break_space_address "0412345678"))))
    by (vm_compute; tauto).
  split; [rewrite Hrun; reflexivity|]. split; [exact Hdiff|].
  split; [| split; [exact Hin|]].
  - apply (Hcase (at_time 1000) (jane "José@Example.com" "0412345678")
             start 1 Hrun Hdiff);
      vm_compute; reflexivity.
  - apply Hspace; [vm_compute; reflexivity | vm_compute; reflexivity |].
    exists 0xA0. split; [exact Hin | reflexivity].
Defined.

End EmailIdentityRun.

(** ** Validation of the mobile number *)

Section MobileNumber.

Import DB Worker Steps Outcome Scenario.

Arguments hashString : simpl never.
Arguments hashCode : simpl never.

Lemma strip_non_digits_digits s :
  forallb Str.is_digit (Str.chars (Str.strip_non_digits s)) = true.
Proof.
  unfold Str.strip_non_digits, Str.chars, Str.of_chars.
  rewrite list_ascii_of_string_of_list_ascii.
  apply forallb_forall. intros c Hc. apply List.filter_In in Hc. tauto.
Qed.

Lemma chars_length s : List.length (Str.chars s) = String.length s.
Proof.
  unfold Str.chars. induction s as [|a s IH]; cbn; [reflexivity|].
  f_equal. exact IH.
Qed.

(** A string of digits has one code unit for each of its bytes. *)
Lemma digits_units s :
  forallb Str.is_digit (Str.chars s) = true →
  Str.units s = map Str.code (Str.chars s).
Proof.
  unfold Str.units, Str.points.
  induction (Str.chars s) as [|c l IH]; [reflexivity|].
  cbn [forallb map]. intros [Hc Hl]%andb_true_iff.
  unfold Str.is_digit in Hc. apply andb_true_iff in Hc as [_ Hc].
  apply Z.leb_le in Hc.
  cbn [Str.decode]. unfold Str.first_byte.
  replace (Str.code c <=? 0x7F) with true by (symmetry; apply Z.leb_le; lia).
  cbn [flat_map]. rewrite (IH Hl). unfold Str.utf16.
  replace (Str.code c <? 0x10000) with true by (symmetry; apply Z.ltb_lt; lia).
  reflexivity.
Qed.

Lemma digits_length s :
  forallb Str.is_digit (Str.chars s) = true →
  Str.length s = Z.of_nat (String.length s).
Proof.
  intros H. unfold Str.length.
  rewrite (digits_units s H), List.length_map, chars_length. reflexivity.
Qed.

(** The code's test on a string of digits, spelled out: "04" and eight
    more characters. *)
Lemma mobile_valid_shape clean :
  forallb Str.is_digit (Str.chars clean) = true →
  (mobile_valid clean = true ↔
   ∃ rest, clean = "04" +:+ rest ∧ String.length rest = 8%nat).
Proof.
  intros Hdigits. unfold mobile_valid. rewrite (digits_length _ Hdigits).
  clear Hdigits. split.
  - intros [Hlen Hpre]%andb_true_iff. apply Z.eqb_eq in Hlen.
    destruct clean as [|a [|b rest]]; cbn [Str.startsWith] in Hpre;
      try discriminate.
    apply andb_true_iff in Hpre as [Ha Hb].
    apply andb_true_iff in Hb as [Hb _].
    apply Ascii.eqb_eq in Ha, Hb. subst a b.
    exists rest. split; [reflexivity|]. cbn [String.length] in Hlen. lia.
  - intros (rest & -> & Hlen).
    assert (Hten : String.length ("04" +:+ rest) = 10%nat)
      by (change ("04" +:+ rest) with (String "0" (String "4" rest));
          cbn [String.length]; rewrite Hlen; reflexivity).
    rewrite Hten. change ("04" +:+ rest) with (String "0" (String "4" rest)).
    destruct rest; reflexivity.
Qed.

(** What the code accepts lies within the pattern of the specification. *)
Lemma mobile_valid_in_spec_pattern mobile :
  mobile_valid (Str.strip_non_digits mobile) = true →
  Spec.mobile_pattern (Str.strip_non_digits mobile) = true.
Proof.
  intros H. pose proof (strip_non_digits_digits mobile) as Hd.
  apply (mobile_valid_shape _ Hd) in H as (rest & Heq & Hlen).
  unfold Spec.mobile_pattern. rewrite Heq in *.
  change (Str.chars ("04" +:+ rest))
    with ("0"%char :: "4"%char :: Str.chars rest) in *.
  cbn [forallb] in Hd. apply andb_true_iff in Hd as [_ Hd].
  cbn [forallb List.length]. rewrite chars_length, Hlen.
  apply andb_true_iff in Hd as [_ Hd]. rewrite Hd. reflexivity.
Qed.

(** C7, as the code has it. A submission that has passed the limiter
    and whose name and email are accepted is refused as an invalid
    input, before any table is touched, unless its mobile, stripped
    of its non-digits, is ten digits long and starts with "04"; and
    with such a mobile it is not refused as an invalid input. The
    numbers accepted are among those of the pattern 0[0-9]{9}. *)
Theorem mobile_accepted_iff_04
    (p : platform) (req : submission) (w : world) :
  limiter_allows p req w →
  Str.falsy (s_name req) = false →
  Str.falsy (s_email req) = false →
  email_well_formed req = true →
  (invalid_input (fst (post_signatures p req w))
   ↔ mobile_valid (cleanMobile req) = false)
  ∧ (mobile_valid (cleanMobile req) = false →
     db (snd (post_signatures p req w)) = db w)
  ∧ (mobile_valid (cleanMobile req) = true
     ↔ ∃ rest, cleanMobile req = "04" +:+ rest
               ∧ String.length rest = 8%nat
               ∧ forallb Str.is_digit (Str.chars rest) = true)
  ∧ (mobile_valid (cleanMobile req) = true →
     Spec.mobile_pattern (cleanMobile req) = true).
Proof.
  intros Hlim Hname Hemail Hmail.
  rewrite post_signatures_steps. unfold limiter_allows in Hlim.
  rewrite Hlim. unfold required_present. rewrite Hname, Hemail, Hmail.
  cbn [negb andb].
  split; [| split; [| split]].
  - destruct (Str.falsy (s_mobile req)) eqn:Hm; cbn [negb fst].
    + assert (s_mobile req = "") as Hempty
        by (destruct (s_mobile req); [reflexivity | discriminate]).
      unfold cleanMobile. rewrite Hempty.
      split; [reflexivity | intros _; left; reflexivity].
    + destruct (mobile_valid (cleanMobile req)) eqn:Hv; cbn [negb fst].
      * split; [| discriminate].
        destruct (select_by_hash _ _ _); [| destruct (dispatch p req)];
          cbn [fst]; unfold invalid_input;
          intros [H | [H | H]]; discriminate H.
      * split; [reflexivity | intros _; right; right; reflexivity].
  - intros Hv. rewrite Hv.
    destruct (Str.falsy (s_mobile req)); reflexivity.
  - rewrite (mobile_valid_shape _ (strip_non_digits_digits (s_mobile req))).
    split.
    + intros (rest & Heq & Hlen). exists rest. split; [exact Heq|].
      split; [exact Hlen|].
      pose proof (strip_non_digits_digits (s_mobile req)) as Hd.
      unfold cleanMobile in Heq. rewrite Heq in Hd.
      change (Str.chars ("04" +:+ rest))
        with ("0"%char :: "4"%char :: Str.chars rest) in Hd.
      cbn [forallb] in Hd. apply andb_true_iff in Hd as [_ Hd].
      apply andb_true_iff in Hd as [_ Hd]. exact Hd.
    + intros (rest & Heq & Hlen & _). eauto.
  - apply mobile_valid_in_spec_pattern.
Qed.

End MobileNumber.

Section MobileNumberRun.

Import DB Worker Steps Outcome Scenario.

(** A landline: ten digits, a leading 0, and refused all the same. *)
Lemma mobile_pattern_counterexample :
  Spec.mobile_pattern (Str.strip_non_digits "(03) 1234 5678") = true
  ∧ fst (post_signatures (at_time 1000)
           (jane "Jane@Example.com" "(03) 1234 5678") start)
    = invalid_mobile
  ∧ db (snd (post_signatures (at_time 1000)
               (jane "Jane@Example.com" "(03) 1234 5678") start))
    = DB.empty.
Proof. repeat split; vm_compute; reflexivity. Qed.

Lemma mobile_accepted_iff_04_witness :
  limiter_allows (at_time 1000) (jane "Jane@Example.com" "0412 345 678") start
  ∧ ¬ invalid_input
        (fst (post_signatures (at_time 1000)
                (jane "Jane@Example.com" "0412 345 678") start)).
Proof.
  assert (Hlim : limiter_allows (at_time 1000)
                   (jane "Jane@Example.com" "0412 345 678") start)
    by (vm_compute; reflexivity).
  split; [exact Hlim|].
  destruct (mobile_accepted_iff_04 (at_time 1000)
              (jane "Jane@Example.com" "0412 345 678") start Hlim
              eq_refl eq_refl ltac:(vm_compute; reflexivity))
    as (Hiff & _).
  intros Hbad. apply Hiff in Hbad. vm_compute in Hbad. discriminate Hbad.
Defined.

End MobileNumberRun.

(** ** Status codes of [POST /api/signatures] *)

Section StatusCodes.

Import DB Worker Steps Outcome Scenario.

Arguments hashString : simpl never.
Arguments hashCode : simpl never.

Lemma select_by_hash_not_taken req d :
  ¬ identity_taken req d →
  select_by_hash (emailHash req) (phoneHash req) d = None.
Proof.
  intros Hfree. unfold select_by_hash.
  destruct (List.find _ _) as [r|] eqn:E; [|reflexivity].
  apply List.find_some in E as [Hin Hr]. destruct Hfree. exists r.
  split; [exact Hin|]. apply orb_true_iff in Hr as [H|H];
    apply String.eqb_eq in H; tauto.
Qed.

(** C9, as the code has it. [POST /api/signatures] answers 429 when
    the limiter rejects, 400 for an invalid input, 409 for a duplicate
    identity, 500 when a delivery fails, and 200 on success, with the
    id of the inserted row in the body. *)
Theorem post_signatures_status
    (p : platform) (req : submission) (w : world) :
  let r := fst (post_signatures p req w) in
  let verdict :=
    limiter_verdict
      (fst (RateLimiter.fetch (RateLimiter.key_param (client_ip req))
              (date_now p) (default ∅ (limiters w !! client_ip req)))) in
  (verdict = Some false → r = rate_limited ∧ status r = 429)
  ∧ (limiter_allows p req w →
     required_present req && email_well_formed req
       && mobile_valid (cleanMobile req) = false →
     invalid_input r ∧ status r = 400)
  ∧ (limiter_allows p req w →
     required_present req && email_well_formed req
       && mobile_valid (cleanMobile req) = true →
     (identity_taken req (db w) →
      r = duplicate_identity ∧ status r = 409)
     ∧ (¬ identity_taken req (db w) →
        (∀ e, dispatch p req = Some e →
              r = delivery_failed e ∧ status r = 500)
        ∧ (dispatch p req = None →
           r = created (fst (staged p req (db w))) ∧ status r = 200
           ∧ ∃ row, In row (public_signatures
                              (db (snd (post_signatures p req w))))
                    ∧ id row = fst (staged p req (db w))))).
Proof.
  intros r verdict. subst r verdict. rewrite post_signatures_steps.
  unfold limiter_allows. split; [| split].
  - intros ->. split; reflexivity.
  - intros -> Hbad.
    destruct (required_present req); cbn [negb andb] in *;
      [| split; [left; reflexivity | reflexivity]].
    destruct (email_well_formed req); cbn [negb andb] in *;
      [| split; [right; left; reflexivity | reflexivity]].
    rewrite Hbad. cbn [negb].
    split; [right; right; reflexivity | reflexivity].
  - intros -> Hgood.
    apply andb_true_iff in Hgood as [Hgood Hmob].
    apply andb_true_iff in Hgood as [Hreq Hmail].
    rewrite Hreq, Hmail, Hmob. cbn [negb]. split.
    + intros Htaken.
      destruct (select_by_hash_taken req (db w) Htaken) as [r0 ->].
      split; reflexivity.
    + intros Hfree. rewrite (select_by_hash_not_taken req (db w) Hfree).
      split.
      * intros e ->. split; reflexivity.
      * intros ->. split; [reflexivity|]. split; [reflexivity|].
        cbn [snd db].
        destruct (staged_rows p req (db w))
          as (row & _ & _ & Hsigs & _ & _ & Hid & _).
        exists row. split; [| exact Hid].
        rewrite Hsigs. apply in_app_iff. cbn. tauto.
Qed.

End StatusCodes.

Section StatusCodesRun.

Import DB Worker Steps Outcome Scenario.

(** Success is answered 200, not 201; a duplicate 409, not 400. *)
Lemma status_counterexample :
  fst (post_signatures (at_time 1000)
         (jane "Jane@Example.com" "0412345678") start)
  = created 1
  ∧ status (fst (post_signatures (at_time 1000)
                   (jane "Jane@Example.com" "0412345678") start))
    ≠ 201
  ∧ fst (post_signatures (at_time 2000)
           (jane "Jane@Example.com" "0412345678") jane_signed)
    = duplicate_identity
  ∧ status (fst (post_signatures (at_time 2000)
                   (jane "Jane@Example.com" "0412345678") jane_signed))
    ≠ 400.
Proof.
  split; [vm_compute; reflexivity|]. split; [vm_compute; discriminate|].
  split; [vm_compute; reflexivity|]. vm_compute; discriminate.
Qed.

Lemma post_signatures_status_witness :
  limiter_allows (at_time 2000) (jane "Jane@Example.com" "0412345678")
    jane_signed
  ∧ status (fst (post_signatures (at_time 2000)
                   (jane "Jane@Example.com" "0412345678") jane_signed))
    = 409.
Proof.
  assert (Hlim : limiter_allows (at_time 2000)
                   (jane "Jane@Example.com" "0412345678") jane_signed)
    by (vm_compute; reflexivity).
  split; [exact Hlim|].
  destruct (post_signatures_status (at_time 2000)
              (jane "Jane@Example.com" "0412345678") jane_signed)
    as (_ & _ & Hvalid).
  destruct (Hvalid Hlim ltac:(vm_compute; reflexivity)) as [Hdup _].
  apply Hdup.
  exists jane_row.
  split; [vm_compute; left; reflexivity | left; vm_compute; reflexivity].
Defined.

End StatusCodesRun.

(** ** [POST /api/signatures/:id/verify] *)

Section Verification.

Import DB Worker Steps Outcome.

Arguments hashString : simpl never.
Arguments hashCode : simpl never.

(** The handler from the attempt limit on, for a request that gets
    there. *)
Lemma post_verify_steps p id emailCode smsCode d e ph :
  at_attempt_check p id emailCode smsCode d e ph →
  post_verify p id emailCode smsCode d =
  if (3 <=? attempts e) || (3 <=? attempts ph)
  then (too_many_attempts, d)
  else if negb (String.eqb (code_hash e) (hashCode emailCode))
          || negb (String.eqb (code_hash ph) (hashCode smsCode))
  then
    (invalid_codes
       (let attemptsRemaining :=
          Z.min (3 - (attempts e + 1)) (3 - (attempts ph + 1)) in
        if 0 <? attemptsRemaining then attemptsRemaining else 0),
     bump_attempts id "email" "phone" d)
  else
    (verified,
     mark_signature_verified id (current_timestamp p)
       (mark_codes_verified id "email" "phone" (current_timestamp p) d)).
Proof.
  intros [[Hec Hsc] (sig & Hsig & Hpending) Htwo He Hph Hnb [Hx1 Hx2]].
  unfold post_verify. rewrite Hec, Hsc, Hsig, Hpending, Htwo, He, Hph, Hnb.
  cbn [orb negb Z.of_nat Pos.of_succ_nat Pos.succ Z.eqb Pos.eqb].
  replace (expires_at e <? new_date p) with false
    by (symmetry; apply Z.ltb_ge; lia).
  replace (expires_at ph <? new_date p) with false
    by (symmetry; apply Z.ltb_ge; lia).
  reflexivity.
Qed.

(** A failed attempt changes the attempts of the codes of the
    signature and nothing else. *)
Lemma is_code_of_failed_once sid ts c :
  is_code_of sid ts (failed_once c) = is_code_of sid ts c.
Proof. reflexivity. Qed.

Lemma select_codes_bump id d :
  select_codes id (bump_attempts id "email" "phone" d)
  = map failed_once (select_codes id d).
Proof.
  unfold select_codes, bump_attempts, set_codes. cbn [verification_codes].
  induction (verification_codes d) as [|c l IH]; [reflexivity|].
  cbn [map List.filter].
  destruct (is_code_of id ["email"; "phone"] c) eqn:E.
  - fold (failed_once c). rewrite is_code_of_failed_once, E.
    cbn [map]. f_equal. exact IH.
  - rewrite E. exact IH.
Qed.

Lemma find_type_failed_once t (l : list code_row) :
  List.find (fun c => String.eqb (code_type c) t) (map failed_once l)
  = option_map failed_once
      (List.find (fun c => String.eqb (code_type c) t) l).
Proof.
  induction l as [|c l IH]; [reflexivity|]. cbn [map List.find].
  change (code_type (failed_once c)) with (code_type c).
  destruct (String.eqb (code_type c) t); [reflexivity | exact IH].
Qed.

Lemma at_attempt_check_after_failure p id emailCode smsCode d e ph
      p' emailCode' smsCode' :
  at_attempt_check p id emailCode smsCode d e ph →
  Str.falsy emailCode' = false → Str.falsy smsCode' = false →
  new_date p' <= expires_at e → new_date p' <= expires_at ph →
  at_attempt_check p' id emailCode' smsCode'
    (bump_attempts id "email" "phone" d) (failed_once e) (failed_once ph).
Proof.
  intros [_ Hsig Htwo He Hph Hnb _] Hec Hsc Hx1 Hx2.
  constructor.
  - split; assumption.
  - exact Hsig.
  - rewrite select_codes_bump, length_map. exact Htwo.
  - rewrite select_codes_bump, find_type_failed_once, He. reflexivity.
  - rewrite select_codes_bump, find_type_failed_once, Hph. reflexivity.
  - exact Hnb.
  - split; assumption.
Qed.

(** A submitted pair of codes is wrong when one of the two hashes
    differs from the stored one. *)
Lemma wrong_codes e ph emailCode smsCode :
  hashCode emailCode ≠ code_hash e ∨ hashCode smsCode ≠ code_hash ph →
  negb (String.eqb (code_hash e) (hashCode emailCode))
  || negb (String.eqb (code_hash ph) (hashCode smsCode)) = true.
Proof.
  intros [H|H]; apply orb_true_iff; [left | right];
    apply negb_true_iff, String.eqb_neq; congruence.
Qed.

Lemma failed_attempt p id emailCode smsCode d e ph :
  at_attempt_check p id emailCode smsCode d e ph →
  attempts e < 3 → attempts ph < 3 →
  hashCode emailCode ≠ code_hash e ∨ hashCode smsCode ≠ code_hash ph →
  post_verify p id emailCode smsCode d
  = (invalid_codes
       (Z.max 0 (Z.min (3 - (attempts e + 1)) (3 - (attempts ph + 1)))),
     bump_attempts id "email" "phone" d).
Proof.
  intros Hat He Hph Hwrong. rewrite (post_verify_steps _ _ _ _ _ _ _ Hat).
  replace (3 <=? attempts e) with false by (symmetry; apply Z.leb_gt; lia).
  replace (3 <=? attempts ph) with false by (symmetry; apply Z.leb_gt; lia).
  cbn [orb]. rewrite (wrong_codes _ _ _ _ Hwrong). cbv zeta.
  f_equal. f_equal.
  destruct (0 <? Z.min _ _) eqn:E;
    [apply Z.ltb_lt in E | apply Z.ltb_ge in E]; lia.
Qed.

Lemma exhausted_attempt p id emailCode smsCode d e ph :
  at_attempt_check p id emailCode smsCode d e ph →
  3 <= attempts e ∨ 3 <= attempts ph →
  post_verify p id emailCode smsCode d = (too_many_attempts, d).
Proof.
  intros Hat Hfull. rewrite (post_verify_steps _ _ _ _ _ _ _ Hat).
  replace ((3 <=? attempts e) || (3 <=? attempts ph)) with true;
    [reflexivity|].
  symmetry. apply orb_true_iff.
  destruct Hfull; [left | right]; apply Z.leb_le; assumption.
Qed.

End Verification.

Section Attempts.

Import DB Worker Steps Outcome.

Arguments hashString : simpl never.
Arguments hashCode : simpl never.

(** C3. When a verification request has passed the earlier checks and
    both rows are below three attempts, and the hash of one submitted
    code at least differs from the stored one, the handler increments
    [attempts] on both rows of the signature, whichever code was
    wrong, and answers with the invalid-codes error carrying
    [min (3 - newEmailAttempts) (3 - newPhoneAttempts)], not below 0,
    the new values being those now stored. *)
Theorem failed_attempt_counts_on_both
    (p : platform) (id : Z) (emailCode smsCode : string) (d : database)
    (e ph : code_row) :
  at_attempt_check p id emailCode smsCode d e ph →
  attempts e < 3 → attempts ph < 3 →
  hashCode emailCode ≠ code_hash e ∨ hashCode smsCode ≠ code_hash ph →
  let res := post_verify p id emailCode smsCode d in
  let codes' := select_codes id (snd res) in
  ∃ e' ph',
    List.find (fun c => String.eqb (code_type c) "email") codes' = Some e'
    ∧ List.find (fun c => String.eqb (code_type c) "phone") codes' = Some ph'
    ∧ attempts e' = attempts e + 1
    ∧ attempts ph' = attempts ph + 1
    ∧ codes' = map failed_once (select_codes id d)
    ∧ public_signatures (snd res) = public_signatures d
    ∧ fst res
      = invalid_codes (Z.max 0 (Z.min (3 - attempts e') (3 - attempts ph'))).
Proof.
  intros Hat He Hph Hwrong res codes'. subst res codes'.
  rewrite (failed_attempt _ _ _ _ _ _ _ Hat He Hph Hwrong). cbn [fst snd].
  exists (failed_once e), (failed_once ph).
  destruct Hat as [_ _ _ Hfe Hfp _ _].
  rewrite select_codes_bump, !find_type_failed_once, Hfe, Hfp.
  repeat split; reflexivity.
Qed.

(** C4. When a verification request has passed the earlier checks and
    the email row or the phone row has three attempts or more, the
    handler answers with the too-many-attempts error and changes
    nothing, whatever the submitted codes. So after three failed
    attempts on fresh codes, a fourth attempt made before the codes
    expire is answered in that way, be its codes right or wrong. *)
Theorem attempts_exhausted
    (p : platform) (id : Z) (emailCode smsCode : string) (d : database)
    (e ph : code_row) :
  at_attempt_check p id emailCode smsCode d e ph →
  (3 <= attempts e ∨ 3 <= attempts ph →
   ∀ emailCode' smsCode',
     Str.falsy emailCode' = false → Str.falsy smsCode' = false →
     post_verify p id emailCode' smsCode' d = (too_many_attempts, d))
  ∧ (attempts e = 0 → attempts ph = 0 →
     hashCode emailCode ≠ code_hash e ∨ hashCode smsCode ≠ code_hash ph →
     ∀ p2 emailCode2 smsCode2 p3 emailCode3 smsCode3 p4 emailCode4 smsCode4,
       Str.falsy emailCode2 = false → Str.falsy smsCode2 = false →
       Str.falsy emailCode3 = false → Str.falsy smsCode3 = false →
       Str.falsy emailCode4 = false → Str.falsy smsCode4 = false →
       new_date p2 <= expires_at e → new_date p2 <= expires_at ph →
       new_date p3 <= expires_at e → new_date p3 <= expires_at ph →
       new_date p4 <= expires_at e → new_date p4 <= expires_at ph →
       hashCode emailCode2 ≠ code_hash e ∨ hashCode smsCode2 ≠ code_hash ph →
       hashCode emailCode3 ≠ code_hash e ∨ hashCode smsCode3 ≠ code_hash ph →
       let d1 := snd (post_verify p id emailCode smsCode d) in
       let d2 := snd (post_verify p2 id emailCode2 smsCode2 d1) in
       let d3 := snd (post_verify p3 id emailCode3 smsCode3 d2) in
       fst (post_verify p3 id emailCode3 smsCode3 d2) = invalid_codes 0
       ∧ post_verify p4 id emailCode4 smsCode4 d3 = (too_many_attempts, d3)).
Proof.
  intros Hat. split.
  - intros Hfull emailCode' smsCode' He' Hs'.
    apply (exhausted_attempt p id emailCode' smsCode' d e ph);
      [| exact Hfull].
    destruct Hat as [_ Hsig Htwo Hfe Hfp Hnb Hexp].
    constructor; auto.
  - intros He0 Hp0 Hw1 p2 ec2 sc2 p3 ec3 sc3 p4 ec4 sc4
      G2e G2s G3e G3s G4e G4s X2e X2p X3e X3p X4e X4p Hw2 Hw3 d1 d2 d3.
    pose proof (at_attempt_check_after_failure _ _ _ _ _ _ _ p2 ec2 sc2
                  Hat G2e G2s X2e X2p) as Hat2.
    assert (E1 : d1 = bump_attempts id "email" "phone" d).
    { subst d1. rewrite (failed_attempt _ _ _ _ _ _ _ Hat); auto; lia. }
    rewrite <- E1 in Hat2.
    pose proof (at_attempt_check_after_failure _ _ _ _ _ _ _ p3 ec3 sc3
                  Hat2 G3e G3s X3e X3p) as Hat3.
    assert (E2 : post_verify p2 id ec2 sc2 d1
                 = (invalid_codes 1, bump_attempts id "email" "phone" d1)).
    { rewrite (failed_attempt _ _ _ _ _ _ _ Hat2); cbn [failed_once attempts];
        auto; try lia.
      rewrite He0, Hp0. reflexivity. }
    assert (E2' : d2 = bump_attempts id "email" "phone" d1)
      by (subst d2; rewrite E2; reflexivity).
    rewrite <- E2' in Hat3.
    pose proof (at_attempt_check_after_failure _ _ _ _ _ _ _ p4 ec4 sc4
                  Hat3 G4e G4s X4e X4p) as Hat4.
    assert (E3 : post_verify p3 id ec3 sc3 d2
                 = (invalid_codes 0, bump_attempts id "email" "phone" d2)).
    { rewrite (failed_attempt _ _ _ _ _ _ _ Hat3); cbn [failed_once attempts];
        auto; try lia.
      rewrite He0, Hp0. reflexivity. }
    assert (E3' : d3 = bump_attempts id "email" "phone" d2)
      by (subst d3; rewrite E3; reflexivity).
    rewrite <- E3' in Hat4. split; [rewrite E3; reflexivity|].
    apply (exhausted_attempt _ _ _ _ _ _ _ Hat4).
    left. cbn [failed_once attempts]. lia.
Qed.

End Attempts.

Section AttemptsRun.

Import DB Worker Steps Outcome Scenario.

Lemma jane_signed_db :
  db jane_signed
  = Database [jane_row] [jane_email_code; jane_phone_code] [] 1 2.
Proof. vm_compute. reflexivity. Qed.

(** Any attempt on Jane's codes made before they expire gets to the
    attempt limit. *)
Lemma jane_at_attempt_check now emailCode smsCode :
  now <= 601000 →
  Str.falsy emailCode = false → Str.falsy smsCode = false →
  at_attempt_check (at_time now) 1 emailCode smsCode (db jane_signed)
    jane_email_code jane_phone_code.
Proof.
  intros Hnow He Hs. rewrite jane_signed_db. constructor.
  - split; assumption.
  - exists jane_row. split; reflexivity.
  - reflexivity.
  - reflexivity.
  - reflexivity.
  - reflexivity.
  - split; exact Hnow.
Qed.

(** Scenario B, first attempt: a wrong email code, the right SMS code. *)
Lemma failed_attempt_counts_on_both_witness :
  at_attempt_check (at_time 2000) 1 "000000" "654321" (db jane_signed)
    jane_email_code jane_phone_code
  ∧ fst (post_verify (at_time 2000) 1 "000000" "654321" (db jane_signed))
    = invalid_codes 2
  ∧ map attempts
      (select_codes 1
         (snd (post_verify (at_time 2000) 1 "000000" "654321"
                 (db jane_signed))))
    = [1; 1].
Proof.
  assert (Hat : at_attempt_check (at_time 2000) 1 "000000" "654321"
                  (db jane_signed) jane_email_code jane_phone_code)
    by (apply jane_at_attempt_check; [lia | reflexivity | reflexivity]).
  split; [exact Hat|].
  destruct (failed_attempt_counts_on_both (at_time 2000) 1 "000000" "654321"
              (db jane_signed) jane_email_code jane_phone_code Hat
              ltac:(cbn; lia) ltac:(cbn; lia)
              ltac:(left; vm_compute; discriminate))
    as (e' & ph' & _ & _ & He' & Hph' & Hcodes & _ & Hres).
  split.
  - rewrite Hres, He', Hph'. reflexivity.
  - rewrite Hcodes, jane_signed_db. reflexivity.
Defined.

(** Scenario B, the fourth attempt, with the right codes. *)
Lemma attempts_exhausted_witness :
  at_attempt_check (at_time 2000) 1 "000000" "654321" (db jane_signed)
    jane_email_code jane_phone_code
  ∧ (let d1 :=
       snd (post_verify (at_time 2000) 1 "000000" "654321" (db jane_signed)) in
     let d2 := snd (post_verify (at_time 3000) 1 "000000" "654321" d1) in
     let d3 := snd (post_verify (at_time 4000) 1 "000000" "654321" d2) in
     fst (post_verify (at_time 5000) 1 "123456" "654321" d3)
     = too_many_attempts).
Proof.
  assert (Hat : at_attempt_check (at_time 2000) 1 "000000" "654321"
                  (db jane_signed) jane_email_code jane_phone_code)
    by (apply jane_at_attempt_check; [lia | reflexivity | reflexivity]).
  split; [exact Hat|].
  destruct (attempts_exhausted (at_time 2000) 1 "000000" "654321"
              (db jane_signed) jane_email_code jane_phone_code Hat)
    as [_ Hrun].
  intros d1 d2 d3.
  destruct (Hrun eq_refl eq_refl ltac:(left; vm_compute; discriminate)
              (at_time 3000) "000000" "654321"
              (at_time 4000) "000000" "654321"
              (at_time 5000) "123456" "654321"
              eq_refl eq_refl eq_refl eq_refl eq_refl eq_refl
              ltac:(cbn; lia) ltac:(cbn; lia) ltac:(cbn; lia)
              ltac:(cbn; lia) ltac:(cbn; lia) ltac:(cbn; lia)
              ltac:(left; vm_compute; discriminate)
              ltac:(left; vm_compute; discriminate))
    as [_ Hfourth].
  subst d1 d2 d3. rewrite Hfourth. reflexivity.
Defined.

End AttemptsRun.

(** ** One digest for codes and identities *)

Section CodeHashing.

Import DB Worker Steps Outcome Scenario.

Arguments hashString : simpl never.
Arguments hashCode : simpl never.

(** The code rows written by a submission hold the digests of the two
    generated codes. *)
Lemma staged_code_hashes (p : platform) (req : submission) (d : database) :
  ∃ c1 c2,
    verification_codes (snd (staged p req d))
    = verification_codes d ++ [c1; c2]
    ∧ code_hash c1 = hashCode (generateVerificationCode (random_email p))
    ∧ code_hash c2 = hashCode (generateVerificationCode (random_sms p)).
Proof.
  unfold staged, insert_signature, insert_code. cbn.
  do 2 eexists. rewrite <- app_assoc. cbn. repeat split; reflexivity.
Qed.

(** C10. [hashCode] and [hashString] agree on every string: both are
    the hex-encoded SHA-256 digest of its UTF-8 bytes, with no salt.
    A submission stores the identity hash of each generated code, and
    a verification request that gets to the comparison succeeds
    exactly when the identity hash of each submitted code equals the
    stored hash. *)
Theorem code_hash_is_identity_hash (emailCode smsCode : string) :
  (∀ s, hashCode s = hashString s ∧ hashString s = Spec.hex_sha256_utf8 s)
  ∧ (∀ p req d, ∃ c1 c2,
       verification_codes (snd (staged p req d))
       = verification_codes d ++ [c1; c2]
       ∧ code_hash c1 = hashString (generateVerificationCode (random_email p))
       ∧ code_hash c2 = hashString (generateVerificationCode (random_sms p)))
  ∧ (∀ p id d e ph,
       at_attempt_check p id emailCode smsCode d e ph →
       attempts e < 3 → attempts ph < 3 →
       (fst (post_verify p id emailCode smsCode d) = verified
        ↔ hashString emailCode = code_hash e
          ∧ hashString smsCode = code_hash ph)).
Proof.
  split; [| split].
  - intros s. split; reflexivity.
  - intros p req d. apply staged_code_hashes.
  - intros p id d e ph Hat He Hph.
    rewrite (post_verify_steps _ _ _ _ _ _ _ Hat).
    replace (3 <=? attempts e) with false by (symmetry; apply Z.leb_gt; lia).
    replace (3 <=? attempts ph) with false by (symmetry; apply Z.leb_gt; lia).
    cbn [orb]. change (hashCode emailCode) with (hashString emailCode).
    change (hashCode smsCode) with (hashString smsCode).
    destruct (String.eqb (code_hash e) (hashString emailCode)) eqn:E1;
      [apply String.eqb_eq in E1 | apply String.eqb_neq in E1];
      (destruct (String.eqb (code_hash ph) (hashString smsCode)) eqn:E2;
       [apply String.eqb_eq in E2 | apply String.eqb_neq in E2]);
      cbn [negb orb fst]; unfold invalid_codes, verified, json, json_status;
      (split; [try discriminate; intros _; split; congruence
              | intros [H1 H2]; try reflexivity; congruence]).
Qed.

(** Jane's own codes verify her signature. *)
Lemma code_hash_is_identity_hash_witness :
  at_attempt_check (at_time 2000) 1 "123456" "654321" (db jane_signed)
    jane_email_code jane_phone_code
  ∧ fst (post_verify (at_time 2000) 1 "123456" "654321" (db jane_signed))
    = verified.
Proof.
  assert (Hat : at_attempt_check (at_time 2000) 1 "123456" "654321"
                  (db jane_signed) jane_email_code jane_phone_code)
    by (apply jane_at_attempt_check; [lia | reflexivity | reflexivity]).
  split; [exact Hat|].
  destruct (code_hash_is_identity_hash "123456" "654321") as (_ & _ & Hiff).
  apply (Hiff (at_time 2000) 1 (db jane_signed) jane_email_code
           jane_phone_code Hat ltac:(cbn; lia) ltac:(cbn; lia)).
  split; vm_compute; reflexivity.
Defined.

End CodeHashing.

(** ** [GET /api/signatures/count] *)

Section Count.

Import DB Worker Steps Outcome Scenario.

(** C8, as the code has it. The count returned is the number of
    signature rows with both flags set plus the number of initial
    signatories; it is the number of verified signatures when the
    table of initial signatories is empty. *)
Theorem count_includes_initial (d : database) :
  get_count d
  = Response 200
      (CountBody
         (Z.of_nat (List.length (List.filter both_verified
                                   (public_signatures d)))
          + Z.of_nat (List.length (initial_signatories d))))
  ∧ (initial_signatories d = [] →
     get_count d
     = Response 200
         (CountBody
            (Z.of_nat (List.length (List.filter both_verified
                                      (public_signatures d)))))).
Proof.
  split; [reflexivity|]. intros H.
  unfold get_count, count_initial. rewrite H. cbn [List.length Z.of_nat].
  rewrite Z.add_0_r. reflexivity.
Qed.

(** With one initial signatory and no signature at all, the count is
    1, not the number of verified signatures, 0. *)
Lemma count_counterexample :
  get_count one_initial_signatory = Response 200 (CountBody 1)
  ∧ List.filter both_verified (public_signatures one_initial_signatory) = []
  ∧ get_count one_initial_signatory
    ≠ Response 200
        (CountBody
           (Z.of_nat (List.length
              (List.filter both_verified
                 (public_signatures one_initial_signatory))))).
Proof.
  split; [reflexivity|]. split; [reflexivity|]. vm_compute. discriminate.
Qed.

(** Jane, once verified, is counted. *)
Lemma count_includes_initial_witness :
  initial_signatories
    (snd (post_verify (at_time 2000) 1 "123456" "654321" (db jane_signed)))
  = []
  ∧ get_count
      (snd (post_verify (at_time 2000) 1 "123456" "654321" (db jane_signed)))
    = Response 200 (CountBody 1).
Proof.
  assert (H : initial_signatories
                (snd (post_verify (at_time 2000) 1 "123456" "654321"
                        (db jane_signed))) = [])
    by (vm_compute; reflexivity).
  split; [exact H|].
  rewrite (proj2 (count_includes_initial _) H). vm_compute. reflexivity.
Defined.

End Count.

(** * Further properties *)

(** ** The rate limiter: keys, counters, recovery *)

Section RateLimiterMore.

Import RateLimiter Invariants.

Lemma fetch_other_key (key : option string) now (storage : gmap string window) k :
  key ≠ Some k → snd (fetch key now storage) !! k = storage !! k.
Proof.
  intros Hk. unfold fetch. destruct key as [k0|]; [|reflexivity].
  assert (k0 ≠ k) by congruence.
  destruct (Str.falsy k0); [reflexivity|]. cbv zeta.
  destruct (storage !! k0) as [d|]; cbn [snd].
  - destruct (resetTime d <? now); cbn [snd];
      [apply lookup_insert_ne; assumption|].
    destruct (maxRequests <=? count d); cbn [snd];
      [reflexivity | apply lookup_insert_ne; assumption].
  - apply lookup_insert_ne; assumption.
Qed.

(** X1. A request touches the window of its own key only, and a request
    without a key, or with an empty one, is answered 400 and touches
    nothing. *)
Theorem fetch_isolates_keys
    (key : option string) (now : Z) (storage : gmap string window) :
  (∀ k, key ≠ Some k → snd (fetch key now storage) !! k = storage !! k)
  ∧ (key = None ∨ key = Some "" →
     fetch key now storage = (Response 400 (Text "Missing key"), storage)).
Proof.
  split.
  - intros k. apply fetch_other_key.
  - intros [-> | ->]; reflexivity.
Qed.

Lemma fetch_isolates_keys_witness :
  Some "203.0.113.7" ≠ Some "198.51.100.2"
  ∧ snd (fetch (Some "203.0.113.7") 1000
           {["198.51.100.2" := Window 5 2000]}) !! "198.51.100.2"
    = Some (Window 5 2000).
Proof.
  assert (H : Some "203.0.113.7" ≠ Some "198.51.100.2") by discriminate.
  split; [exact H|].
  rewrite (proj1 (fetch_isolates_keys (Some "203.0.113.7") 1000
                    {["198.51.100.2" := Window 5 2000]}) _ H).
  apply lookup_singleton_eq.
Defined.

Lemma fetch_counters key now storage :
  counters_in_range storage →
  counters_in_range (snd (fetch key now storage))
  ∧ ∀ k a r, key = Some k →
      payload (fst (fetch key now storage)) = Json a r →
      0 <= r <= 4
      ∧ (a = true → ∃ d, snd (fetch key now storage) !! k = Some d
                         ∧ r = 5 - count d)
      ∧ (a = false → ∃ d, storage !! k = Some d ∧ count d = 5 ∧ r = 0).
Proof.
  intros Hin. unfold fetch. destruct key as [k0|].
  2:{ split; [exact Hin|]. intros; discriminate. }
  destruct (Str.falsy k0).
  { split; [exact Hin|]. intros k a r _ H. discriminate H. }
  cbv zeta.
  assert (Hfresh : counters_in_range (<[k0 := Window 1 (now + windowMs)]> storage)).
  { intros k d. rewrite lookup_insert. case_decide.
    - intros [= <-]. cbn. lia.
    - apply Hin. }
  destruct (storage !! k0) as [d0|] eqn:E0.
  - pose proof (Hin k0 d0 E0) as Hd0.
    destruct (resetTime d0 <? now).
    + split; [exact Hfresh|]. intros k a r [= <-] [= <- <-]. cbn [snd fst].
      unfold maxRequests. split; [lia|]. split; [|discriminate].
      intros _. eexists. rewrite lookup_insert_eq. split; [reflexivity|].
      cbn. lia.
    + unfold maxRequests. destruct (5 <=? count d0) eqn:Efull.
      * apply Z.leb_le in Efull. split; [exact Hin|].
        intros k a r [= <-] [= <- <-]. cbn [snd fst].
        split; [lia|]. split; [discriminate|]. intros _.
        exists d0. repeat split; [assumption | lia].
      * apply Z.leb_gt in Efull. split.
        -- intros k d. cbn [snd]. rewrite lookup_insert. case_decide.
           ++ intros [= <-]. cbn. lia.
           ++ apply Hin.
        -- intros k a r [= <-] [= <- <-]. cbn [snd fst].
           split; [lia|]. split; [|discriminate]. intros _.
           eexists. rewrite lookup_insert_eq. split; [reflexivity|]. cbn. lia.
  - split; [exact Hfresh|]. intros k a r [= <-] [= <- <-]. cbn [snd fst].
    unfold maxRequests. split; [lia|]. split; [|discriminate].
    intros _. eexists. rewrite lookup_insert_eq. split; [reflexivity|].
    cbn. lia.
Qed.

(** X2. The counters stay between 1 and 5 through any run of the
    object, and the [remaining] a response reports is between 0 and 4:
    five less the counter now stored when the request is allowed, 0
    when it is rejected, which happens only at a counter of 5. *)
Theorem counters_stay_in_range
    (reqs : list (string * Z)) (storage : gmap string window) :
  counters_in_range storage →
  counters_in_range (snd (serve reqs storage))
  ∧ ∀ k now a r,
      payload (fst (fetch (Some k) now storage)) = Json a r →
      0 <= r <= 4
      ∧ (a = true → ∃ d, snd (fetch (Some k) now storage) !! k = Some d
                         ∧ r = 5 - count d)
      ∧ (a = false → ∃ d, storage !! k = Some d ∧ count d = 5 ∧ r = 0).
Proof.
  intros Hin. split.
  - revert storage Hin. induction reqs as [|[k now] rest IH]; intros storage Hin.
    + exact Hin.
    + cbn [serve].
      pose proof (proj1 (fetch_counters (Some k) now storage Hin)) as Hstep.
      destruct (fetch (Some k) now storage) as [r storage1]. cbn [snd] in Hstep.
      specialize (IH storage1 Hstep).
      destruct (serve rest storage1) as [log storage2]. exact IH.
  - intros k now a r. apply (proj2 (fetch_counters (Some k) now storage Hin) k).
    reflexivity.
Qed.

Lemma counters_stay_in_range_witness :
  counters_in_range ∅
  ∧ counters_in_range
      (snd (serve [("203.0.113.7", 0); ("203.0.113.7", 1); ("203.0.113.7", 2);
                   ("203.0.113.7", 3); ("203.0.113.7", 4); ("203.0.113.7", 5);
                   ("203.0.113.7", 6)] ∅)).
Proof.
  assert (H : counters_in_range ∅) by (intros k d Hk; discriminate Hk).
  split; [exact H|].
  exact (proj1 (counters_stay_in_range _ ∅ H)).
Defined.

(** Requests that come no later than the end of the window of [k] leave
    that end where it is. *)
Lemma serve_keeps_window_end k R reqs : ∀ storage c,
  storage !! k = Some (Window c R) →
  Forall (fun q => fst q = k → snd q <= R) reqs →
  ∃ c', snd (serve reqs storage) !! k = Some (Window c' R) ∧ c <= c'.
Proof.
  induction reqs as [|[k' now] rest IH]; intros storage c Hk Hall.
  - exists c. split; [exact Hk | lia].
  - apply Forall_cons in Hall as [Hnow Hrest]. cbn [fst snd] in Hnow.
    cbn [serve].
    assert (Hstep : ∃ c1, snd (fetch (Some k') now storage) !! k
                          = Some (Window c1 R) ∧ c <= c1).
    { destruct (decide (k' = k)) as [->|Hne].
      - specialize (Hnow eq_refl). unfold fetch.
        destruct (Str.falsy k); [exists c; split; [exact Hk | lia]|].
        cbv zeta. rewrite Hk. cbn [resetTime count].
        replace (R <? now) with false by (symmetry; apply Z.ltb_ge; lia).
        destruct (maxRequests <=? c); cbn [snd].
        + exists c. split; [exact Hk | lia].
        + exists (c + 1). rewrite lookup_insert_eq. split; [reflexivity | lia].
      - exists c. split; [| lia].
        rewrite fetch_other_key; [exact Hk | congruence]. }
    destruct Hstep as (c1 & Hk1 & Hc1).
    destruct (fetch (Some k') now storage) as [r storage1]. cbn [snd] in Hk1.
    destruct (IH storage1 c1 Hk1 Hrest) as (c' & Hk' & Hc').
    destruct (serve rest storage1) as [log storage2]. cbn [snd] in *.
    exists c'. split; [exact Hk' | lia].
Qed.

(** X3. Rejected requests never push the end of the window back: after
    any run of requests that come no later than the end of the window
    of a key, the window still ends where it did, so that the first
    request after that end is allowed, however many were sent
    meanwhile. *)
Theorem window_never_extended
    (k : string) (R c : Z) (reqs : list (string * Z))
    (storage : gmap string window) (now : Z) :
  k ≠ "" →
  storage !! k = Some (Window c R) →
  Forall (fun q => fst q = k → snd q <= R) reqs →
  R < now →
  (∃ c', snd (serve reqs storage) !! k = Some (Window c' R))
  ∧ fetch (Some k) now (snd (serve reqs storage))
    = (Response 200 (Json true 4),
       <[k := Window 1 (now + 60000)]> (snd (serve reqs storage))).
Proof.
  intros Hk Hw Hall Hnow.
  destruct (serve_keeps_window_end k R reqs storage c Hw Hall) as (c' & Hk' & _).
  split; [eauto|].
  apply fetch_fresh; [exact Hk|]. right. exists (Window c' R).
  split; [exact Hk' | exact Hnow].
Qed.

(** Ten requests in a burst, then one a minute after the first. *)
Lemma window_never_extended_witness :
  "203.0.113.7" ≠ ""
  ∧ allowed
      (fst (fetch (Some "203.0.113.7") 60002
              (snd (serve (map (fun t => ("203.0.113.7", t))
                             [2; 3; 4; 5; 6; 7; 8; 9; 10; 60001])
                      {["203.0.113.7" := Window 1 60001]}))))
    = true.
Proof.
  assert (Hk : "203.0.113.7" ≠ "") by discriminate.
  split; [exact Hk|].
  rewrite (proj2 (window_never_extended "203.0.113.7" 60001 1
                    (map (fun t => ("203.0.113.7", t))
                       [2; 3; 4; 5; 6; 7; 8; 9; 10; 60001])
                    {["203.0.113.7" := Window 1 60001]} 60002 Hk
                    (lookup_singleton_eq _ _)
                    ltac:(repeat constructor; cbn; lia) ltac:(lia))).
  reflexivity.
Defined.

End RateLimiterMore.

(** ** Submissions: what persists, and the foreign key *)

Section SubmissionMore.

Import DB Worker Steps Outcome Invariants.

Arguments hashString : simpl never.
Arguments hashCode : simpl never.

(** The tables after a roll-back. *)
Lemma rollback_tables p req d :
  let undone := delete_signature (fst (staged p req d)) (snd (staged p req d)) in
  public_signatures undone = public_signatures d
  ∧ initial_signatories undone = initial_signatories d
  ∧ verification_codes undone
    = List.filter (fun c => negb (signature_id c =? fst (staged p req d)))
        (verification_codes d).
Proof.
  destruct (staged_rows p req d)
    as (row & c1 & c2 & Hsigs & Hcodes & Hinit & Hid & _ & _ & _ & _
        & Hc1 & _ & Hc2 & _ & Hlt).
  cbv zeta in *. unfold delete_signature.
  cbn [public_signatures verification_codes initial_signatories].
  split; [| split; [exact Hinit|]].
  - rewrite Hsigs, <- Hid. apply filter_drop_fresh. rewrite Hid. exact Hlt.
  - replace (existsb _ _) with true.
    2:{ symmetry. apply existsb_exists. exists row.
        rewrite Hsigs, in_app_iff. cbn. split; [tauto|]. apply Z.eqb_eq, Hid. }
    rewrite Hcodes, List.filter_app. cbn [List.filter].
    rewrite Hc1, Hc2, Z.eqb_refl. cbn. apply app_nil_r.
Qed.

(** Under the foreign key no code refers to the rowid to come. *)
Lemma no_code_of_next p req d :
  referential_integrity d →
  ∀ c, In c (verification_codes d) → signature_id c ≠ fst (staged p req d).
Proof.
  intros Hfk c Hc. destruct (Hfk c Hc) as (r & Hr & Hid).
  destruct (staged_rows p req d) as (_ & _ & _ & _ & _ & _ & _ & _ & _ & _
                                     & _ & _ & _ & _ & _ & Hlt).
  specialize (Hlt r Hr). cbv zeta in Hlt. lia.
Qed.

(** X4. Only a submission answered 200 leaves a trace in the tables:
    after any other answer the signatures and the initial signatories
    are what they were, and so are the verification codes when each of
    them belonged to a signature. *)
Theorem only_success_persists (p : platform) (req : submission) (w : world) :
  status (fst (post_signatures p req w)) ≠ 200 →
  public_signatures (db (snd (post_signatures p req w)))
  = public_signatures (db w)
  ∧ initial_signatories (db (snd (post_signatures p req w)))
    = initial_signatories (db w)
  ∧ (referential_integrity (db w) →
     verification_codes (db (snd (post_signatures p req w)))
     = verification_codes (db w)).
Proof.
  rewrite post_signatures_steps.
  destruct (limiter_verdict _) as [[|]|]; [| repeat split; reflexivity ..].
  destruct (negb (required_present req)); [repeat split; reflexivity|].
  destruct (negb (email_well_formed req)); [repeat split; reflexivity|].
  destruct (negb (mobile_valid _)); [repeat split; reflexivity|].
  destruct (select_by_hash _ _ _); [repeat split; reflexivity|].
  destruct (dispatch p req); cbn [fst snd db status]; [| intros H; destruct H; reflexivity].
  intros _. destruct (rollback_tables p req (db w)) as (Hs & Hi & Hc).
  cbv zeta in *. split; [exact Hs|]. split; [exact Hi|].
  intros Hfk. rewrite Hc. apply filter_all. intros c Hin.
  apply negb_true_iff, Z.eqb_neq. apply (no_code_of_next p req (db w) Hfk c Hin).
Qed.

(** An SMS that cannot be delivered: Jane's submission leaves no row. *)
Lemma only_success_persists_witness :
  status (fst (post_signatures Scenario.sns_down
                 (Scenario.jane "Jane@Example.com" "0412345678")
                 Scenario.start)) ≠ 200
  ∧ public_signatures
      (db (snd (post_signatures Scenario.sns_down
                  (Scenario.jane "Jane@Example.com" "0412345678")
                  Scenario.start)))
    = []
  ∧ verification_codes
      (db (snd (post_signatures Scenario.sns_down
                  (Scenario.jane "Jane@Example.com" "0412345678")
                  Scenario.start)))
    = [].
Proof.
  assert (H : status (fst (post_signatures Scenario.sns_down
                             (Scenario.jane "Jane@Example.com" "0412345678")
                             Scenario.start)) ≠ 200)
    by (vm_compute; discriminate).
  split; [exact H|].
  destruct (only_success_persists _ _ _ H) as (Hs & _ & Hc).
  split; [exact Hs | apply Hc]. intros c [].
Defined.

(** The foreign key through each statement. *)
Lemma integrity_by_ids d d' :
  referential_integrity d →
  (∀ c', In c' (verification_codes d') →
         ∃ c, In c (verification_codes d) ∧ signature_id c = signature_id c') →
  (∀ r, In r (public_signatures d) →
        ∃ r', In r' (public_signatures d') ∧ id r' = id r) →
  referential_integrity d'.
Proof.
  intros Hfk Hcodes Hsigs c' Hc'.
  destruct (Hcodes c' Hc') as (c & Hc & Hsame).
  destruct (Hfk c Hc) as (r & Hr & Hid).
  destruct (Hsigs r Hr) as (r' & Hr' & Hid').
  exists r'. split; [exact Hr' | congruence].
Qed.

Lemma integrity_bump sid t1 t2 d :
  referential_integrity d → referential_integrity (bump_attempts sid t1 t2 d).
Proof.
  intros Hfk. apply (integrity_by_ids d); [exact Hfk | | eauto].
  unfold bump_attempts, set_codes. cbn [verification_codes].
  intros c' (c & <- & Hc)%in_map_iff. exists c. split; [exact Hc|].
  destruct (is_code_of _ _ c); reflexivity.
Qed.

Lemma integrity_mark sid t1 t2 ts d :
  referential_integrity d →
  referential_integrity
    (mark_signature_verified sid ts (mark_codes_verified sid t1 t2 ts d)).
Proof.
  intros Hfk. apply (integrity_by_ids d); [exact Hfk | |].
  - unfold mark_signature_verified, mark_codes_verified, set_codes.
    cbn [verification_codes].
    intros c' (c & <- & Hc)%in_map_iff. exists c. split; [exact Hc|].
    destruct (is_code_of _ _ c); reflexivity.
  - unfold mark_signature_verified, mark_codes_verified, set_codes.
    cbn [public_signatures]. intros r Hr. eexists. split.
    + apply in_map_iff. exists r. split; [reflexivity | exact Hr].
    + destruct (id r =? sid); reflexivity.
Qed.

Lemma integrity_delete sid d :
  referential_integrity d → referential_integrity (delete_signature sid d).
Proof.
  intros Hfk c Hc. unfold delete_signature in *.
  cbn [verification_codes public_signatures] in *.
  destruct (existsb _ _) eqn:Hhit.
  - apply List.filter_In in Hc as [Hc Hne].
    apply negb_true_iff, Z.eqb_neq in Hne.
    destruct (Hfk c Hc) as (r & Hr & Hid). exists r. split; [|exact Hid].
    apply List.filter_In. split; [exact Hr|].
    apply negb_true_iff, Z.eqb_neq. congruence.
  - destruct (Hfk c Hc) as (r & Hr & Hid). exists r. split; [|exact Hid].
    apply List.filter_In. split; [exact Hr|].
    apply negb_true_iff. destruct (id r =? sid) eqn:E; [|reflexivity].
    assert (existsb (fun r => id r =? sid) (public_signatures d) = true)
      by (apply existsb_exists; eauto).
    congruence.
Qed.

Lemma integrity_staged p req d :
  referential_integrity d → referential_integrity (snd (staged p req d)).
Proof.
  intros Hfk c Hc.
  destruct (staged_rows p req d)
    as (row & c1 & c2 & Hsigs & Hcodes & _ & Hid & _ & _ & _ & _
        & Hc1 & _ & Hc2 & _ & _).
  cbv zeta in *. rewrite Hsigs. rewrite Hcodes in Hc.
  apply in_app_iff in Hc as [Hc | [<- | [<- | []]]].
  - destruct (Hfk c Hc) as (r & Hr & Hr'). exists r.
    split; [apply in_app_iff; tauto | exact Hr'].
  - exists row. split; [apply in_app_iff; cbn; tauto | congruence].
  - exists row. split; [apply in_app_iff; cbn; tauto | congruence].
Qed.

(** X5. The foreign key of the verification codes holds through the
    three handlers that write to the two tables: if every code belongs
    to a signature before a submission, a verification or a deletion by
    the admin, every code does after it. *)
Theorem integrity_preserved (d : database) :
  referential_integrity d →
  (∀ p req ls,
     referential_integrity (db (snd (post_signatures p req (World d ls)))))
  ∧ (∀ p sid emailCode smsCode,
       referential_integrity (snd (post_verify p sid emailCode smsCode d)))
  ∧ (∀ sid users seq,
       referential_integrity
         (Admin.tables
            (snd (Admin.delete_admin_signature sid (Admin.Store d users seq))))).
Proof.
  intros Hfk. split; [| split].
  - intros p req ls. rewrite post_signatures_steps. cbn [db].
    destruct (limiter_verdict _) as [[|]|]; try exact Hfk.
    destruct (negb (required_present req)); [exact Hfk|].
    destruct (negb (email_well_formed req)); [exact Hfk|].
    destruct (negb (mobile_valid _)); [exact Hfk|].
    destruct (select_by_hash _ _ _); [exact Hfk|].
    destruct (dispatch p req); cbn [snd db].
    + apply integrity_delete, integrity_staged, Hfk.
    + apply integrity_staged, Hfk.
  - intros p sid emailCode smsCode. unfold post_verify.
    repeat match goal with
           | |- context [if ?b then _ else _] => destruct b
           | |- context [match ?x with Some _ => _ | None => _ end] => destruct x
           end; cbn [snd];
      first [exact Hfk | apply integrity_bump, Hfk | apply integrity_mark, Hfk].
  - intros sid users seq. unfold Admin.delete_admin_signature.
    cbn [Admin.tables].
    destruct (_ =? 0)%nat; cbn [snd Admin.with_tables Admin.tables];
      apply integrity_delete, Hfk.
Qed.

Lemma integrity_preserved_witness :
  referential_integrity (db Scenario.jane_signed)
  ∧ referential_integrity
      (Admin.tables
         (snd (Admin.delete_admin_signature 1
                 (Admin.Store (db Scenario.jane_signed) [] 0)))).
Proof.
  assert (H : referential_integrity (db Scenario.jane_signed)).
  { rewrite jane_signed_db. intros c [<- | [<- | []]];
      exists Scenario.jane_row; split; cbn; tauto. }
  split; [exact H|].
  apply (proj2 (proj2 (integrity_preserved _ H))).
Defined.

End SubmissionMore.

(** ** From submission to verification *)

Section EndToEnd.

Import DB Worker Steps Outcome Invariants.

Arguments hashString : simpl never.
Arguments hashCode : simpl never.

Lemma of_Z_not_empty n : Str.falsy (Str.of_Z n) = false.
Proof.
  unfold Str.of_Z. destruct (N.to_uint (Z.to_N n)); reflexivity.
Qed.

(** The rows a submission stages, in full. *)
Lemma staged_explicit p req d :
  ∃ i1 i2,
    snd (staged p req d)
    = Database
        (public_signatures d ++
         [SignatureRow (fst (staged p req d)) (s_name req) (emailHash req)
            (phoneHash req) (or_null (s_position req))
            (or_null (s_institution req)) (or_null (s_address req))
            (or_null (s_addressId req)) (or_null (s_stateElec req))
            (or_null (s_fedElec req)) (or_null (s_latitude req))
            (or_null (s_longitude req)) (or_null (s_sa1 req))
            (or_null (s_lga req)) (or_null (s_postcode req))
            (or_null (s_state req)) false false None])
        (verification_codes d ++
         [CodeRow i1 (fst (staged p req d)) "email"
            (hashCode (generateVerificationCode (random_email p)))
            (getCodeExpiryTime (new_date p)) 0 None;
          CodeRow i2 (fst (staged p req d)) "phone"
            (hashCode (generateVerificationCode (random_sms p)))
            (getCodeExpiryTime (new_date p)) 0 None])
        (initial_signatories d) (fst (staged p req d)) i2.
Proof.
  unfold staged, insert_signature, insert_code. cbn.
  do 2 eexists. rewrite <- app_assoc. reflexivity.
Qed.

Lemma find_fresh_last {A} (f : A → bool) (l : list A) x :
  (∀ y, In y l → f y = false) → f x = true →
  List.find f (l ++ [x]) = Some x.
Proof.
  intros Hl Hx. induction l as [|y l IH]; cbn.
  - rewrite Hx. reflexivity.
  - rewrite (Hl y) by (cbn; tauto). apply IH. intros z Hz. apply Hl. cbn; tauto.
Qed.

Lemma filter_none {A} (f : A → bool) (l : list A) :
  (∀ y, In y l → f y = false) → List.filter f l = [].
Proof.
  induction l as [|y l IH]; cbn; intros H; [reflexivity|].
  rewrite (H y) by tauto. apply IH. intros z Hz. apply H. tauto.
Qed.

(** After a submission answered with the id [sid], a verification
    request with any codes, made before the ten minutes are over, gets
    to the attempt limit with the two rows just written. *)
Lemma staged_at_attempt_check p req d p' emailCode smsCode :
  referential_integrity d →
  Str.falsy emailCode = false → Str.falsy smsCode = false →
  new_date p' <= new_date p + 600000 →
  ∃ e ph,
    at_attempt_check p' (fst (staged p req d)) emailCode smsCode
      (snd (staged p req d)) e ph
    ∧ attempts e = 0 ∧ attempts ph = 0
    ∧ code_hash e = hashCode (generateVerificationCode (random_email p))
    ∧ code_hash ph = hashCode (generateVerificationCode (random_sms p)).
Proof.
  intros Hfk He Hs Hnow.
  destruct (staged_explicit p req d) as (i1 & i2 & Hd).
  destruct (staged_rows p req d) as (_ & _ & _ & _ & _ & _ & _ & _ & _ & _
                                     & _ & _ & _ & _ & _ & Hlt).
  cbv zeta in Hlt. set (sid := fst (staged p req d)) in *.
  assert (Hold : ∀ c, In c (verification_codes d) →
                      is_code_of sid ["email"; "phone"] c = false).
  { intros c Hc. unfold is_code_of.
    pose proof (no_code_of_next p req d Hfk c Hc) as Hne. fold sid in Hne.
    apply Z.eqb_neq in Hne. rewrite Hne. reflexivity. }
  assert (Hcodes : select_codes sid (snd (staged p req d))
                   = [CodeRow i1 sid "email"
                        (hashCode (generateVerificationCode (random_email p)))
                        (getCodeExpiryTime (new_date p)) 0 None;
                      CodeRow i2 sid "phone"
                        (hashCode (generateVerificationCode (random_sms p)))
                        (getCodeExpiryTime (new_date p)) 0 None]).
  { rewrite Hd. unfold select_codes. cbn [verification_codes].
    rewrite List.filter_app, (filter_none _ _ Hold).
    cbn [List.filter app]. unfold is_code_of. cbn [signature_id code_type].
    rewrite Z.eqb_refl. reflexivity. }
  do 2 eexists. split; [constructor|].
  - split; assumption.
  - eexists. split.
    + rewrite Hd. unfold select_signature. cbn [public_signatures].
      apply find_fresh_last.
      * intros r Hr. specialize (Hlt r Hr). apply Z.eqb_neq. lia.
      * cbn [id]. apply Z.eqb_refl.
    + reflexivity.
  - rewrite Hcodes. reflexivity.
  - rewrite Hcodes. reflexivity.
  - rewrite Hcodes. reflexivity.
  - reflexivity.
  - cbn [expires_at]. unfold getCodeExpiryTime. split; lia.
  - repeat split; reflexivity.
Qed.

Lemma select_signature_marked sid ts d :
  select_signature sid (mark_signature_verified sid ts d)
  = match select_signature sid d with
    | Some r =>
        Some (SignatureRow (id r) (name r) (email_hash r) (phone_hash r)
                (position r) (institution r) (address r) (address_id r)
                (stateElec r) (fedElec r) (latitude r) (longitude r)
                (sa1 r) (lga r) (postcode r) (state r) true true (Some ts))
    | None => None
    end.
Proof.
  unfold select_signature, mark_signature_verified. cbn [public_signatures].
  induction (public_signatures d) as [|r l IH]; [reflexivity|].
  cbn [map List.find]. destruct (id r =? sid) eqn:E.
  - cbn [id]. rewrite E. reflexivity.
  - rewrite E. exact IH.
Qed.

(** X6. A submission answered with an id, followed within ten minutes
    by a verification with the two codes that were generated for it,
    ends with the signature verified: both flags set, the time of
    completion recorded, the hashes and the name those of the
    submission. The codes of the table are assumed to belong to
    signatures, as the foreign key has it. *)
Theorem submission_then_verification
    (p : platform) (req : submission) (w : world) (sid : Z) (p' : platform) :
  referential_integrity (db w) →
  fst (post_signatures p req w) = created sid →
  new_date p' <= new_date p + 600000 →
  let d' := db (snd (post_signatures p req w)) in
  let res :=
    post_verify p' sid (generateVerificationCode (random_email p))
      (generateVerificationCode (random_sms p)) d' in
  fst res = verified
  ∧ ∃ r, select_signature sid (snd res) = Some r
         ∧ email_verified r = true ∧ phone_verified r = true
         ∧ verification_completed_at r = Some (current_timestamp p')
         ∧ name r = s_name req
         ∧ email_hash r = emailHash req ∧ phone_hash r = phoneHash req.
Proof.
  intros Hfk Hcreated Hnow d' res.
  apply created_inversion in Hcreated
    as (_ & _ & _ & _ & _ & _ & -> & Hdb).
  subst res d'. rewrite Hdb.
  destruct (staged_at_attempt_check p req (db w) p'
              (generateVerificationCode (random_email p))
              (generateVerificationCode (random_sms p)) Hfk
              (of_Z_not_empty _) (of_Z_not_empty _) Hnow)
    as (e & ph & Hat & He0 & Hp0 & Hhe & Hhp).
  rewrite (post_verify_steps _ _ _ _ _ _ _ Hat). rewrite He0, Hp0, Hhe, Hhp.
  rewrite !String.eqb_refl. cbn [Z.leb Z.compare orb negb fst snd].
  split; [reflexivity|].
  rewrite select_signature_marked.
  destruct Hat as [_ (sig & Hsig & _) _ _ _ _ _].
  assert (Hsel : select_signature (fst (staged p req (db w)))
                   (mark_codes_verified (fst (staged p req (db w))) "email"
                      "phone" (current_timestamp p') (snd (staged p req (db w))))
                 = Some sig) by exact Hsig.
  rewrite Hsel. eexists. split; [reflexivity|]. cbn.
  destruct (staged_explicit p req (db w)) as (i1 & i2 & Hd).
  rewrite Hd in Hsig. unfold select_signature in Hsig.
  cbn [public_signatures] in Hsig.
  destruct (staged_rows p req (db w)) as (_ & _ & _ & _ & _ & _ & _ & _ & _
                                          & _ & _ & _ & _ & _ & _ & Hlt).
  cbv zeta in Hlt.
  rewrite find_fresh_last in Hsig.
  - injection Hsig as <-. repeat split; reflexivity.
  - intros r Hr. specialize (Hlt r Hr). apply Z.eqb_neq. lia.
  - apply Z.eqb_refl.
Qed.

Lemma submission_then_verification_witness :
  referential_integrity (db Scenario.start)
  ∧ fst (post_verify (Scenario.at_time 600000) 1 "123456" "654321"
           (db Scenario.jane_signed))
    = verified.
Proof.
  assert (H : referential_integrity (db Scenario.start))
    by (intros c []).
  split; [exact H|].
  exact (proj1 (submission_then_verification (Scenario.at_time 1000)
                  (Scenario.jane "Jane@Example.com" "0412345678")
                  Scenario.start 1 (Scenario.at_time 600000) H
                  ltac:(vm_compute; reflexivity) ltac:(cbn; lia))).
Defined.

End EndToEnd.

(** ** Verification: expiry, one shot, and what it leaves alone *)

Section VerificationMore.

Import DB Worker Steps Outcome Invariants.

Arguments hashString : simpl never.
Arguments hashCode : simpl never.

(** X7. Codes that have expired are refused as such, and nothing is
    written: whether the submitted codes are right or wrong, and
    whatever the attempts made so far. The request is one that got as
    far as the expiry check. *)
Theorem expired_codes_rejected
    (p : platform) (id : Z) (emailCode smsCode : string) (d : database)
    (sig : signature_row) (e ph : code_row) :
  Str.falsy emailCode = false → Str.falsy smsCode = false →
  select_signature id d = Some sig →
  email_verified sig && phone_verified sig = false →
  List.length (select_codes id d) = 2%nat →
  List.find (fun c => String.eqb (code_type c) "email") (select_codes id d)
  = Some e →
  List.find (fun c => String.eqb (code_type c) "phone") (select_codes id d)
  = Some ph →
  is_set (verified_at e) && is_set (verified_at ph) = false →
  expires_at e < new_date p ∨ expires_at ph < new_date p →
  post_verify p id emailCode smsCode d
  = (json_status (ErrorBody "Verification codes have expired") 400, d).
Proof.
  intros Hec Hsc Hsig Hpending Htwo He Hph Hnb Hexp.
  unfold post_verify. rewrite Hec, Hsc, Hsig, Hpending, Htwo, He, Hph, Hnb.
  cbn [orb negb Z.of_nat Pos.of_succ_nat Pos.succ Z.eqb Pos.eqb].
  replace ((expires_at e <? new_date p) || (expires_at ph <? new_date p))
    with true; [reflexivity|].
  symmetry. apply orb_true_iff.
  destruct Hexp; [left | right]; apply Z.ltb_lt; assumption.
Qed.

(** Scenario C: the right codes, eleven minutes after the submission. *)
Lemma expired_codes_rejected_witness :
  expires_at Scenario.jane_email_code < new_date (Scenario.at_time 661000)
  ∧ post_verify (Scenario.at_time 661000) 1 "123456" "654321"
      (db Scenario.jane_signed)
    = (json_status (ErrorBody "Verification codes have expired") 400,
       db Scenario.jane_signed).
Proof.
  assert (H : expires_at Scenario.jane_email_code
              < new_date (Scenario.at_time 661000)) by (cbn; lia).
  split; [exact H|].
  apply (expired_codes_rejected _ _ _ _ _ Scenario.jane_row
           Scenario.jane_email_code Scenario.jane_phone_code);
    try (rewrite jane_signed_db; reflexivity); try reflexivity.
  left. exact H.
Defined.

(** X8. Verification succeeds once: when a request that got to the
    comparison carries the two right codes, the signature ends with both
    flags set, its two codes with [verified_at] set, and every later
    request for it, whatever its codes, is answered "Signature already
    verified" and changes nothing. *)
Theorem verification_is_one_shot
    (p : platform) (id : Z) (emailCode smsCode : string) (d : database)
    (e ph : code_row) :
  at_attempt_check p id emailCode smsCode d e ph →
  attempts e < 3 → attempts ph < 3 →
  hashCode emailCode = code_hash e → hashCode smsCode = code_hash ph →
  let d' := snd (post_verify p id emailCode smsCode d) in
  fst (post_verify p id emailCode smsCode d) = verified
  ∧ (∃ r, select_signature id d' = Some r
          ∧ email_verified r = true ∧ phone_verified r = true
          ∧ verification_completed_at r = Some (current_timestamp p))
  ∧ (∀ c, In c (select_codes id d') →
          verified_at c = Some (current_timestamp p))
  ∧ (∀ p2 emailCode2 smsCode2,
       Str.falsy emailCode2 = false → Str.falsy smsCode2 = false →
       post_verify p2 id emailCode2 smsCode2 d'
       = (json_status (ErrorBody "Signature already verified") 400, d')).
Proof.
  intros Hat He Hph Hhe Hhp d'. subst d'.
  rewrite (post_verify_steps _ _ _ _ _ _ _ Hat).
  replace (3 <=? attempts e) with false by (symmetry; apply Z.leb_gt; lia).
  replace (3 <=? attempts ph) with false by (symmetry; apply Z.leb_gt; lia).
  rewrite Hhe, Hhp, !String.eqb_refl. cbn [orb negb fst snd].
  destruct Hat as [_ (sig & Hsig & _) _ _ _ _ _].
  assert (Hmarked :
    select_signature id
      (mark_signature_verified id (current_timestamp p)
         (mark_codes_verified id "email" "phone" (current_timestamp p) d))
    = Some (SignatureRow (DB.id sig) (name sig) (email_hash sig)
              (phone_hash sig) (position sig) (institution sig) (address sig)
              (address_id sig) (stateElec sig) (fedElec sig) (latitude sig)
              (longitude sig) (sa1 sig) (lga sig) (postcode sig) (state sig)
              true true (Some (current_timestamp p)))).
  { rewrite select_signature_marked.
    change (select_signature id (mark_codes_verified _ _ _ _ d))
      with (select_signature id d).
    rewrite Hsig. reflexivity. }
  split; [reflexivity|]. split; [| split].
  - eexists. split; [exact Hmarked|]. repeat split; reflexivity.
  - intros c Hc. unfold select_codes, mark_signature_verified,
      mark_codes_verified, set_codes in Hc. cbn [verification_codes] in Hc.
    apply List.filter_In in Hc as [Hc Hmine].
    apply in_map_iff in Hc as (c0 & Hc0 & _).
    destruct (is_code_of id ["email"; "phone"] c0) eqn:E0.
    + subst c. reflexivity.
    + subst c. congruence.
  - intros p2 ec2 sc2 H1 H2. unfold post_verify at 1.
    rewrite H1, H2, Hmarked. reflexivity.
Qed.

Lemma verification_is_one_shot_witness :
  at_attempt_check (Scenario.at_time 2000) 1 "123456" "654321"
    (db Scenario.jane_signed) Scenario.jane_email_code
    Scenario.jane_phone_code
  ∧ fst (post_verify (Scenario.at_time 3000) 1 "123456" "654321"
           (snd (post_verify (Scenario.at_time 2000) 1 "123456" "654321"
                   (db Scenario.jane_signed))))
    = json_status (ErrorBody "Signature already verified") 400.
Proof.
  assert (Hat : at_attempt_check (Scenario.at_time 2000) 1 "123456" "654321"
                  (db Scenario.jane_signed) Scenario.jane_email_code
                  Scenario.jane_phone_code)
    by (apply jane_at_attempt_check; [lia | reflexivity | reflexivity]).
  split; [exact Hat|].
  destruct (verification_is_one_shot _ _ _ _ _ _ _ Hat
              ltac:(cbn; lia) ltac:(cbn; lia)
              ltac:(vm_compute; reflexivity) ltac:(vm_compute; reflexivity))
    as (_ & _ & _ & Hagain).
  rewrite (Hagain (Scenario.at_time 3000) "123456" "654321" eq_refl eq_refl).
  reflexivity.
Defined.

Lemma in_map_when {A} (f : A → A) (g : A → bool) (l : list A) x :
  g x = false → (∀ y, g (f y) = g y) →
  In x l ↔ In x (map (fun y => if g y then f y else y) l).
Proof.
  intros Hx Hf. rewrite in_map_iff. split.
  - intros H. exists x. rewrite Hx. tauto.
  - intros (y & Hy & Hin). destruct (g y) eqn:E; [|congruence].
    subst x. rewrite Hf in Hx. congruence.
Qed.

Lemma untouched_refl sid d : untouched_outside sid d d.
Proof. repeat split; tauto. Qed.

Lemma untouched_bump sid d :
  untouched_outside sid d (bump_attempts sid "email" "phone" d).
Proof.
  unfold untouched_outside, bump_attempts, set_codes.
  cbn [public_signatures verification_codes initial_signatories].
  split; [tauto|]. split; [| split; [reflexivity | split; [reflexivity|]]].
  - intros c Hc.
    apply (in_map_when failed_once (is_code_of sid ["email"; "phone"]));
      [| reflexivity].
    unfold is_code_of. apply Z.eqb_neq in Hc. rewrite Hc. reflexivity.
  - rewrite map_map. apply map_ext. intros c.
    destruct (is_code_of _ _ c); reflexivity.
Qed.

Lemma untouched_mark sid ts d :
  untouched_outside sid d
    (mark_signature_verified sid ts (mark_codes_verified sid "email" "phone" ts d)).
Proof.
  unfold untouched_outside, mark_signature_verified, mark_codes_verified,
    set_codes.
  cbn [public_signatures verification_codes initial_signatories].
  split; [| split; [| split; [reflexivity | split]]].
  - intros r Hr.
    apply (in_map_when
             (fun r => SignatureRow (id r) (name r) (email_hash r)
                         (phone_hash r) (position r) (institution r)
                         (address r) (address_id r) (stateElec r) (fedElec r)
                         (latitude r) (longitude r) (sa1 r) (lga r)
                         (postcode r) (state r) true true (Some ts))
             (fun r => id r =? sid)); [| reflexivity].
    apply Z.eqb_neq, Hr.
  - intros c Hc.
    apply (in_map_when
             (fun c => CodeRow (code_id c) (signature_id c) (code_type c)
                         (code_hash c) (expires_at c) (attempts c) (Some ts))
             (is_code_of sid ["email"; "phone"])); [| reflexivity].
    unfold is_code_of. apply Z.eqb_neq in Hc. rewrite Hc. reflexivity.
  - rewrite map_map. apply map_ext. intros r.
    destruct (id r =? sid); reflexivity.
  - rewrite map_map. apply map_ext. intros c.
    destruct (is_code_of _ _ c); reflexivity.
Qed.

(** X9. A verification request for signature [id] adds and removes no
    row, leaves the initial signatories and every row of the other
    signatures as they are, and writes at all only when it answers
    with the invalid-codes error or with success; a request without
    one of the codes is answered 400 and one for an unknown id 404. *)
Theorem verify_touches_own_rows_only
    (p : platform) (id : Z) (emailCode smsCode : string) (d : database) :
  untouched_outside id d (snd (post_verify p id emailCode smsCode d))
  ∧ ((∀ n, fst (post_verify p id emailCode smsCode d) ≠ invalid_codes n) →
     fst (post_verify p id emailCode smsCode d) ≠ verified →
     snd (post_verify p id emailCode smsCode d) = d)
  ∧ (Str.falsy emailCode = true ∨ Str.falsy smsCode = true →
     status (fst (post_verify p id emailCode smsCode d)) = 400)
  ∧ (Str.falsy emailCode = false → Str.falsy smsCode = false →
     select_signature id d = None →
     post_verify p id emailCode smsCode d
     = (json_status (ErrorBody "Signature not found") 404, d)).
Proof.
  split; [| split; [| split]].
  - unfold post_verify.
    repeat match goal with
           | |- context [if ?b then _ else _] => destruct b
           | |- context [match ?x with Some _ => _ | None => _ end] => destruct x
           end; cbn [snd];
      first [apply untouched_refl | apply untouched_bump | apply untouched_mark].
  - unfold post_verify.
    repeat match goal with
           | |- context [if ?b then _ else _] => destruct b
           | |- context [match ?x with Some _ => _ | None => _ end] => destruct x
           end; cbn [fst snd]; intros Hinv Hver; try reflexivity.
    all: first [ exfalso; apply Hver; reflexivity
               | exfalso; eapply Hinv; reflexivity ].
  - unfold post_verify. intros [-> | ->]; [reflexivity|].
    rewrite orb_true_r. reflexivity.
  - intros H1 H2 Hnone. unfold post_verify. rewrite H1, H2, Hnone. reflexivity.
Qed.

Lemma verify_touches_own_rows_only_witness :
  select_signature 7 (db Scenario.jane_signed) = None
  ∧ post_verify (Scenario.at_time 2000) 7 "123456" "654321"
      (db Scenario.jane_signed)
    = (json_status (ErrorBody "Signature not found") 404,
       db Scenario.jane_signed).
Proof.
  assert (H : select_signature 7 (db Scenario.jane_signed) = None)
    by (rewrite jane_signed_db; reflexivity).
  split; [exact H|].
  apply (proj2 (proj2 (proj2 (verify_touches_own_rows_only _ _ _ _ _))));
    [reflexivity | reflexivity | exact H].
Defined.

End VerificationMore.

(** ** The generated codes *)

Section Codes.

Import Decimal.
Import DB Worker Steps Outcome Invariants.

(** The value an accumulator ends with lies in the interval its digits
    leave open. *)
Lemma of_uint_acc_bounds d : ∀ acc,
  Z.pos acc * 10 ^ Z.of_nat (nb_digits d)
  <= Z.pos (Pos.of_uint_acc d acc)
  < (Z.pos acc + 1) * 10 ^ Z.of_nat (nb_digits d).
Proof.
  induction d; intros acc; cbn [Pos.of_uint_acc nb_digits];
    [rewrite Z.pow_0_r; lia | ..];
    rewrite Nat2Z.inj_succ, Z.pow_succ_r by lia;
    match goal with
    | |- _ <= Z.pos (Pos.of_uint_acc _ ?a) < _ =>
        specialize (IHd a); revert IHd
    end;
    rewrite ?Pos2Z.inj_add, Pos2Z.inj_mul;
    generalize (10 ^ Z.of_nat (nb_digits d));
    intros P HP; assert (0 <= P) by nia; nia.
Qed.

Lemma nzhead_no_D0 u l : nzhead u ≠ D0 l.
Proof. induction u; cbn; try discriminate. exact IHu. Qed.

(** A positive number printed without a leading zero has as many digits
    as its size asks. *)
Lemma of_uint_digits d :
  unorm d = d → 0 < Z.of_N (N.of_uint d) →
  10 ^ (Z.of_nat (nb_digits d) - 1) <= Z.of_N (N.of_uint d)
  < 10 ^ Z.of_nat (nb_digits d).
Proof.
  intros Hnorm Hpos. unfold N.of_uint in *.
  destruct d; cbn [Pos.of_uint nb_digits] in *;
    try (rewrite Nat2Z.inj_succ;
         replace (Z.succ (Z.of_nat (nb_digits d)) - 1)
           with (Z.of_nat (nb_digits d)) by lia;
         rewrite Z.pow_succ_r by lia;
         match goal with
         | |- _ <= Z.of_N (N.pos (Pos.of_uint_acc _ ?a)) < _ =>
             pose proof (of_uint_acc_bounds d a) as B; revert B
         end;
         cbn [Z.of_N];
         generalize (10 ^ Z.of_nat (nb_digits d)); intros P B;
         assert (0 <= P) by nia; nia).
  - cbn in Hpos. lia.
  - exfalso. unfold unorm in Hnorm. rewrite DecimalFacts.nzhead_D0 in Hnorm.
    destruct (nzhead d) eqn:E; try (apply (nzhead_no_D0 d d); congruence).
    injection Hnorm as <-. cbn in Hpos. lia.
Qed.

Lemma nb_digits_six n :
  100000 <= Z.of_N n < 1000000 → nb_digits (N.to_uint n) = 6%nat.
Proof.
  intros Hn.
  assert (Hnorm : unorm (N.to_uint n) = N.to_uint n).
  { rewrite <- DecimalN.Unsigned.to_of, DecimalN.Unsigned.of_to. reflexivity. }
  pose proof (of_uint_digits _ Hnorm) as B.
  rewrite DecimalN.Unsigned.of_to in B. specialize (B ltac:(lia)).
  set (k := nb_digits (N.to_uint n)) in *.
  assert (Hlo : ¬ (Z.of_nat k <= 5)).
  { intros Hk. assert (10 ^ Z.of_nat k <= 10 ^ 5)
      by (apply Z.pow_le_mono_r; lia). lia. }
  assert (Hhi : ¬ (7 <= Z.of_nat k)).
  { intros Hk. assert (10 ^ 6 <= 10 ^ (Z.of_nat k - 1))
      by (apply Z.pow_le_mono_r; lia). lia. }
  lia.
Qed.

Lemma string_of_uint_digits d :
  String.length (NilEmpty.string_of_uint d) = nb_digits d
  ∧ forallb Str.is_digit (Str.chars (NilEmpty.string_of_uint d)) = true.
Proof.
  unfold Str.chars.
  induction d; cbn [NilEmpty.string_of_uint nb_digits String.length
                    list_ascii_of_string forallb];
    [split; reflexivity | ..]; destruct IHd as [-> ->]; split; reflexivity.
Qed.

Lemma of_Z_NilEmpty n :
  0 < n → Str.of_Z n = NilEmpty.string_of_uint (N.to_uint (Z.to_N n)).
Proof.
  intros Hn. unfold Str.of_Z, NilZero.string_of_uint.
  destruct (N.to_uint (Z.to_N n)) eqn:E; try reflexivity.
  exfalso. destruct (Z.to_N n) eqn:En; [lia|].
  apply (DecimalPos.Unsigned.to_uint_nonnil p). exact E.
Qed.

(** X10. For every draw from 0 to 899999 the code generated is six
    characters long, all of them decimal digits; and two different
    draws give two different codes. *)
Theorem generated_code_six_digits (draw : Z) :
  0 <= draw < 900000 →
  String.length (generateVerificationCode draw) = 6%nat
  ∧ forallb Str.is_digit (Str.chars (generateVerificationCode draw)) = true
  ∧ ∀ draw', 0 <= draw' < 900000 →
      generateVerificationCode draw' = generateVerificationCode draw →
      draw' = draw.
Proof.
  intros Hd. unfold generateVerificationCode.
  rewrite of_Z_NilEmpty by lia.
  destruct (string_of_uint_digits (N.to_uint (Z.to_N (100000 + draw))))
    as [Hlen Hdig].
  rewrite Hlen, Hdig. split; [| split; [reflexivity|]].
  - apply nb_digits_six. rewrite Z2N.id; lia.
  - intros draw' Hd' Heq. rewrite of_Z_NilEmpty in Heq by lia.
    assert (Hu : Some (N.to_uint (Z.to_N (100000 + draw')))
                 = Some (N.to_uint (Z.to_N (100000 + draw))))
      by (rewrite <- !NilEmpty.usu, Heq; reflexivity).
    injection Hu as Hu. apply DecimalN.Unsigned.to_uint_inj in Hu.
    apply Z2N.inj in Hu; lia.
Qed.

Lemma generated_code_six_digits_witness :
  0 <= 0 < 900000 ∧ String.length (generateVerificationCode 0) = 6%nat.
Proof.
  assert (H : 0 <= 0 < 900000) by lia.
  split; [exact H | exact (proj1 (generated_code_six_digits 0 H))].
Defined.

(** X11. The SMS of a submission goes to a number in E.164 form: for a
    mobile that passed the validation, [sendSmsVerification] hands the
    gateway "+614" followed by the eight last digits; a number that
    does not start with "04" is handed over as it is. *)
Theorem sms_goes_to_e164 (p : platform) (mobile code : string) :
  (mobile_valid (Str.strip_non_digits mobile) = true →
   ∃ rest,
     Str.strip_non_digits mobile = "04" +:+ rest
     ∧ String.length rest = 8%nat
     ∧ forallb Str.is_digit (Str.chars rest) = true
     ∧ sendSmsVerification p (Str.strip_non_digits mobile) code
       = send "SNS" (sns p ("+614" +:+ rest) code))
  ∧ (Str.startsWith mobile "04" = false →
     sendSmsVerification p mobile code = send "SNS" (sns p mobile code)).
Proof.
  split.
  - intros Hvalid. pose proof (strip_non_digits_digits mobile) as Hdig.
    apply (mobile_valid_shape _ Hdig) in Hvalid as (rest & Heq & Hlen).
    exists rest. rewrite Heq in *. split; [reflexivity|].
    split; [exact Hlen|]. split.
    + change (Str.chars ("04" +:+ rest))
        with ("0"%char :: "4"%char :: Str.chars rest) in Hdig.
      cbn [forallb] in Hdig. apply andb_true_iff in Hdig as [_ Hdig].
      apply andb_true_iff in Hdig as [_ Hdig]. exact Hdig.
    + unfold sendSmsVerification.
      change ("04" +:+ rest) with (String "0" (String "4" rest)).
      destruct rest; reflexivity.
  - intros Hno. unfold sendSmsVerification. rewrite Hno. reflexivity.
Qed.

Lemma sms_goes_to_e164_witness :
  mobile_valid (Str.strip_non_digits "0412 345 678") = true
  ∧ sendSmsVerification Scenario.sns_down
      (Str.strip_non_digits "0412 345 678") "123456"
    = send "SNS" (sns Scenario.sns_down "+61412345678" "123456").
Proof.
  assert (H : mobile_valid (Str.strip_non_digits "0412 345 678") = true)
    by reflexivity.
  split; [exact H|].
  destruct (proj1 (sms_goes_to_e164 Scenario.sns_down "0412 345 678" "123456") H)
    as (rest & Heq & _ & _ & Hsend).
  vm_compute in Heq. injection Heq as <-. exact Hsend.
Defined.

End Codes.

(** ** The key a limiter object reads from its URL *)

Section LimiterKey.

Import URL.

Lemma chars_append a b : Str.chars (a +:+ b) = Str.chars a ++ Str.chars b.
Proof.
  unfold Str.chars. induction a as [|c a IH]; [reflexivity|].
  change (String c a +:+ b) with (String c (a +:+ b)).
  cbn [list_ascii_of_string app]. rewrite IH. reflexivity.
Qed.

Lemma strip_trailing_cons c l :
  c0_or_space c = false → strip_trailing (c :: l) = c :: strip_trailing l.
Proof.
  intros H. cbn [strip_trailing].
  destruct (strip_trailing l); [rewrite H|]; reflexivity.
Qed.

Lemma strip_trailing_app pre l :
  forallb (fun c => negb (c0_or_space c)) pre = true →
  strip_trailing (pre ++ l) = pre ++ strip_trailing l.
Proof.
  induction pre as [|c pre IH]; [reflexivity|]. cbn [forallb app].
  intros [Hc Hpre]%andb_true_iff. apply negb_true_iff in Hc.
  rewrite strip_trailing_cons, IH by assumption. reflexivity.
Qed.

Lemma until_app stop pre l :
  forallb (fun c => negb (Ascii.eqb c stop)) pre = true →
  until stop (pre ++ l) = pre ++ until stop l.
Proof.
  induction pre as [|c pre IH]; [reflexivity|]. cbn [forallb app until].
  intros [Hc Hpre]%andb_true_iff. apply negb_true_iff in Hc.
  rewrite Hc, IH by assumption. reflexivity.
Qed.

Lemma after_app stop pre l :
  existsb (fun c => Ascii.eqb c stop) pre = true →
  after stop (pre ++ l) = after stop pre ++ l.
Proof.
  induction pre as [|c pre IH]; cbn [existsb app after]; [discriminate|].
  destruct (Ascii.eqb c stop); [reflexivity | exact IH].
Qed.

Lemma split_on_head sep l : ∃ rest, split_on sep l = until sep l :: rest.
Proof.
  induction l as [|c l [rest IH]]; cbn [split_on until]; [eauto|].
  destruct (Ascii.eqb c sep); [eauto|]. rewrite IH. eauto.
Qed.

(** The first parameter of the query is the one looked for. *)
Lemma get_key_first value :
  get "key" (Str.chars "key=" ++ value) = Some (component (until "&" value)).
Proof.
  unfold get, searchParams.
  destruct (split_on_head "&" (Str.chars "key=" ++ value)) as [rest ->].
  rewrite until_app by reflexivity. reflexivity.
Qed.

(** The key the object reads, for [http://internal/?key=] and [v]. *)
Lemma key_param_read v :
  RateLimiter.key_param v
  = Some (component
            (until "&"
               (percent_encode
                  (until "#"
                     (List.filter (fun c => negb (tab_or_newline c))
                        (strip_trailing (Str.chars v))))))).
Proof.
  unfold RateLimiter.key_param, query. rewrite chars_append.
  change (strip_leading (Str.chars "http://internal/?key=" ++ Str.chars v))
    with (Str.chars "http://internal/?key=" ++ Str.chars v).
  rewrite strip_trailing_app by reflexivity.
  rewrite List.filter_app.
  change (List.filter (fun c => negb (tab_or_newline c))
            (Str.chars "http://internal/?key="))
    with (Str.chars "http://internal/?key=").
  rewrite after_app by reflexivity.
  change (after "?" (Str.chars "http://internal/?key=")) with (Str.chars "key=").
  rewrite until_app by reflexivity.
  unfold percent_encode at 1. rewrite flat_map_app.
  apply get_key_first.
Qed.

Lemma percent_decode_nonempty c l : percent_decode (c :: l) ≠ [].
Proof.
  cbn [percent_decode]. destruct (Ascii.eqb c "%"); [| discriminate].
  destruct l as [|h [|l' r]]; try discriminate.
  destruct (hex_value h), (hex_value l'); discriminate.
Qed.

(** A piece of the query decodes to the empty string only when it is
    empty. *)
Lemma component_empty bytes : component bytes = "" ↔ bytes = [].
Proof.
  split; [| intros ->; reflexivity].
  destruct bytes as [|c l]; [reflexivity|]. unfold component. cbn [map].
  destruct (percent_decode _) as [|d r] eqn:E;
    [apply percent_decode_nonempty in E; destruct E|].
  unfold Str.points, Str.of_chars, Str.chars.
  rewrite list_ascii_of_string_of_list_ascii. cbn [map].
  destruct (Str.decode None _) as [|x xs] eqn:Ex;
    [apply decode_nonempty in Ex; destruct Ex|].
  intros H. apply of_points_nonempty in H. destruct H.
Qed.

(** The key of a login is never empty: it starts as the name of the
    object does. *)
Lemma login_key_read h :
  ∃ k, RateLimiter.key_param (Admin.login_key h) = Some k ∧ k ≠ "".
Proof.
  eexists. split; [apply key_param_read|].
  intros H. apply component_empty in H. revert H.
  unfold Admin.login_key. rewrite chars_append.
  change (Str.chars "admin-login-")
    with ("a"%char :: Str.chars "dmin-login-").
  cbn [app]. rewrite strip_trailing_cons by reflexivity.
  cbn [List.filter]. change (negb (tab_or_newline "a")) with true. cbv iota.
  cbn [until]. change (Ascii.eqb "a" "#") with false. cbv iota.
  cbn [percent_encode flat_map]. change (in_query_set "a") with false.
  cbv iota. cbn [app until]. change (Ascii.eqb "a" "&") with false.
  cbv iota. discriminate.
Qed.

End LimiterKey.

(** ** Submissions and the limiter *)

Section SubmissionLimiter.

Import DB Worker Steps Outcome Invariants.

Arguments hashString : simpl never.
Arguments hashCode : simpl never.

(** Whatever the answer, the limiter has counted the request. *)
Lemma limiters_after_submission p req w :
  limiters (snd (post_signatures p req w)) = limiters_after p req w.
Proof.
  rewrite post_signatures_steps.
  destruct (limiter_verdict _) as [[|]|]; try reflexivity.
  destruct (negb (required_present req)); [reflexivity|].
  destruct (negb (email_well_formed req)); [reflexivity|].
  destruct (negb (mobile_valid _)); [reflexivity|].
  destruct (select_by_hash _ _ _); [reflexivity|].
  destruct (dispatch p req); reflexivity.
Qed.

Lemma limiters_after_request p body req w :
  is_json body = true →
  limiters (snd (post_signatures_request p body req w))
  = limiters_after p req w.
Proof.
  destruct body; [discriminate | | intros _; apply limiters_after_submission].
  intros _. unfold post_signatures_request, limiters_after.
  destruct (RateLimiter.fetch _ _ _) as [r o].
  destruct (limiter_verdict r) as [[|]|]; reflexivity.
Qed.

(** The object of a client sees the requests of that client whose body
    is JSON, one request each, in order, under the key it reads from
    the URL. *)
Lemma object_after_submissions ip k l : ∀ w,
  RateLimiter.key_param ip = Some k →
  Forall (fun q => client_ip (snd q) = ip) l →
  Forall (fun q => is_json (snd (fst q)) = true) l →
  default ∅ (limiters (submit_all l w) !! ip)
  = snd (RateLimiter.serve (map (fun q => (k, date_now (fst (fst q)))) l)
           (default ∅ (limiters w !! ip))).
Proof.
  induction l as [|[[p body] req] l IH]; intros w Hk Hall Hjson; [reflexivity|].
  apply Forall_cons in Hall as [Hip Hall]. cbn [fst snd] in Hip.
  apply Forall_cons in Hjson as [Hbody Hjson]. cbn [fst snd] in Hbody.
  unfold submit_all in *. cbn [fold_left map fst snd RateLimiter.serve].
  rewrite (IH _ Hk Hall Hjson), (limiters_after_request _ _ _ _ Hbody).
  unfold limiters_after. rewrite Hip, Hk, lookup_insert_eq.
  change (default ∅ (Some ?x)) with x.
  destruct (RateLimiter.fetch (Some k) (date_now p) _) as [r o].
  cbn [snd]. destruct (RateLimiter.serve _ o). reflexivity.
Qed.

(** A request is answered by what the limiter says, unless the limiter
    lets it through. *)
Lemma request_stopped_by_limiter p body req w :
  is_json body = true →
  limiter_verdict
    (fst (RateLimiter.fetch (RateLimiter.key_param (client_ip req))
            (date_now p) (default ∅ (limiters w !! client_ip req))))
  ≠ Some true →
  fst (post_signatures_request p body req w)
  = match limiter_verdict
            (fst (RateLimiter.fetch (RateLimiter.key_param (client_ip req))
                    (date_now p) (default ∅ (limiters w !! client_ip req))))
    with
    | Some false => rate_limited
    | _ => internal_error
    end
  ∧ db (snd (post_signatures_request p body req w)) = db w.
Proof.
  intros Hbody Hstop. destruct body; [discriminate | |].
  - unfold post_signatures_request.
    destruct (RateLimiter.fetch _ _ _) as [r o]. cbn [fst] in *.
    destruct (limiter_verdict r) as [[|]|]; [congruence | |];
      split; reflexivity.
  - unfold post_signatures_request. rewrite post_signatures_steps.
    destruct (limiter_verdict _) as [[|]|]; [congruence | |];
      split; reflexivity.
Qed.

(** X12. Every submission whose body is JSON counts against the limit,
    whatever it holds and however it is answered, when the key that the
    limiter reads from its URL is not empty: after five such
    submissions of one client within a minute, a sixth one within that
    minute is answered 429 and leaves the tables alone (the object of
    the client is taken without a window under that key at the
    start). When the address of the client leaves the limiter with an
    empty key, every submission from it is answered 500 and leaves the
    tables alone. A submission whose body is not JSON is answered 500
    without the limiter being asked: it changes nothing at all, and
    such submissions among the others make no difference. *)
Theorem sixth_submission_rate_limited
    (w : world) (ip : string)
    (q1 q2 q3 q4 q5 q6 : platform * parsed * submission) :
  Forall (fun q => client_ip (snd q) = ip) [q1; q2; q3; q4; q5; q6] →
  Forall (fun q => is_json (snd (fst q)) = true) [q1; q2; q3; q4; q5; q6] →
  Forall (fun q => date_now (fst (fst q)) <= date_now (fst (fst q1)) + 60000)
    [q2; q3; q4; q5; q6] →
  let w5 := submit_all [q1; q2; q3; q4; q5] w in
  let sixth :=
    post_signatures_request (fst (fst q6)) (snd (fst q6)) (snd q6) w5 in
  (∀ k, RateLimiter.key_param ip = Some k → k ≠ "" →
        default ∅ (limiters w !! ip) !! k = None →
        fst sixth = rate_limited ∧ db (snd sixth) = db w5)
  ∧ (RateLimiter.key_param ip = Some "" →
     ∀ p body req w0, client_ip req = ip →
       fst (post_signatures_request p body req w0) = internal_error
       ∧ db (snd (post_signatures_request p body req w0)) = db w0)
  ∧ (∀ p req w0,
       post_signatures_request p NotJson req w0 = (internal_error, w0))
  ∧ (∀ l w0,
       submit_all l w0
       = submit_all (List.filter (fun q => is_json (snd (fst q))) l) w0).
Proof.
  intros Hip Hjson Hnow w5 sixth. split; [| split; [| split]].
  - intros k Hk Hkey Hfresh.
    assert (Hip5 : Forall (fun q => client_ip (snd q) = ip)
                     [q1; q2; q3; q4; q5]).
    { repeat (apply Forall_cons in Hip as [? Hip]).
      repeat constructor; assumption. }
    assert (Hip6 : client_ip (snd q6) = ip).
    { repeat (apply Forall_cons in Hip as [? Hip]). assumption. }
    assert (Hjson5 : Forall (fun q => is_json (snd (fst q)) = true)
                       [q1; q2; q3; q4; q5]).
    { repeat (apply Forall_cons in Hjson as [? Hjson]).
      repeat constructor; assumption. }
    assert (Hjson6 : is_json (snd (fst q6)) = true).
    { repeat (apply Forall_cons in Hjson as [? Hjson]). assumption. }
    pose proof (object_after_submissions ip k _ w Hk Hip5 Hjson5) as Hobj.
    fold w5 in Hobj. cbn [map] in Hobj.
    apply Forall_cons in Hnow as [H2 Hnow].
    apply Forall_cons in Hnow as [H3 Hnow].
    apply Forall_cons in Hnow as [H4 Hnow].
    apply Forall_cons in Hnow as [H5 Hnow].
    apply Forall_cons in Hnow as [H6 _].
    destruct (five_fill_window k Hkey (default ∅ (limiters w !! ip))
                (date_now (fst (fst q1))) (date_now (fst (fst q2)))
                (date_now (fst (fst q3))) (date_now (fst (fst q4)))
                (date_now (fst (fst q5))) []
                (or_introl Hfresh) H2 H3 H4 H5) as [_ Hfive].
    rewrite Hfive in Hobj. cbn [RateLimiter.serve snd] in Hobj.
    assert (Hfull :
              RateLimiter.fetch (RateLimiter.key_param (client_ip (snd q6)))
                (date_now (fst (fst q6)))
                (default ∅ (limiters w5 !! client_ip (snd q6)))
              = (RateLimiter.Response 429 (RateLimiter.Json false 0),
                 <[k := RateLimiter.Window 5
                          (date_now (fst (fst q1)) + 60000)]>
                   (default ∅ (limiters w !! ip)))).
    { rewrite Hip6, Hk, Hobj.
      apply (fetch_full k Hkey _ _
               (RateLimiter.Window 5 (date_now (fst (fst q1)) + 60000)));
        [apply lookup_insert_eq | exact H6 | cbn; lia]. }
    subst sixth.
    destruct (request_stopped_by_limiter (fst (fst q6)) (snd (fst q6))
                (snd q6) w5 Hjson6) as [Hans Hdb].
    { rewrite Hfull. discriminate. }
    rewrite Hfull in Hans. split; assumption.
  - intros Hk p body req w0 Hreq.
    assert (Hv : limiter_verdict
                   (fst (RateLimiter.fetch
                           (RateLimiter.key_param (client_ip req))
                           (date_now p)
                           (default ∅ (limiters w0 !! client_ip req))))
                 = None)
      by (rewrite Hreq, Hk; reflexivity).
    destruct body eqn:Hbody; [split; reflexivity | |];
      (destruct (request_stopped_by_limiter p body req w0) as [Hans Hdb];
       [subst body; reflexivity | rewrite Hv; discriminate |];
       rewrite Hv in Hans; subst body; split; assumption).
  - reflexivity.
  - intros l. unfold submit_all.
    induction l as [|[[p body] req] l IH]; intros w0; [reflexivity|].
    cbn [List.filter fold_left fst snd].
    destruct body; cbn [is_json fold_left fst snd]; apply IH.
Qed.

(** Five submissions with nothing in them, then a proper one, from an
    ordinary address; and a proper one from the address "#". *)
Lemma sixth_submission_rate_limited_witness :
  RateLimiter.key_param "203.0.113.7" = Some "203.0.113.7"
  ∧ fst (post_signatures_request (Scenario.at_time 6000) JsonValue
           (Scenario.jane "Jane@Example.com" "0412345678")
           (submit_all
              (map (fun t => (Scenario.at_time t, JsonValue, Scenario.jane "" ""))
                 [1000; 2000; 3000; 4000; 5000])
              Scenario.start))
    = rate_limited
  ∧ RateLimiter.key_param "#" = Some ""
  ∧ fst (post_signatures_request (Scenario.at_time 1000) JsonValue
           (Submission (Some "#") "Jane Doe" "Jane@Example.com" "0412345678"
              "" "" "" "" "" "" "" "" "" "" "" "")
           Scenario.start)
    = internal_error.
Proof.
  assert (Hk : RateLimiter.key_param "203.0.113.7" = Some "203.0.113.7")
    by (vm_compute; reflexivity).
  assert (Hempty : RateLimiter.key_param "#" = Some "")
    by (vm_compute; reflexivity).
  split; [exact Hk|]. split; [| split; [exact Hempty|]].
  - refine (proj1 (proj1 (sixth_submission_rate_limited Scenario.start
                             "203.0.113.7"
                             (Scenario.at_time 1000, JsonValue, Scenario.jane "" "")
                             (Scenario.at_time 2000, JsonValue, Scenario.jane "" "")
                             (Scenario.at_time 3000, JsonValue, Scenario.jane "" "")
                             (Scenario.at_time 4000, JsonValue, Scenario.jane "" "")
                             (Scenario.at_time 5000, JsonValue, Scenario.jane "" "")
                             (Scenario.at_time 6000, JsonValue,
                              Scenario.jane "Jane@Example.com" "0412345678")
                             _ _ _)
                          "203.0.113.7" Hk _ _));
      first [ discriminate | reflexivity
            | repeat constructor; first [reflexivity | cbn; lia] ].
  - refine (proj1 (proj1 (proj2 (sixth_submission_rate_limited Scenario.start
                                   "#"
                                   (Scenario.at_time 1000, JsonValue,
                                    Submission (Some "#") "" "" "" "" "" ""
                                      "" "" "" "" "" "" "" "" "")
                                   (Scenario.at_time 1000, JsonValue,
                                    Submission (Some "#") "" "" "" "" "" ""
                                      "" "" "" "" "" "" "" "" "")
                                   (Scenario.at_time 1000, JsonValue,
                                    Submission (Some "#") "" "" "" "" "" ""
                                      "" "" "" "" "" "" "" "" "")
                                   (Scenario.at_time 1000, JsonValue,
                                    Submission (Some "#") "" "" "" "" "" ""
                                      "" "" "" "" "" "" "" "" "")
                                   (Scenario.at_time 1000, JsonValue,
                                    Submission (Some "#") "" "" "" "" "" ""
                                      "" "" "" "" "" "" "" "" "")
                                   (Scenario.at_time 1000, JsonValue,
                                    Submission (Some "#") "" "" "" "" "" ""
                                      "" "" "" "" "" "" "" "" "")
                                   _ _ _))
                          Hempty _ _ _ _ _));
      first [ reflexivity
            | repeat constructor; first [reflexivity | cbn; lia] ].
Defined.

End SubmissionLimiter.

(** ** The public lists and the availability check *)

Section Ordering.

Import Routes Sorted.

Context {A : Type} (leb : A → A → bool).
Hypothesis leb_total : ∀ a b, leb a b = true ∨ leb b a = true.

Lemma insert_by_perm x l : Permutation (insert_by leb x l) (x :: l).
Proof.
  induction l as [|y l IH]; cbn [insert_by]; [reflexivity|].
  destruct (leb x y); [reflexivity|].
  rewrite IH. apply perm_swap.
Qed.

Lemma order_by_perm l : Permutation (order_by leb l) l.
Proof.
  unfold order_by. induction l as [|x l IH]; cbn [fold_right]; [reflexivity|].
  rewrite insert_by_perm. apply perm_skip, IH.
Qed.

Lemma insert_by_sorted x l :
  Sorted (fun a b => leb a b = true) l →
  Sorted (fun a b => leb a b = true) (insert_by leb x l).
Proof using leb_total.
  induction l as [|y l IH]; intros Hl; cbn [insert_by].
  - repeat constructor.
  - destruct (leb x y) eqn:E.
    + constructor; [exact Hl | constructor; exact E].
    + apply Sorted_inv in Hl as [Hl Hy]. constructor; [apply IH, Hl|].
      destruct (leb_total x y) as [H|H]; [congruence|].
      destruct l as [|z l]; cbn [insert_by]; [constructor; exact H|].
      destruct (leb x z); constructor; [exact H|].
      apply HdRel_inv in Hy. exact Hy.
Qed.

Lemma order_by_sorted l : Sorted (fun a b => leb a b = true) (order_by leb l).
Proof using leb_total.
  unfold order_by. induction l as [|x l IH]; cbn [fold_right].
  - constructor.
  - apply insert_by_sorted, IH.
Qed.

End Ordering.

Section PublicLists.

Import DB Worker Steps Outcome Invariants Sorted.

Arguments hashString : simpl never.
Arguments hashCode : simpl never.

Lemma later_first_total a b :
  Routes.later_first a b = true ∨ Routes.later_first b a = true.
Proof. unfold Routes.later_first. rewrite !Z.leb_le. lia. Qed.

Lemma by_display_order_total a b :
  Routes.by_display_order a b = true ∨ Routes.by_display_order b a = true.
Proof.
  unfold Routes.by_display_order.
  destruct (Z.lt_trichotomy (display_order a) (display_order b)) as [H|[H|H]].
  - left. apply orb_true_iff. left. apply Z.ltb_lt, H.
  - destruct (String.leb_total (last_name a) (last_name b)) as [L|L];
      [left | right]; apply orb_true_iff; right; rewrite L, andb_true_r;
      apply Z.eqb_eq; congruence.
  - right. apply orb_true_iff. left. apply Z.ltb_lt, H.
Qed.

Lemma in_omap_listing e rows :
  In e (omap Routes.listing_of rows) ↔
  ∃ r, In r rows ∧ Routes.listing_of r = Some e.
Proof.
  rewrite <- list_elem_of_In, list_elem_of_omap.
  split; intros (r & Hr & He); exists r; split; try exact He;
    apply list_elem_of_In, Hr.
Qed.

(** X13. [GET /api/signatures] lists the signatures that have both
    flags set and a time of completion, each once and with its id,
    name, position, institution and that time, the latest first; a
    signature with a flag not set is not listed. *)
Theorem get_signatures_lists_verified (d : database) :
  ∃ results,
    Routes.get_signatures d = Routes.Response 200 (Routes.Signatures results)
    ∧ Permutation results (omap Routes.listing_of (public_signatures d))
    ∧ Sorted (fun a b => Routes.created_at b <= Routes.created_at a) results
    ∧ (∀ e, In e results ↔
            ∃ r, In r (public_signatures d)
                 ∧ email_verified r = true ∧ phone_verified r = true
                 ∧ verification_completed_at r = Some (Routes.created_at e)
                 ∧ e = Routes.Listing (id r) (name r) (position r)
                         (institution r) (Routes.created_at e)).
Proof.
  eexists. split; [reflexivity|].
  pose proof (order_by_perm Routes.later_first
                (omap Routes.listing_of (public_signatures d))) as Hperm.
  split; [exact Hperm|]. split.
  - pose proof (order_by_sorted Routes.later_first later_first_total
                  (omap Routes.listing_of (public_signatures d))) as Hs.
    eapply Sorted_ind with (P := fun l => Sorted _ l); [| | exact Hs].
    + constructor.
    + intros a l _ IH Hhd. constructor; [exact IH|].
      destruct Hhd as [|b l Hab]; constructor.
      apply Z.leb_le, Hab.
  - intros e.
    assert (Hin : In e (Routes.order_by Routes.later_first
                          (omap Routes.listing_of (public_signatures d)))
                  ↔ In e (omap Routes.listing_of (public_signatures d))).
    { split; apply Permutation_in; [| symmetry]; exact Hperm. }
    rewrite Hin, in_omap_listing. split.
    + intros (r & Hr & He). exists r. unfold Routes.listing_of in He.
      destruct (verification_completed_at r) as [t|]; [|discriminate].
      destruct (email_verified r); [|discriminate].
      destruct (phone_verified r); [|discriminate].
      injection He as <-. repeat split; try reflexivity. exact Hr.
    + intros (r & Hr & H1 & H2 & H3 & He). exists r. split; [exact Hr|].
      unfold Routes.listing_of. rewrite H3, H1, H2. cbn. congruence.
Qed.

Lemma listed_length rows :
  (∀ r, In r rows →
        phone_verified r = email_verified r
        ∧ is_set (verification_completed_at r) = email_verified r) →
  List.length (omap Routes.listing_of rows)
  = List.length (List.filter both_verified rows).
Proof.
  induction rows as [|r rows IH]; intros H; [reflexivity|].
  cbn [omap list_omap List.filter]. destruct (H r (or_introl eq_refl)) as [Hp Hc].
  unfold Routes.listing_of at 1. unfold both_verified at 1. rewrite Hp.
  destruct (verification_completed_at r), (email_verified r);
    cbn in Hc |- *; try discriminate;
    rewrite IH by (intros r' Hr'; apply H; cbn; tauto); reflexivity.
Qed.

Lemma flags_staged p req d :
  flags_consistent d → flags_consistent (snd (staged p req d)).
Proof.
  intros Hd r Hr. destruct (staged_explicit p req d) as (i1 & i2 & Heq).
  rewrite Heq in Hr. cbn [public_signatures] in Hr.
  apply in_app_iff in Hr as [Hr | [<- | []]]; [apply Hd, Hr|].
  split; reflexivity.
Qed.

Lemma flags_delete sid d :
  flags_consistent d → flags_consistent (delete_signature sid d).
Proof.
  intros Hd r Hr. unfold delete_signature in Hr. cbn [public_signatures] in Hr.
  apply List.filter_In in Hr as [Hr _]. apply Hd, Hr.
Qed.

Lemma flags_mark sid ts d :
  flags_consistent d →
  flags_consistent
    (mark_signature_verified sid ts (mark_codes_verified sid "email" "phone" ts d)).
Proof.
  intros Hd r Hr. unfold mark_signature_verified, mark_codes_verified, set_codes in Hr.
  cbn [public_signatures] in Hr. apply in_map_iff in Hr as (r0 & <- & Hr0).
  destruct (id r0 =? sid); [split; reflexivity | apply Hd, Hr0].
Qed.

(** X14. The count is the number of signatures listed plus the number
    of initial signatories shown, as long as the flags of each
    signature go together and with its time of completion; and that
    holds of every state the submissions and verifications lead to,
    since both keep it. *)
Theorem count_is_what_is_listed (d : database) :
  flags_consistent d →
  (∃ listed shown,
     Routes.get_signatures d
     = Routes.Response 200 (Routes.Signatures listed)
     ∧ Routes.get_initial_signatories d
       = Routes.Response 200 (Routes.Signatories shown)
     ∧ get_count d
       = Response 200
           (CountBody (Z.of_nat (List.length listed)
                       + Z.of_nat (List.length shown))))
  ∧ (∀ p req ls,
       flags_consistent (db (snd (post_signatures p req (World d ls)))))
  ∧ (∀ p sid emailCode smsCode,
       flags_consistent (snd (post_verify p sid emailCode smsCode d))).
Proof.
  intros Hd. split; [| split].
  - do 2 eexists. split; [reflexivity|]. split; [reflexivity|].
    unfold get_count, count_verified, count_initial, json.
    rewrite length_map.
    rewrite (Permutation_length (order_by_perm Routes.by_display_order _)).
    rewrite (Permutation_length (order_by_perm Routes.later_first _)).
    rewrite (listed_length _ Hd). reflexivity.
  - intros p req ls. rewrite post_signatures_steps. cbn [db].
    destruct (limiter_verdict _) as [[|]|]; try exact Hd.
    destruct (negb (required_present req)); [exact Hd|].
    destruct (negb (email_well_formed req)); [exact Hd|].
    destruct (negb (mobile_valid _)); [exact Hd|].
    destruct (select_by_hash _ _ _); [exact Hd|].
    destruct (dispatch p req); cbn [snd db].
    + apply flags_delete, flags_staged, Hd.
    + apply flags_staged, Hd.
  - intros p sid emailCode smsCode. unfold post_verify.
    repeat match goal with
           | |- context [if ?b then _ else _] => destruct b
           | |- context [match ?x with Some _ => _ | None => _ end] => destruct x
           end; cbn [snd];
      first [exact Hd | apply flags_mark, Hd].
Qed.

(** Jane, verified, is the one signature listed and counted. *)
Lemma count_is_what_is_listed_witness :
  flags_consistent
    (snd (post_verify (Scenario.at_time 2000) 1 "123456" "654321"
            (db Scenario.jane_signed)))
  ∧ get_count
      (snd (post_verify (Scenario.at_time 2000) 1 "123456" "654321"
              (db Scenario.jane_signed)))
    = Response 200 (CountBody 1).
Proof.
  assert (H0 : flags_consistent (db Scenario.jane_signed)).
  { rewrite jane_signed_db. intros r [<- | []]. split; reflexivity. }
  pose proof (proj2 (proj2 (count_is_what_is_listed _ H0))
                (Scenario.at_time 2000) 1 "123456" "654321") as H.
  split; [exact H|].
  destruct (proj1 (count_is_what_is_listed _ H))
    as (listed & shown & Hl & Hs & ->).
  vm_compute in Hl, Hs. injection Hl as <-. injection Hs as <-. reflexivity.
Defined.

(** X15. [GET /api/initial-signatories] shows every initial signatory
    once, by increasing display order and, at equal display order, by
    last name in the order of the bytes. *)
Theorem get_initial_signatories_ordered (d : database) :
  ∃ rows,
    Routes.get_initial_signatories d
    = Routes.Response 200 (Routes.Signatories (map Routes.signatory_of rows))
    ∧ Permutation rows (initial_signatories d)
    ∧ Sorted
        (fun a b =>
           display_order a < display_order b
           ∨ (display_order a = display_order b
              ∧ String.leb (last_name a) (last_name b) = true))
        rows.
Proof.
  eexists. split; [reflexivity|]. split; [apply order_by_perm|].
  pose proof (order_by_sorted Routes.by_display_order by_display_order_total
                (initial_signatories d)) as Hs.
  eapply Sorted_ind with (P := fun l => Sorted _ l); [| | exact Hs].
  - constructor.
  - intros a l _ IH Hhd. constructor; [exact IH|].
    destruct Hhd as [|b l Hab]; constructor.
    unfold Routes.by_display_order in Hab.
    apply orb_true_iff in Hab as [H|H].
    + left. apply Z.ltb_lt, H.
    + right. apply andb_true_iff in H as [H1 H2].
      split; [apply Z.eqb_eq, H1 | exact H2].
Qed.

(** X16. The availability check against the submission: when it
    reports the email or the mobile as existing, a submission with
    them is a duplicate; but it looks at verified signatures only, so
    that with nothing but pending signatures in the table it reports
    everything as available, whatever they hold. A request with
    neither an email nor a mobile is answered 400. *)
Theorem check_agrees_with_submission (req : submission) (d : database) :
  Str.falsy (s_email req) = false ∨ Str.falsy (s_mobile req) = false →
  ∃ emailExists mobileExists,
    Routes.post_check (s_email req) (s_mobile req) d
    = Routes.Response 200
        (Routes.Availability emailExists mobileExists
           (negb emailExists && negb mobileExists))
    ∧ (emailExists = true ∨ mobileExists = true → identity_taken req d)
    ∧ ((∀ r, In r (public_signatures d) →
             email_verified r = false ∧ phone_verified r = false) →
       emailExists = false ∧ mobileExists = false)
    ∧ Routes.post_check "" "" d
      = Routes.Response 400 (Routes.Error "Email or mobile number required").
Proof.
  intros Hgiven. unfold Routes.post_check.
  replace (Str.falsy (s_email req) && Str.falsy (s_mobile req)) with false
    by (destruct Hgiven as [-> | ->]; rewrite ?andb_false_r; reflexivity).
  do 2 eexists. split; [reflexivity|]. split; [| split; [| reflexivity]].
  - intros [H|H].
    + destruct (Str.falsy (s_email req)); [discriminate|].
      destruct (List.find _ _) as [r|] eqn:E; [|discriminate].
      apply List.find_some in E as [Hr E]. apply andb_true_iff in E as [E _].
      apply String.eqb_eq in E. exists r. split; [exact Hr | left; exact E].
    + destruct (Str.falsy (s_mobile req)); [discriminate|].
      destruct (List.find _ _) as [r|] eqn:E; [|discriminate].
      apply List.find_some in E as [Hr E]. apply andb_true_iff in E as [E _].
      apply String.eqb_eq in E. exists r. split; [exact Hr | right; exact E].
  - intros Hpending. split.
    + destruct (Str.falsy (s_email req)); [reflexivity|].
      destruct (List.find _ _) as [r|] eqn:E; [|reflexivity].
      apply List.find_some in E as [Hr E]. apply andb_true_iff in E as [_ E].
      destruct (Hpending r Hr). congruence.
    + destruct (Str.falsy (s_mobile req)); [reflexivity|].
      destruct (List.find _ _) as [r|] eqn:E; [|reflexivity].
      apply List.find_some in E as [Hr E]. apply andb_true_iff in E as [_ E].
      destruct (Hpending r Hr). congruence.
Qed.

(** Jane's signature is pending: the check reports her email as
    available, the submission refuses it as a duplicate. *)
Lemma check_agrees_with_submission_witness :
  Str.falsy (s_email (Scenario.jane "Jane@Example.com" "0412345678")) = false
  ∧ Routes.post_check "Jane@Example.com" "0412345678" (db Scenario.jane_signed)
    = Routes.Response 200 (Routes.Availability false false true)
  ∧ fst (post_signatures (Scenario.at_time 2000)
           (Scenario.jane "Jane@Example.com" "0412345678") Scenario.jane_signed)
    = duplicate_identity.
Proof.
  split; [reflexivity|]. split; [| vm_compute; reflexivity].
  destruct (check_agrees_with_submission
              (Scenario.jane "Jane@Example.com" "0412345678")
              (db Scenario.jane_signed) (or_introl eq_refl))
    as (e & m & Hcheck & _ & Hpending & _).
  destruct Hpending as [-> ->].
  { rewrite jane_signed_db. intros r [<- | []]. split; reflexivity. }
  exact Hcheck.
Defined.

End PublicLists.

(** ** Authentication of the admin *)

Section Authentication.

Import DB Worker Auth Admin Invariants.

Lemma append_cons a s t : String a s +:+ t = String a (s +:+ t).
Proof. reflexivity. Qed.

Lemma startsWith_prefix p : ∀ s,
  Str.startsWith s p = true ↔ ∃ t, s = p +:+ t.
Proof.
  induction p as [|a p IH]; intros s.
  - split; [intros _; exists s; reflexivity | intros _; destruct s; reflexivity].
  - destruct s as [|b s]; cbn [Str.startsWith].
    + split; [discriminate | intros (t & Ht); discriminate Ht].
    + rewrite andb_true_iff, Ascii.eqb_eq, IH. split.
      * intros (-> & t & ->). exists t. reflexivity.
      * intros (t & Ht). rewrite append_cons in Ht. injection Ht as -> ->.
        split; [reflexivity | eauto].
Qed.

Lemma substring_from_prefix p t :
  substring_from (String.length p) (p +:+ t) = t.
Proof.
  induction p as [|a p IH]; [destruct t; reflexivity|].
  rewrite append_cons. cbn [String.length substring_from]. exact IH.
Qed.

(** X17. [extractTokenFromHeader] gives a token exactly for a header
    made of "Bearer " and that token, and nothing for a header that is
    absent, empty or of another form. *)
Theorem extractTokenFromHeader_bearer
    (authHeader : option string) (token : string) :
  (extractTokenFromHeader authHeader = Some token
   ↔ authHeader = Some ("Bearer " +:+ token))
  ∧ (extractTokenFromHeader authHeader = None
     ↔ ∀ t, authHeader ≠ Some ("Bearer " +:+ t)).
Proof.
  assert (Hsome : ∀ h t, extractTokenFromHeader (Some h) = Some t
                         ↔ h = "Bearer " +:+ t).
  { intros h t. unfold extractTokenFromHeader.
    destruct (Str.startsWith h "Bearer ") eqn:E.
    - apply startsWith_prefix in E as (t' & ->).
      change (Str.falsy ("Bearer " +:+ t')) with false. cbn [orb negb].
      change 7%nat with (String.length "Bearer ").
      rewrite substring_from_prefix. split.
      + intros [= ->]. reflexivity.
      + intros H. f_equal.
        change ("Bearer " +:+ t') with
          (String "B" (String "e" (String "a" (String "r" (String "e"
             (String "r" (String " " t'))))))) in H.
        change ("Bearer " +:+ t) with
          (String "B" (String "e" (String "a" (String "r" (String "e"
             (String "r" (String " " t))))))) in H.
        congruence.
    - rewrite orb_true_r. split; [discriminate|].
      intros ->. assert (Str.startsWith ("Bearer " +:+ t) "Bearer " = true)
        by (apply startsWith_prefix; eauto). congruence. }
  split.
  - destruct authHeader as [h|]; [| split; discriminate].
    rewrite Hsome. split; [intros ->; reflexivity | intros [= ->]; reflexivity].
  - destruct authHeader as [h|]; [| split; [discriminate | reflexivity]].
    split.
    + intros Hnone t [= ->].
      assert (extractTokenFromHeader (Some ("Bearer " +:+ t)) = Some t)
        by (apply Hsome; reflexivity). congruence.
    + intros Hno. destruct (extractTokenFromHeader (Some h)) as [t|] eqn:E;
        [|reflexivity].
      apply Hsome in E. destruct (Hno t). congruence.
Qed.

Lemma extract_bearer token :
  extractTokenFromHeader (Some ("Bearer " +:+ token)) = Some token.
Proof.
  unfold extractTokenFromHeader.
  change (Str.falsy ("Bearer " +:+ token)) with false.
  replace (Str.startsWith ("Bearer " +:+ token) "Bearer ") with true
    by (symmetry; apply startsWith_prefix; eauto).
  cbn [orb negb]. change 7%nat with (String.length "Bearer ").
  rewrite substring_from_prefix. reflexivity.
Qed.

Lemma extract_some_bearer h token :
  extractTokenFromHeader (Some h) = Some token → h = "Bearer " +:+ token.
Proof.
  unfold extractTokenFromHeader.
  destruct (Str.startsWith h "Bearer ") eqn:E;
    [| rewrite orb_true_r; discriminate].
  apply startsWith_prefix in E as (t' & ->).
  change (Str.falsy ("Bearer " +:+ t')) with false. cbn [orb negb].
  change 7%nat with (String.length "Bearer ").
  rewrite substring_from_prefix. intros [= ->]. reflexivity.
Qed.

Lemma verifyToken_some lib token secret payload :
  verifyToken lib token secret = Some payload
  ↔ jwt_verify lib token secret = Some true
    ∧ jwt_decode lib token = Some payload.
Proof.
  unfold verifyToken. destruct (jwt_verify lib token secret) as [[|]|];
    cbn [negb]; split; try discriminate; try tauto;
    intros [H _]; discriminate H.
Qed.

Lemma middleware_passes cfg token payload user s :
  token ≠ "" →
  jwt_verify (lib cfg) token (JWT_SECRET cfg) = Some true →
  jwt_decode (lib cfg) token = Some payload →
  In user (admin_users s) → admin_id user = userId payload →
  adminAuthMiddleware cfg (Some ("Bearer " +:+ token)) s = None.
Proof.
  intros Htok Hv Hd Hin Hid. unfold adminAuthMiddleware.
  change (Str.falsy ("Bearer " +:+ token)) with false. cbv iota.
  rewrite extract_bearer.
  destruct token as [|a token]; [congruence|]. cbn [Str.falsy].
  rewrite (proj2 (verifyToken_some _ _ _ _) (conj Hv Hd)).
  destruct (List.find _ _) eqn:Eu; [reflexivity|].
  pose proof (List.find_none _ _ Eu user Hin) as Hno. cbn in Hno.
  apply Z.eqb_neq in Hno. congruence.
Qed.

(** X18. The middleware lets a request through exactly when its header
    is "Bearer " followed by a non-empty token that the JWT library
    verifies and decodes, and an admin user with the id of the payload
    is still in the table. Otherwise the answer is 401, the route
    behind it is not run and the store is left as it is. *)
Theorem middleware_guards
    (cfg : config) (authorization : option string) (s : store)
    (handler : store → response * store) :
  (adminAuthMiddleware cfg authorization s = None
   ↔ ∃ token payload user,
       authorization = Some ("Bearer " +:+ token)
       ∧ token ≠ ""
       ∧ jwt_verify (lib cfg) token (JWT_SECRET cfg) = Some true
       ∧ jwt_decode (lib cfg) token = Some payload
       ∧ In user (admin_users s) ∧ admin_id user = userId payload)
  ∧ (adminAuthMiddleware cfg authorization s = None →
     behind_middleware cfg authorization handler s = handler s)
  ∧ (∀ refusal,
       adminAuthMiddleware cfg authorization s = Some refusal →
       status refusal = 401
       ∧ behind_middleware cfg authorization handler s = (refusal, s)).
Proof.
  split; [| split].
  - unfold adminAuthMiddleware. split.
    + destruct authorization as [h|]; [| discriminate].
      destruct (Str.falsy h) eqn:Eh; [discriminate|].
      destruct (extractTokenFromHeader (Some h)) as [token|] eqn:Et;
        [| discriminate].
      apply extract_some_bearer in Et. subst h.
      destruct (Str.falsy token) eqn:Etok; [discriminate|].
      destruct (verifyToken _ _ _) as [payload|] eqn:Ev; [| discriminate].
      apply verifyToken_some in Ev as [Hv Hd].
      destruct (List.find _ _) as [user|] eqn:Eu; [| discriminate].
      intros _. apply List.find_some in Eu as [Hin Hid].
      exists token, payload, user. repeat split; try assumption.
      * intros ->. discriminate Etok.
      * apply Z.eqb_eq, Hid.
    + intros (token & payload & user & -> & Htok & Hv & Hd & Hin & Hid).
      fold (adminAuthMiddleware cfg (Some ("Bearer " +:+ token)) s).
      apply (middleware_passes cfg token payload user); assumption.
  - intros H. unfold behind_middleware. rewrite H. reflexivity.
  - intros refusal H. unfold behind_middleware. rewrite H.
    split; [| reflexivity]. unfold adminAuthMiddleware in H.
    repeat match type of H with
           | context [match ?x with _ => _ end] => destruct x
           end; try discriminate; injection H as <-; reflexivity.
Qed.

(** The token of the admin opens the route while the admin is in the
    table, and no longer once the user is removed. *)
Lemma middleware_guards_witness :
  adminAuthMiddleware AdminScenario.cfg (Some "Bearer token-of-admin-1")
    AdminScenario.office = None
  ∧ behind_middleware AdminScenario.cfg (Some "Bearer token-of-admin-1")
      get_admin_verify AdminScenario.office_closed
    = (Response 401 (Error "Unauthorized - User not found"),
       AdminScenario.office_closed).
Proof.
  assert (H : adminAuthMiddleware AdminScenario.cfg
                (Some "Bearer token-of-admin-1") AdminScenario.office = None)
    by reflexivity.
  split; [exact H|].
  apply (proj2 (proj2 (middleware_guards AdminScenario.cfg
                         (Some "Bearer token-of-admin-1")
                         AdminScenario.office_closed get_admin_verify))).
  reflexivity.
Defined.

End Authentication.

(** ** The admin login *)

Section Login.

Import DB Worker Auth Admin Invariants.

(** X19. A login that got past the limiter, with both fields given and
    the secret configured, is answered with one and the same 401
    whether no admin has the email or the password is wrong; and the
    letter case of the email makes no difference to the login. *)
Theorem login_hides_which_failed
    (cfg : config) (now : Z) (cf_connecting_ip : option string)
    (email password : string)
    (limiters : gmap string (gmap string RateLimiter.window)) (s : store) :
  (limiter_verdict
     (fst (RateLimiter.fetch
             (RateLimiter.key_param (login_key cf_connecting_ip)) now
             (default ∅ (limiters !! login_key cf_connecting_ip))))
   = Some true →
   Str.falsy email = false → Str.falsy password = false →
   Str.falsy (JWT_SECRET cfg) = false →
   List.find (fun u => String.eqb (admin_email u) (Str.toLowerCase email))
     (admin_users s) = None
   ∨ (∃ u, List.find
             (fun u => String.eqb (admin_email u) (Str.toLowerCase email))
             (admin_users s) = Some u
           ∧ verifyPassword (lib cfg) password (password_hash u) = Some false) →
   fst (post_admin_login cfg now cf_connecting_ip email password limiters s)
   = Response 401 (Error "Invalid email or password"))
  ∧ (∀ email',
       Str.toLowerCase email' = Str.toLowerCase email →
       post_admin_login cfg now cf_connecting_ip email' password limiters s
       = post_admin_login cfg now cf_connecting_ip email password limiters s).
Proof.
  split.
  - intros Hlim He Hp Hsecret Hfail. unfold post_admin_login.
    destruct (RateLimiter.fetch _ _ _) as [r o]. cbn [fst] in Hlim.
    rewrite Hlim, He, Hp, Hsecret. cbn [orb].
    destruct Hfail as [-> | (u & -> & ->)]; reflexivity.
  - intros email' Hcase. unfold post_admin_login.
    rewrite Hcase, <- (toLowerCase_falsy email'), Hcase, toLowerCase_falsy.
    reflexivity.
Qed.

Lemma login_hides_which_failed_witness :
  fst (post_admin_login AdminScenario.cfg 1000 (Some "203.0.113.7")
         "nobody@example.com" "changeme123" ∅ AdminScenario.office)
  = Response 401 (Error "Invalid email or password")
  ∧ fst (post_admin_login AdminScenario.cfg 1000 (Some "203.0.113.7")
           "Admin@Example.com" "guess" ∅ AdminScenario.office)
    = Response 401 (Error "Invalid email or password").
Proof.
  split.
  - apply (proj1 (login_hides_which_failed AdminScenario.cfg 1000
                    (Some "203.0.113.7") "nobody@example.com" "changeme123"
                    ∅ AdminScenario.office));
      try reflexivity. left. reflexivity.
  - apply (proj1 (login_hides_which_failed AdminScenario.cfg 1000
                    (Some "203.0.113.7") "Admin@Example.com" "guess"
                    ∅ AdminScenario.office));
      try reflexivity. right. eexists. split; reflexivity.
Defined.

(** X20. A login answered with a token names an admin of the table, and
    the token carries 24 hours from the second of the login; when the
    JWT library verifies and decodes the token it signed, the middleware
    lets the bearer of that token through. *)
Theorem login_then_access
    (cfg : config) (now : Z) (cf_connecting_ip : option string)
    (email password : string)
    (limiters limiters' : gmap string (gmap string RateLimiter.window))
    (s : store) (token : string) (uid : Z) (mail : string) :
  post_admin_login cfg now cf_connecting_ip email password limiters s
  = (Response 200 (Session token uid mail), limiters') →
  (∃ u, In u (admin_users s) ∧ admin_id u = uid ∧ admin_email u = mail
        ∧ mail = Str.toLowerCase email
        ∧ verifyPassword (lib cfg) password (password_hash u) = Some true
        ∧ jwt_sign (lib cfg) (Payload uid mail (now / 1000 + 86400))
            (JWT_SECRET cfg) = Some token)
  ∧ (token ≠ "" →
     jwt_verify (lib cfg) token (JWT_SECRET cfg) = Some true →
     jwt_decode (lib cfg) token = Some (Payload uid mail (now / 1000 + 86400)) →
     adminAuthMiddleware cfg (Some ("Bearer " +:+ token)) s = None).
Proof.
  intros Hlogin.
  assert (Huser : ∃ u, In u (admin_users s) ∧ admin_id u = uid
                       ∧ admin_email u = mail
                       ∧ mail = Str.toLowerCase email
                       ∧ verifyPassword (lib cfg) password (password_hash u)
                         = Some true
                       ∧ jwt_sign (lib cfg)
                           (Payload uid mail (now / 1000 + 86400))
                           (JWT_SECRET cfg) = Some token).
  { unfold post_admin_login in Hlogin.
    destruct (RateLimiter.fetch _ _ _) as [r o].
    destruct (limiter_verdict r) as [[|]|]; try discriminate.
    destruct (Str.falsy email || Str.falsy password); [discriminate|].
    destruct (Str.falsy (JWT_SECRET cfg)); [discriminate|].
    destruct (List.find _ _) as [u|] eqn:Eu; [| discriminate].
    destruct (verifyPassword _ _ _) as [[|]|] eqn:Ep; try discriminate.
    cbn [negb] in Hlogin.
    destruct (generateToken _ _ _ _ _) as [t|] eqn:Et; [| discriminate].
    injection Hlogin as <- <- <- _.
    apply List.find_some in Eu as [Hin Heq]. apply String.eqb_eq in Heq.
    exists u. repeat split; try assumption. }
  split; [exact Huser|].
  intros Htok Hv Hd. destruct Huser as (u & Hin & Hid & _).
  apply (middleware_passes cfg token
           (Payload uid mail (now / 1000 + 86400)) u); assumption.
Qed.

(** The admin logs in, letter case and all, and the token opens the
    routes. *)
Lemma login_then_access_witness :
  post_admin_login AdminScenario.cfg 1000 (Some "203.0.113.7")
    "Admin@Example.com" "changeme123" ∅ AdminScenario.office
  = (Response 200 (Session "token-of-admin-1" 1 "admin@example.com"),
     {["admin-login-203.0.113.7" :=
         {["admin-login-203.0.113.7" := RateLimiter.Window 1 61000]}]})
  ∧ adminAuthMiddleware AdminScenario.cfg (Some "Bearer token-of-admin-1")
      AdminScenario.office = None.
Proof.
  assert (H : post_admin_login AdminScenario.cfg 1000 (Some "203.0.113.7")
                "Admin@Example.com" "changeme123" ∅ AdminScenario.office
              = (Response 200 (Session "token-of-admin-1" 1 "admin@example.com"),
                 {["admin-login-203.0.113.7" :=
                     {["admin-login-203.0.113.7" :=
                         RateLimiter.Window 1 61000]}]}))
    by (vm_compute; reflexivity).
  split; [exact H|].
  apply (proj2 (login_then_access _ _ _ _ _ _ _ _ _ _ _ H));
    [discriminate | reflexivity | reflexivity].
Defined.

Lemma login_key_not_ip h req :
  cf_connecting_ip req = h → login_key h ≠ client_ip req.
Proof.
  intros <- Heq. unfold login_key, client_ip in Heq.
  assert (Hlen : ∀ ip, String.length ("admin-login-" +:+ ip) ≠ String.length ip).
  { intros ip.
    change ("admin-login-" +:+ ip)
      with (String "a" (String "d" (String "m" (String "i" (String "n"
             (String "-" (String "l" (String "o" (String "g" (String "i"
             (String "n" (String "-" ip)))))))))))).
    cbn [String.length]. lia. }
  eapply Hlen. rewrite Heq. reflexivity.
Qed.

(** X21. Logins and submissions of one client are counted apart: the
    login goes to the limiter object named "admin-login-" and the
    address, the submission to the one named by the address, so that
    neither handler touches the object of the other. *)
Theorem login_bucket_separate
    (cfg : config) (p : platform) (req : submission) (w : world)
    (email password : string) (s : store) :
  limiters (snd (post_signatures p req w)) !! login_key (cf_connecting_ip req)
  = limiters w !! login_key (cf_connecting_ip req)
  ∧ snd (post_admin_login cfg (date_now p) (cf_connecting_ip req)
           email password (limiters w) s) !! client_ip req
    = limiters w !! client_ip req.
Proof.
  pose proof (login_key_not_ip _ req eq_refl) as Hne. split.
  - rewrite limiters_after_submission. unfold Steps.limiters_after.
    apply lookup_insert_ne. congruence.
  - unfold post_admin_login. destruct (RateLimiter.fetch _ _ _) as [r o].
    repeat match goal with
           | |- context [match ?x with _ => _ end] => destruct x
           end; cbn [snd]; apply lookup_insert_ne; exact Hne.
Qed.

Lemma limiters_after_login cfg now h email password ls s :
  snd (post_admin_login cfg now h email password ls s)
  = <[login_key h :=
        snd (RateLimiter.fetch (RateLimiter.key_param (login_key h)) now
               (default ∅ (ls !! login_key h)))]> ls.
Proof.
  unfold post_admin_login. destruct (RateLimiter.fetch _ _ _) as [r o].
  repeat match goal with
         | |- context [match ?x with _ => _ end] => destruct x
         end; reflexivity.
Qed.

Lemma object_after_logins cfg h k s l : ∀ ls,
  RateLimiter.key_param (login_key h) = Some k →
  default ∅ (login_all cfg h s l ls !! login_key h)
  = snd (RateLimiter.serve (map (fun q => (k, fst (fst q))) l)
           (default ∅ (ls !! login_key h))).
Proof.
  induction l as [|[[now email] password] l IH]; intros ls Hk; [reflexivity|].
  unfold login_all in *. cbn [fold_left map fst snd RateLimiter.serve].
  rewrite (IH _ Hk), limiters_after_login, Hk, lookup_insert_eq.
  change (default ∅ (Some ?x)) with x.
  destruct (RateLimiter.fetch (Some k) now _) as [r o].
  cbn [snd]. destruct (RateLimiter.serve _ o). reflexivity.
Qed.

(** X22. No more than five logins a minute are looked at: after five
    logins of one client within a minute, whatever their credentials,
    a sixth one within that minute is answered 429, be its password
    the right one. The login object of the client is taken without a
    window at the start, under the key it reads from its URL. *)
Theorem sixth_login_rate_limited
    (cfg : config) (cf_connecting_ip : option string) (s : store)
    (limiters : gmap string (gmap string RateLimiter.window))
    (q1 q2 q3 q4 q5 q6 : Z * string * string) :
  Forall (fun q => fst (fst q) <= fst (fst q1) + 60000) [q2; q3; q4; q5; q6] →
  (∀ k, RateLimiter.key_param (login_key cf_connecting_ip) = Some k →
        default ∅ (limiters !! login_key cf_connecting_ip) !! k = None) →
  fst (post_admin_login cfg (fst (fst q6)) cf_connecting_ip (snd (fst q6))
         (snd q6)
         (login_all cfg cf_connecting_ip s [q1; q2; q3; q4; q5] limiters) s)
  = Response 429 (Error "Too many login attempts. Please try again later.").
Proof.
  intros Hnow Hfresh.
  destruct (login_key_read cf_connecting_ip) as (k & Hk & Hkey).
  specialize (Hfresh k Hk).
  pose proof (object_after_logins cfg cf_connecting_ip k s
                [q1; q2; q3; q4; q5] limiters Hk) as Hobj.
  cbn [map] in Hobj.
  apply Forall_cons in Hnow as [H2 Hnow]. apply Forall_cons in Hnow as [H3 Hnow].
  apply Forall_cons in Hnow as [H4 Hnow]. apply Forall_cons in Hnow as [H5 Hnow].
  apply Forall_cons in Hnow as [H6 _].
  destruct (five_fill_window k Hkey
              (default ∅ (limiters !! login_key cf_connecting_ip))
              (fst (fst q1)) (fst (fst q2)) (fst (fst q3)) (fst (fst q4))
              (fst (fst q5)) [] (or_introl Hfresh) H2 H3 H4 H5) as [_ Hfive].
  rewrite Hfive in Hobj. cbn [RateLimiter.serve snd] in Hobj.
  unfold post_admin_login at 1. rewrite Hobj, Hk.
  rewrite (fetch_full k Hkey _ _
             (RateLimiter.Window 5 (fst (fst q1) + 60000)));
    [reflexivity | apply lookup_insert_eq | exact H6 | cbn; lia].
Qed.

(** Five guesses, then the right password. *)
Lemma sixth_login_rate_limited_witness :
  RateLimiter.key_param (login_key (Some "203.0.113.7"))
  = Some "admin-login-203.0.113.7"
  ∧ fst (post_admin_login AdminScenario.cfg 6000 (Some "203.0.113.7")
           "admin@example.com" "changeme123"
           (login_all AdminScenario.cfg (Some "203.0.113.7")
              AdminScenario.office
              (map (fun t => (t, "admin@example.com", "guess"))
                 [1000; 2000; 3000; 4000; 5000]) ∅)
           AdminScenario.office)
    = Response 429 (Error "Too many login attempts. Please try again later.").
Proof.
  split; [vm_compute; reflexivity|].
  refine (sixth_login_rate_limited AdminScenario.cfg (Some "203.0.113.7")
            AdminScenario.office ∅
            (1000, "admin@example.com", "guess")
            (2000, "admin@example.com", "guess")
            (3000, "admin@example.com", "guess")
            (4000, "admin@example.com", "guess")
            (5000, "admin@example.com", "guess")
            (6000, "admin@example.com", "changeme123") _ _);
    [repeat constructor; cbn; lia | intros k _; reflexivity].
Defined.

End Login.

(** ** The admin and the tables *)

Section AdminTables.

Import DB Worker Steps Outcome Auth Admin Invariants.

Arguments hashString : simpl never.
Arguments hashCode : simpl never.

Lemma NoDup_map_same {A B} (f : A → B) (l : list A) x y :
  NoDup (map f l) → In x l → In y l → f x = f y → x = y.
Proof.
  induction l as [|z l IH]; cbn [map In]; [tauto|].
  intros Hnd Hx Hy Hf. apply NoDup_cons in Hnd as [Hz Hnd].
  rewrite list_elem_of_In in Hz.
  destruct Hx as [-> | Hx], Hy as [-> | Hy]; auto.
  - destruct Hz. rewrite Hf. apply in_map, Hy.
  - destruct Hz. rewrite <- Hf. apply in_map, Hx.
Qed.

Lemma delete_signature_missing sid d :
  (∀ r, In r (public_signatures d) → id r ≠ sid) →
  delete_signature sid d = d.
Proof.
  intros Hno. unfold delete_signature.
  replace (existsb _ _) with false.
  2:{ symmetry. apply not_true_is_false. intros (r & Hr & E)%existsb_exists.
      apply Z.eqb_eq in E. exact (Hno r Hr E). }
  rewrite filter_all.
  - destruct d; reflexivity.
  - intros r Hr. apply negb_true_iff, Z.eqb_neq, Hno, Hr.
Qed.

(** X23. The admin deleting a signature that is in the table is
    answered 200; the signature and its codes are gone, a verification
    for its id is answered 404, and, hashes being unique, its email and
    mobile are free again for a new submission. Deleting an id that is
    not in the table is answered 404 and changes nothing. *)
Theorem admin_delete_frees_identity (sid : Z) (s : store) :
  (∀ r, In r (public_signatures (tables s)) → id r = sid →
     unique_identities (tables s) →
     let s' := snd (delete_admin_signature sid s) in
     fst (delete_admin_signature sid s)
     = Response 200 (Message "Signature deleted successfully")
     ∧ select_signature sid (tables s') = None
     ∧ (∀ c, In c (verification_codes (tables s')) → signature_id c ≠ sid)
     ∧ (∀ p emailCode smsCode,
          Str.falsy emailCode = false → Str.falsy smsCode = false →
          fst (post_verify p sid emailCode smsCode (tables s'))
          = json_status (ErrorBody "Signature not found") 404)
     ∧ (∀ req, emailHash req = email_hash r → phoneHash req = phone_hash r →
               ¬ identity_taken req (tables s')))
  ∧ ((∀ r, In r (public_signatures (tables s)) → id r ≠ sid) →
     delete_admin_signature sid s
     = (Response 404 (Error "Signature not found"), s)).
Proof.
  split.
  - intros r Hr Hid [Hue Hup] s'. subst s'. unfold delete_admin_signature.
    assert (Hsome : select_signature sid (tables s) ≠ None).
    { unfold select_signature. destruct (List.find _ _) eqn:E; [discriminate|].
      pose proof (List.find_none _ _ E r Hr) as Hno. cbn in Hno.
      apply Z.eqb_neq in Hno. congruence. }
    destruct (List.filter _ _) as [|r0 l0] eqn:Ef.
    { exfalso. assert (Hin : In r (List.filter (fun r => id r =? sid)
                                     (public_signatures (tables s))))
        by (apply List.filter_In; split; [exact Hr | apply Z.eqb_eq, Hid]).
      rewrite Ef in Hin. exact Hin. }
    cbn [List.length Nat.eqb fst snd with_tables tables].
    split; [reflexivity|]. split; [apply delete_signature_gone|].
    split; [intros c; apply delete_signature_cascade, Hsome|]. split.
    + intros p ec sc H1 H2. unfold post_verify.
      rewrite H1, H2, delete_signature_gone. reflexivity.
    + intros req He Hp (r' & Hr' & Hsame).
      unfold delete_signature in Hr'. cbn [public_signatures] in Hr'.
      apply List.filter_In in Hr' as [Hr' Hne].
      apply negb_true_iff, Z.eqb_neq in Hne. apply Hne.
      rewrite <- Hid. f_equal. destruct Hsame as [Hs | Hs].
      * apply (NoDup_map_same email_hash (public_signatures (tables s)));
          [exact Hue | exact Hr' | exact Hr | congruence].
      * apply (NoDup_map_same phone_hash (public_signatures (tables s)));
          [exact Hup | exact Hr' | exact Hr | congruence].
  - intros Hno. unfold delete_admin_signature.
    rewrite (delete_signature_missing sid _ Hno).
    rewrite filter_none by (intros r Hr; apply Z.eqb_neq, Hno, Hr).
    cbn [List.length Nat.eqb]. destruct s; reflexivity.
Qed.

(** Jane's pending signature deleted: her email and mobile are free. *)
Lemma admin_delete_frees_identity_witness :
  unique_identities (db Scenario.jane_signed)
  ∧ ¬ identity_taken (Scenario.jane "JANE@example.com" "0412 345 678")
        (tables (snd (delete_admin_signature 1
                        (Store (db Scenario.jane_signed) [] 0)))).
Proof.
  assert (Hu : unique_identities (db Scenario.jane_signed))
    by (split; vm_compute; apply NoDup_singleton).
  split; [exact Hu|].
  destruct (proj1 (admin_delete_frees_identity 1
                     (Store (db Scenario.jane_signed) [] 0))
              Scenario.jane_row
              ltac:(rewrite jane_signed_db; left; reflexivity)
              eq_refl Hu) as (_ & _ & _ & _ & Hfree).
  apply Hfree; vm_compute; reflexivity.
Defined.

Lemma with_initial_same s :
  with_initial (initial_signatories (tables s)) (seq_initial_signatories s) s = s.
Proof. destruct s as [[? ? ? ? ?] ? ?]. reflexivity. Qed.

(** X24. Creating an initial signatory with a first and a last name is
    answered 200 with a rowid above every rowid of the table; the row
    is added at the end with the fields of the form, an empty optional
    field stored as NULL, and the public count goes up by one. Without
    a first or a last name the answer is 400 and nothing changes. *)
Theorem initial_signatory_created (f : signatory_form) (s : store) :
  (Str.falsy (f_first_name f) = false → Str.falsy (f_last_name f) = false →
   ∃ rowid,
     fst (post_admin_initial_signatory f s)
     = Response 200 (Created rowid "Initial signatory created successfully")
     ∧ (∀ r, In r (initial_signatories (tables s)) → initial_id r < rowid)
     ∧ initial_signatories (tables (snd (post_admin_initial_signatory f s)))
       = initial_signatories (tables s)
         ++ [InitialRow rowid (or_null (f_title f)) (f_first_name f)
               (f_last_name f) (or_null (f_position f))
               (or_null (f_institution f)) (f_display_order f)]
     ∧ public_signatures (tables (snd (post_admin_initial_signatory f s)))
       = public_signatures (tables s)
     ∧ get_count (tables (snd (post_admin_initial_signatory f s)))
       = Worker.Response 200
           (CountBody (count_verified (tables s) + count_initial (tables s) + 1))
     ∧ (initial_ids_unique (tables s) →
        initial_ids_unique (tables (snd (post_admin_initial_signatory f s)))))
  ∧ (Str.falsy (f_first_name f) = true ∨ Str.falsy (f_last_name f) = true →
     post_admin_initial_signatory f s
     = (Response 400 (Error "First name and last name are required"), s)).
Proof.
  unfold post_admin_initial_signatory. split.
  - intros -> ->. cbn [orb fst snd]. eexists. split; [reflexivity|].
    assert (Hfresh : ∀ r, In r (initial_signatories (tables s)) →
              initial_id r
              < next_rowid (seq_initial_signatories s)
                  (map initial_id (initial_signatories (tables s)))).
    { intros r Hr. apply next_rowid_fresh, in_map, Hr. }
    split; [exact Hfresh|]. split.
    + cbn [with_initial tables initial_signatories]. do 2 f_equal.
      unfold or_zero. destruct (f_display_order f =? 0) eqn:E;
        [apply Z.eqb_eq in E; congruence | reflexivity].
    + split; [reflexivity|]. split.
      * unfold get_count, count_verified, count_initial, json.
        cbn [with_initial tables initial_signatories public_signatures].
        rewrite length_app. cbn [List.length]. do 2 f_equal. lia.
      * unfold initial_ids_unique.
        cbn [with_initial tables initial_signatories]. intros Hu.
        rewrite map_app. apply NoDup_snoc; [exact Hu|]. cbn [map initial_id].
        intros (r & Hr & Hin)%in_map_iff. specialize (Hfresh r Hin). lia.
  - intros [-> | ->]; rewrite ?orb_true_r; reflexivity.
Qed.

Lemma initial_signatory_created_witness :
  Str.falsy (f_first_name AdminScenario.ada) = false
  ∧ get_count
      (tables (snd (post_admin_initial_signatory AdminScenario.ada
                      AdminScenario.office)))
    = Worker.Response 200 (CountBody 1).
Proof.
  split; [reflexivity|].
  destruct (proj1 (initial_signatory_created AdminScenario.ada
                     AdminScenario.office) eq_refl eq_refl)
    as (rowid & _ & _ & _ & _ & Hcount & _).
  exact Hcount.
Defined.

Lemma set_display_order_without o rows :
  map without_order (set_display_order o rows) = map without_order rows.
Proof.
  unfold set_display_order. rewrite map_map. apply map_ext. intros r.
  destruct (initial_id r =? fst o); reflexivity.
Qed.

Lemma set_display_order_missing o rows :
  (∀ r, In r rows → initial_id r ≠ fst o) → set_display_order o rows = rows.
Proof.
  intros Hno. unfold set_display_order. rewrite <- (map_id rows) at 2.
  apply map_ext_in. intros r Hr.
  replace (initial_id r =? fst o) with false; [reflexivity|].
  symmetry. apply Z.eqb_neq, Hno, Hr.
Qed.

Lemma reorder_rows l : ∀ rows,
  map without_order
    (fold_left (fun rows order => set_display_order order rows) l rows)
  = map without_order rows
  ∧ ((∀ o r, In o l → In r rows → initial_id r ≠ fst o) →
     fold_left (fun rows order => set_display_order order rows) l rows = rows).
Proof.
  induction l as [|o l IH]; intros rows; [split; reflexivity|].
  cbn [fold_left]. destruct (IH (set_display_order o rows)) as [IH1 IH2]. split.
  - rewrite IH1. apply set_display_order_without.
  - intros Hno.
    rewrite (set_display_order_missing o rows) in *
      by (intros r Hr; apply Hno; [left; reflexivity | exact Hr]).
    apply IH2. intros o' r Ho' Hr. apply Hno; [right; exact Ho' | exact Hr].
Qed.

(** X25. Reordering changes display orders and nothing else: whatever
    the list sent, the answer is 200, every initial signatory is still
    there with its id, title, names, position and institution, and the
    signatures, the codes and the count are what they were; pairs whose
    id is not in the table are passed over in silence. A body without
    the list is answered 400. *)
Theorem reorder_keeps_signatories
    (signatories : list (Z * Z)) (s : store) :
  let s' := snd (patch_admin_reorder (Some signatories) s) in
  fst (patch_admin_reorder (Some signatories) s)
  = Response 200 (Message "Display order updated successfully")
  ∧ map without_order (initial_signatories (tables s'))
    = map without_order (initial_signatories (tables s))
  ∧ public_signatures (tables s') = public_signatures (tables s)
  ∧ verification_codes (tables s') = verification_codes (tables s)
  ∧ get_count (tables s') = get_count (tables s)
  ∧ ((∀ o r, In o signatories → In r (initial_signatories (tables s)) →
             initial_id r ≠ fst o) →
     s' = s)
  ∧ patch_admin_reorder None s
    = (Response 400 (Error "Invalid request format"), s).
Proof.
  intros s'. subst s'. unfold patch_admin_reorder. cbn [fst snd].
  destruct (reorder_rows signatories (initial_signatories (tables s)))
    as [Hsame Hmissing].
  split; [reflexivity|]. split; [exact Hsame|].
  split; [reflexivity|]. split; [reflexivity|]. split; [| split].
  - unfold get_count, count_verified, count_initial.
    cbn [with_initial tables initial_signatories public_signatures].
    rewrite <- (length_map without_order), Hsame, length_map. reflexivity.
  - intros Hno. rewrite (Hmissing Hno). apply with_initial_same.
  - reflexivity.
Qed.

Lemma filter_other_length {A} (f : A → Z) (l : list A) x :
  NoDup (map f l) → In x l →
  S (List.length (List.filter (fun y => negb (f y =? f x)) l)) = List.length l.
Proof.
  induction l as [|z l IH]; cbn [map In List.filter List.length]; [tauto|].
  intros Hnd Hx. apply NoDup_cons in Hnd as [Hz Hnd].
  rewrite list_elem_of_In in Hz. destruct Hx as [-> | Hx].
  - rewrite Z.eqb_refl. cbn [negb]. f_equal. f_equal. apply filter_all.
    intros y Hy. apply negb_true_iff, Z.eqb_neq. intros E. apply Hz.
    rewrite <- E. apply in_map, Hy.
  - destruct (f z =? f x) eqn:E.
    + apply Z.eqb_eq in E. destruct Hz. rewrite E. apply in_map, Hx.
    + cbn [negb List.length]. f_equal. apply IH; assumption.
Qed.

(** X26. Deleting an initial signatory that is in the table, rowids
    being unique, is answered 200: that row is gone, every other row
    stays, and the public count goes down by one. For an id that is
    not in the table the answer is 404 and nothing changes. *)
Theorem initial_signatory_deleted (sid : Z) (s : store) :
  (∀ r, In r (initial_signatories (tables s)) → initial_id r = sid →
     initial_ids_unique (tables s) →
     let s' := snd (delete_admin_initial_signatory sid s) in
     fst (delete_admin_initial_signatory sid s)
     = Response 200 (Message "Initial signatory deleted successfully")
     ∧ (∀ r', In r' (initial_signatories (tables s')) ↔
              In r' (initial_signatories (tables s)) ∧ initial_id r' ≠ sid)
     ∧ count_initial (tables s') = count_initial (tables s) - 1
     ∧ public_signatures (tables s') = public_signatures (tables s))
  ∧ ((∀ r, In r (initial_signatories (tables s)) → initial_id r ≠ sid) →
     delete_admin_initial_signatory sid s
     = (Response 404 (Error "Initial signatory not found"), s)).
Proof.
  split.
  - intros r Hr Hid Hu s'. subst s'. unfold delete_admin_initial_signatory.
    destruct (List.filter (fun r => initial_id r =? sid) _) as [|r0 l0] eqn:Ef.
    { exfalso. assert (Hin : In r (List.filter (fun r => initial_id r =? sid)
                                     (initial_signatories (tables s))))
        by (apply List.filter_In; split; [exact Hr | apply Z.eqb_eq, Hid]).
      rewrite Ef in Hin. exact Hin. }
    cbn [List.length Nat.eqb fst snd with_initial tables initial_signatories
         public_signatures].
    split; [reflexivity|]. split; [| split; [| reflexivity]].
    + intros r'. rewrite List.filter_In, negb_true_iff, Z.eqb_neq. tauto.
    + unfold count_initial. cbn [initial_signatories].
      pose proof (filter_other_length initial_id _ r Hu Hr) as Hlen.
      rewrite Hid in Hlen. lia.
  - intros Hno. unfold delete_admin_initial_signatory.
    rewrite filter_none by (intros r Hr; apply Z.eqb_neq, Hno, Hr).
    rewrite filter_all
      by (intros r Hr; apply negb_true_iff, Z.eqb_neq, Hno, Hr).
    cbn [List.length Nat.eqb]. rewrite with_initial_same. reflexivity.
Qed.

Lemma initial_signatory_deleted_witness :
  initial_ids_unique
    (tables (snd (post_admin_initial_signatory AdminScenario.ada
                    AdminScenario.office)))
  ∧ count_initial
      (tables (snd (delete_admin_initial_signatory 1
                      (snd (post_admin_initial_signatory AdminScenario.ada
                              AdminScenario.office)))))
    = 0.
Proof.
  assert (Hu : initial_ids_unique
                 (tables (snd (post_admin_initial_signatory AdminScenario.ada
                                 AdminScenario.office))))
    by (vm_compute; apply NoDup_singleton).
  split; [exact Hu|].
  destruct (proj1 (initial_signatory_deleted 1
                     (snd (post_admin_initial_signatory AdminScenario.ada
                             AdminScenario.office)))
              (InitialRow 1 (Some "Prof") "Ada" "Lovelace" None None 0)
              ltac:(left; reflexivity) eq_refl Hu)
    as (_ & _ & Hcount & _).
  rewrite Hcount. reflexivity.
Defined.

(** An id that is in no row: the table, and the rest, stay as they are. *)
Lemma reorder_keeps_signatories_witness :
  snd (patch_admin_reorder (Some [(7, 3)])
         (snd (post_admin_initial_signatory AdminScenario.ada
                 AdminScenario.office)))
  = snd (post_admin_initial_signatory AdminScenario.ada AdminScenario.office).
Proof.
  apply (proj1 (proj2 (proj2 (proj2 (proj2 (proj2
           (reorder_keeps_signatories [(7, 3)]
              (snd (post_admin_initial_signatory AdminScenario.ada
                      AdminScenario.office))))))))).
  intros o r [<- | []] [<- | []]. discriminate.
Defined.

(** X27. Updating an initial signatory keeps the rowids and the count;
    the rows of the id given take the fields of the form, the other
    rows stay as they are. The answer is 200 when a row has that id,
    404 with nothing changed when none has, and 400 with nothing
    changed when the first or the last name is missing. *)
Theorem initial_signatory_updated (sid : Z) (f : signatory_form) (s : store) :
  (Str.falsy (f_first_name f) = true ∨ Str.falsy (f_last_name f) = true →
   put_admin_initial_signatory sid f s
   = (Response 400 (Error "First name and last name are required"), s))
  ∧ (Str.falsy (f_first_name f) = false → Str.falsy (f_last_name f) = false →
     let s' := snd (put_admin_initial_signatory sid f s) in
     map initial_id (initial_signatories (tables s'))
     = map initial_id (initial_signatories (tables s))
     ∧ (∀ r', In r' (initial_signatories (tables s')) → initial_id r' = sid →
              r' = InitialRow sid (or_null (f_title f)) (f_first_name f)
                     (f_last_name f) (or_null (f_position f))
                     (or_null (f_institution f)) (f_display_order f))
     ∧ (∀ r', initial_id r' ≠ sid →
              (In r' (initial_signatories (tables s))
               ↔ In r' (initial_signatories (tables s'))))
     ∧ get_count (tables s') = get_count (tables s)
     ∧ ((∃ r, In r (initial_signatories (tables s)) ∧ initial_id r = sid) →
        fst (put_admin_initial_signatory sid f s)
        = Response 200 (Message "Initial signatory updated successfully"))
     ∧ ((∀ r, In r (initial_signatories (tables s)) → initial_id r ≠ sid) →
        put_admin_initial_signatory sid f s
        = (Response 404 (Error "Initial signatory not found"), s))).
Proof.
  split.
  - unfold put_admin_initial_signatory.
    intros [-> | ->]; rewrite ?orb_true_r; reflexivity.
  - intros Hfirst Hlast s'. subst s'. unfold put_admin_initial_signatory.
    rewrite Hfirst, Hlast. cbn [orb].
    assert (Horder : or_zero (f_display_order f) = f_display_order f).
    { unfold or_zero. destruct (f_display_order f =? 0) eqn:E;
        [apply Z.eqb_eq in E; congruence | reflexivity]. }
    rewrite Horder.
    set (new := fun r : initial_row =>
                  InitialRow (initial_id r) (or_null (f_title f))
                    (f_first_name f) (f_last_name f) (or_null (f_position f))
                    (or_null (f_institution f)) (f_display_order f)).
    assert (Hchanges :
      (∃ r, In r (initial_signatories (tables s)) ∧ initial_id r = sid)
      ↔ Nat.eqb (List.length
                   (List.filter (fun r => initial_id r =? sid)
                      (initial_signatories (tables s)))) 0 = false).
    { split.
      - intros (r & Hr & Hid).
        destruct (List.filter _ _) as [|r0 l0] eqn:Ef; [| reflexivity].
        exfalso.
        assert (Hin : In r (List.filter (fun r => initial_id r =? sid)
                              (initial_signatories (tables s))))
          by (apply List.filter_In; split; [exact Hr | apply Z.eqb_eq, Hid]).
        rewrite Ef in Hin. exact Hin.
      - destruct (List.filter _ _) as [|r0 l0] eqn:Ef; [discriminate|].
        intros _. exists r0.
        assert (Hin : In r0 (List.filter (fun r => initial_id r =? sid)
                               (initial_signatories (tables s))))
          by (rewrite Ef; left; reflexivity).
        apply List.filter_In in Hin as [Hin E]. apply Z.eqb_eq in E. eauto. }
    destruct (Nat.eqb _ 0) eqn:Ech;
      cbn [fst snd with_initial tables initial_signatories public_signatures].
    all: split; [rewrite map_map; apply map_ext; intros r;
                 destruct (initial_id r =? sid); reflexivity |].
    all: split; [intros r' (r & <- & Hr)%in_map_iff Hid;
                 destruct (initial_id r =? sid) eqn:E;
                 [apply Z.eqb_eq in E; subst new; cbn; rewrite E; reflexivity
                 | apply Z.eqb_neq in E; congruence] |].
    all: split; [intros r' Hne;
                 apply (in_map_when new (fun r => initial_id r =? sid));
                 [apply Z.eqb_neq, Hne | reflexivity] |].
    all: split; [unfold get_count, count_verified, count_initial;
                 cbn [initial_signatories public_signatures];
                 rewrite length_map; reflexivity |].
    + split; [intros Hex; apply Hchanges in Hex; discriminate Hex|].
      intros Hno. f_equal.
      replace (map _ (initial_signatories (tables s)))
        with (initial_signatories (tables s)); [apply with_initial_same|].
      rewrite <- (map_id (initial_signatories (tables s))) at 1.
      apply map_ext_in. intros r Hr.
      replace (initial_id r =? sid) with false; [reflexivity|].
      symmetry. apply Z.eqb_neq, Hno, Hr.
    + split; [reflexivity|]. intros Hno. exfalso.
      destruct (proj2 Hchanges eq_refl) as (r & Hr & Hid).
      exact (Hno r Hr Hid).
Qed.

Lemma initial_signatory_updated_witness :
  Str.falsy (f_first_name AdminScenario.ada) = false
  ∧ put_admin_initial_signatory 5 AdminScenario.ada AdminScenario.office
    = (Response 404 (Error "Initial signatory not found"),
       AdminScenario.office).
Proof.
  split; [reflexivity|].
  destruct (proj2 (initial_signatory_updated 5 AdminScenario.ada
                     AdminScenario.office) eq_refl eq_refl)
    as (_ & _ & _ & _ & _ & Hmissing).
  apply Hmissing. intros r [].
Defined.

End AdminTables.

(** ** What the email pattern accepts *)

Section EmailPatternMeaning.

Import Regex RegexLanguage Worker.

Lemma cat_inv a b s :
  lang (Cat a b) s → ∃ s1 s2, s = s1 ++ s2 ∧ lang a s1 ∧ lang b s2.
Proof.
  intros H. inversion H; subst. do 2 eexists.
  split; [reflexivity|]. split; eassumption.
Qed.

Lemma nullable_lang r : nullable r = true ↔ lang r [].
Proof.
  induction r; cbn [nullable].
  - split; intros H; [discriminate | inversion H].
  - split; intros H; [constructor | reflexivity].
  - split; intros H; [discriminate | inversion H].
  - split; intros H.
    + apply andb_true_iff in H as [H1 H2].
      change (@nil Z) with (@nil Z ++ []).
      constructor; [apply IHr1, H1 | apply IHr2, H2].
    + apply cat_inv in H as (s1 & s2 & Heq & H1 & H2).
      symmetry in Heq. apply app_eq_nil in Heq as [-> ->].
      apply andb_true_iff. split; [apply IHr1, H1 | apply IHr2, H2].
  - split; intros H.
    + apply orb_true_iff in H as [H|H];
        [apply lang_alt_l, IHr1, H | apply lang_alt_r, IHr2, H].
    + inversion H; subst; apply orb_true_iff;
        [left; apply IHr1 | right; apply IHr2]; assumption.
  - split; intros H; [constructor | reflexivity].
Qed.

(** A string of [Star a] that starts with [c] starts with a non-empty
    string of [a]. *)
Lemma star_cons_inv a c s :
  lang (Star a) (c :: s) →
  ∃ s1 s2, s = s1 ++ s2 ∧ lang a (c :: s1) ∧ lang (Star a) s2.
Proof.
  intros H. remember (Star a) as r eqn:Er. remember (c :: s) as cs eqn:Es.
  revert s Es. induction H as [| | | | | |a' s1 s2 H1 _ H2 IH2];
    intros t Et; try discriminate.
  injection Er as ->. destruct s1 as [|c1 s1].
  - apply IH2; [reflexivity | exact Et].
  - cbn [app] in Et. injection Et as Ec Et. subst c1 t.
    exists s1, s2. repeat split; assumption.
Qed.

Lemma deriv_lang c r : ∀ s, lang (deriv c r) s ↔ lang r (c :: s).
Proof.
  induction r; intros s; cbn [deriv].
  - split; intros H; inversion H.
  - split; intros H; inversion H.
  - destruct (b c) eqn:E; split; intros H.
    + inversion H; subst. constructor. exact E.
    + inversion H; subst. constructor.
    + inversion H.
    + inversion H; subst. congruence.
  - assert (Hcat : lang (Cat (deriv c r1) r2) s
                   ↔ ∃ s1 s2, s = s1 ++ s2 ∧ lang r1 (c :: s1) ∧ lang r2 s2).
    { split.
      - intros H. apply cat_inv in H as (s1 & s2 & -> & H1 & H2).
        exists s1, s2. split; [reflexivity|].
        split; [apply IHr1|]; assumption.
      - intros (s1 & s2 & -> & H1 & H2). constructor; [apply IHr1|]; assumption. }
    assert (Hsplit : lang (Cat r1 r2) (c :: s)
                     ↔ (∃ s1 s2, s = s1 ++ s2 ∧ lang r1 (c :: s1) ∧ lang r2 s2)
                       ∨ (lang r1 [] ∧ lang r2 (c :: s))).
    { split.
      - intros H. apply cat_inv in H as (s1 & s2 & Heq & H1 & H2).
        destruct s1 as [|c1 s1].
        + right. cbn in Heq. subst. tauto.
        + left. cbn in Heq. injection Heq as -> ->. eauto.
      - intros [(s1 & s2 & -> & H1 & H2) | [H1 H2]].
        + change (c :: s1 ++ s2) with ((c :: s1) ++ s2). constructor; assumption.
        + change (c :: s) with ([] ++ c :: s). constructor; assumption. }
    rewrite Hsplit. destruct (nullable r1) eqn:N.
    + split.
      * intros H. inversion H; subst;
          [left; apply Hcat; assumption
          | right; split; [apply nullable_lang, N | apply IHr2; assumption]].
      * intros [H | [_ H]];
          [apply lang_alt_l, Hcat, H | apply lang_alt_r, IHr2, H].
    + rewrite Hcat. split; [tauto|]. intros [H | [H _]]; [exact H|].
      apply nullable_lang in H. congruence.
  - split; intros H.
    + inversion H; subst; [apply lang_alt_l, IHr1 | apply lang_alt_r, IHr2];
        assumption.
    + inversion H; subst; [apply lang_alt_l, IHr1 | apply lang_alt_r, IHr2];
        assumption.
  - split.
    + intros H. inversion H; subst.
      change (c :: s1 ++ s2) with ((c :: s1) ++ s2).
      constructor; [apply IHr|]; assumption.
    + intros H. apply star_cons_inv in H as (s1 & s2 & -> & H1 & H2).
      constructor; [apply IHr|]; assumption.
Qed.

(** The matcher accepts the strings of the pattern. *)
Lemma matches_lang s : ∀ r, matches r s = true ↔ lang r s.
Proof.
  induction s as [|c s IH]; intros r; cbn [matches].
  - apply nullable_lang.
  - rewrite IH. apply deriv_lang.
Qed.

Lemma lang_star_class p s : lang (Star (Class p)) s ↔ forallb p s = true.
Proof.
  split.
  - intros H. remember (Star (Class p)) as r eqn:Er.
    induction H as [| | | | | |a s1 s2 H1 _ H2 IH2]; try discriminate;
      [reflexivity|].
    injection Er as ->. inversion H1 as [|q c Hc| | | | |]; subst.
    cbn [app forallb]. rewrite Hc. apply IH2. reflexivity.
  - induction s as [|c s IH]; cbn [forallb]; intros H; [constructor|].
    apply andb_true_iff in H as [Hc Hs].
    change (c :: s) with ([c] ++ s).
    constructor; [constructor; exact Hc | apply IH, Hs].
Qed.

Lemma lang_plus_class p s :
  lang (Plus (Class p)) s ↔ s ≠ [] ∧ forallb p s = true.
Proof.
  unfold Plus. split.
  - intros H. apply cat_inv in H as (s1 & s2 & -> & H1 & H2).
    inversion H1 as [|q c Hc| | | | |]; subst. apply lang_star_class in H2.
    cbn [app forallb]. rewrite Hc, H2. split; [discriminate | reflexivity].
  - intros [Hne H]. destruct s as [|c s]; [congruence|].
    cbn [forallb] in H. apply andb_true_iff in H as [Hc Hs].
    change (c :: s) with ([c] ++ s).
    constructor; [constructor; exact Hc | apply lang_star_class, Hs].
Qed.

Lemma lang_lit c s : lang (Lit c) s ↔ s = [Str.code c].
Proof.
  unfold Lit. split.
  - intros H. inversion H as [|q c' Hc| | | | |]; subst.
    apply Z.eqb_eq in Hc. congruence.
  - intros ->. constructor. apply Z.eqb_refl.
Qed.

(** X28. The format check accepts exactly the addresses made of a local
    part, "@", a domain, "." and an ending, each of the three
    non-empty and free of the characters of [\s] and of "@", code unit
    by code unit: so an address that is accepted has one "@" only, and
    a "." after it with something on both sides. *)
Theorem emailRegex_accepts_exactly (email : string) :
  Regex.test emailRegex email = true
  ↔ ∃ local domain ending,
      Str.units email
      = local ++ Str.code "@" :: domain ++ Str.code "." :: ending
      ∧ local ≠ [] ∧ domain ≠ [] ∧ ending ≠ []
      ∧ forallb not_space_at local = true
      ∧ forallb not_space_at domain = true
      ∧ forallb not_space_at ending = true.
Proof.
  unfold Regex.test, emailRegex. rewrite matches_lang. split.
  - intros H.
    apply cat_inv in H as (l & r1 & -> & Hl & H).
    apply cat_inv in H as (at_ & r2 & -> & Hat & H).
    apply cat_inv in H as (d & r3 & -> & Hd & H).
    apply cat_inv in H as (dot & t & -> & Hdot & Ht).
    apply lang_plus_class in Hl as [Hl1 Hl2].
    apply lang_lit in Hat. apply lang_plus_class in Hd as [Hd1 Hd2].
    apply lang_lit in Hdot. apply lang_plus_class in Ht as [Ht1 Ht2].
    subst. exists l, d, t. repeat split; assumption.
  - intros (l & d & t & -> & Hl & Hd & Ht & Fl & Fd & Ft).
    constructor; [apply lang_plus_class; tauto|].
    change (Str.code "@" :: d ++ Str.code "." :: t)
      with ([Str.code "@"] ++ (d ++ [Str.code "."] ++ t)).
    constructor; [apply lang_lit; reflexivity|].
    constructor; [apply lang_plus_class; tauto|].
    constructor; [apply lang_lit; reflexivity | apply lang_plus_class; tauto].
Qed.

End EmailPatternMeaning.
